(** * ACH/NACHA file parser: a shallow embedding of [ach_parser.py]
    (the file [ach_nacha_file_parser_(_lob).py] of the repository)

    The development follows the source file top to bottom: the text
    primitives of the Python runtime the parser relies on ([str.strip],
    slicing, [str.splitlines], [int]), the schema registry
    [RECORD_DEFINITIONS], the record decoder [parse_record], the assembling
    loop of [parse_ach_file_content] and the file wrapper
    [parse_ach_lob_file].

    Text is modelled by [string], whose characters are the code points
    0..255; the reader of the repository opens its files as ASCII. The
    dictionaries built by the parser are insertion-ordered association
    lists, and the batch and entry dictionaries, which the loop mutates
    through several references, live in an explicit store.

    The module [Heap] gives the same functions a second reading, one
    level lower: every dictionary and list is an object at an address of
    one heap, the registry among them, and the functions are computations
    that read and write the heap. It serves the statements about what a
    call leaves behind in the process. *)

From Stdlib Require Import Ascii.
From stdpp Require Import base list strings sorting.

Local Open Scope Z_scope.
Local Open Scope nat_scope.

(** ** Text primitives *)

Module Text.

Definition code (c : ascii) : nat := nat_of_ascii c.

(** [c.isspace()] on the first 256 code points: TAB, LF, VT, FF, CR,
    FS, GS, RS, US, SPACE, NEL and NBSP. *)
Definition isspace (c : ascii) : bool :=
  let n := code c in
  ((9 <=? n) && (n <=? 13)) || ((28 <=? n) && (n <=? 32))
  || (n =? 133) || (n =? 160).

(** The line boundaries of [str.splitlines]: LF, VT, FF, CR, FS, GS, RS
    and NEL (US is white space but not a boundary). *)
Definition is_linebreak (c : ascii) : bool :=
  let n := code c in
  ((10 <=? n) && (n <=? 13)) || ((28 <=? n) && (n <=? 30)) || (n =? 133).

Definition is_nine (c : ascii) : bool := Ascii.eqb c "9".

(** [all(p(c) for c in s)] *)
Fixpoint all (p : ascii → bool) (s : string) : bool :=
  match s with
  | EmptyString => true
  | String c s' => p c && all p s'
  end.

(** [all(c == '9' for c in s)] *)
Definition all_nines (s : string) : bool := all is_nine s.

Fixpoint lstrip (s : string) : string :=
  match s with
  | EmptyString => EmptyString
  | String c s' => if isspace c then lstrip s' else s
  end.

Fixpoint rstrip (s : string) : string :=
  match s with
  | EmptyString => EmptyString
  | String c s' =>
      match rstrip s' with
      | EmptyString => if isspace c then EmptyString else String c EmptyString
      | r => String c r
      end
  end.

(** [s.strip()] *)
Definition strip (s : string) : string := rstrip (lstrip s).

(** [s[start:stop]] for non-negative bounds: both are clamped to the
    length of [s], and the slice is empty when [stop <= start]. *)
Definition slice (s : string) (start stop : nat) : string :=
  String.substring start (stop - start) s.

(** [s.startswith(p)] *)
Definition startswith (s p : string) : bool := String.prefix p s.

(** [s.endswith(p)] *)
Definition endswith (s p : string) : bool :=
  (String.length p <=? String.length s)
  && String.eqb (slice s (String.length s - String.length p) (String.length s)) p.

(** [sub in s] for strings *)
Definition contains (sub s : string) : bool :=
  match String.index 0 sub s with Some _ => true | None => false end.

(** [s.splitlines()]: [cur] is the line being read; a break at the very
    end of the text opens no further line. *)
Fixpoint splitlines_from (cur : string) (s : string) : list string :=
  match s with
  | EmptyString => match cur with EmptyString => [] | _ => [cur] end
  | String c rest =>
      if Ascii.eqb c "013" then
        match rest with
        | String c' rest' =>
            if Ascii.eqb c' "010" then cur :: splitlines_from EmptyString rest'
            else cur :: splitlines_from EmptyString rest
        | EmptyString => [cur]
        end
      else if is_linebreak c then cur :: splitlines_from EmptyString rest
      else splitlines_from (cur +:+ String c EmptyString) rest
  end.

Definition splitlines (s : string) : list string := splitlines_from EmptyString s.

(** [[s[i:i+width] for i in range(0, len(s), width)]] *)
Definition chunks (width : nat) (s : string) : list string :=
  (λ k, slice s (width * k) (width * k + width))
    <$> seq 0 ((String.length s + (width - 1)) / width).

Definition digit_value (c : ascii) : option Z :=
  let n := code c in
  if (48 <=? n) && (n <=? 57) then Some (Z.of_nat (n - 48)) else None.

(** The digit part of a decimal literal accepted by [int]: digits, with
    single underscores allowed between two digits. [after_digit] tells
    whether the previous character was a digit. *)
Fixpoint int_digits (acc : Z) (after_digit : bool) (s : string) : option Z :=
  match s with
  | EmptyString => if after_digit then Some acc else None
  | String c s' =>
      match digit_value c with
      | Some d => int_digits (10 * acc + d)%Z true s'
      | None =>
          if Ascii.eqb c "_" && after_digit then int_digits acc false s'
          else None
      end
  end.

(** [int(s)]: [None] stands for [ValueError]. White space around the
    literal is ignored, then comes an optional sign and the digits. The
    limit on the number of digits ([sys.int_max_str_digits], 4300 by
    default) is out of reach of the slices of a record. *)
Definition int (s : string) : option Z :=
  match strip s with
  | String "+" r => int_digits 0 false r
  | String "-" r => Z.opp <$> int_digits 0 false r
  | t => int_digits 0 false t
  end.

End Text.

(** ** Values and dictionaries *)

(** A decoded field is text or, after a successful conversion, an
    integer. *)
Inductive field_value :=
| VStr (s : string)
| VInt (z : Z).

(** A Python [dict] with string keys, in insertion order. *)
Abbreviation dict V := (list (string * V)).

(** [d.get(k)] *)
Fixpoint dict_get {V} (d : dict V) (k : string) : option V :=
  match d with
  | [] => None
  | (k', v) :: d' => if String.eqb k' k then Some v else dict_get d' k
  end.

(** [d[k] = v]: an existing key keeps its place, a new one goes last. *)
Fixpoint dict_set {V} (d : dict V) (k : string) (v : V) : dict V :=
  match d with
  | [] => [(k, v)]
  | (k', v') :: d' =>
      if String.eqb k' k then (k', v) :: d' else (k', v') :: dict_set d' k v
  end.

(** [k in d] *)
Definition dict_has {V} (d : dict V) (k : string) : bool :=
  match dict_get d k with Some _ => true | None => false end.

(** A decoded record: field name to value. *)
Abbreviation record := (dict field_value).

(** ** Schema registry *)

(** [(start, end, description)], positions 0-indexed, [end] excluded. *)
Definition field_spec : Type := nat * nat * string.
Definition definition : Type := dict field_spec.
Definition registry : Type := dict definition.

Definition RECORD_DEFINITIONS : registry := [
  ("1", [
    ("record_type_code", (0, 1, "Record Type Code"));
    ("priority_code", (1, 3, "Priority Code"));
    ("immediate_destination", (3, 13, "Immediate Destination"));
    ("immediate_origin", (13, 23, "Immediate Origin"));
    ("file_creation_date", (23, 29, "File Creation Date (YYMMDD)"));
    ("file_creation_time", (29, 33, "File Creation Time (HHMM)"));
    ("file_id_modifier", (33, 34, "File ID Modifier"));
    ("record_size", (34, 37, "Record Size (must be 094)"));
    ("blocking_factor", (37, 39, "Blocking Factor (must be 10)"));
    ("format_code", (39, 40, "Format Code (must be 1)"));
    ("immediate_destination_name", (40, 63, "Immediate Destination Name"));
    ("immediate_origin_name", (63, 86, "Immediate Origin Name"));
    ("reference_code", (86, 94, "Reference Code"))
  ]);
  ("5", [
    ("record_type_code", (0, 1, "Record Type Code"));
    ("service_class_code", (1, 4, "Service Class Code (200=Mixed, 220=Credits, 225=Debits)"));
    ("company_name", (4, 20, "Company Name"));
    ("company_discretionary_data", (20, 40, "Company Discretionary Data"));
    ("company_identification", (40, 50, "Company Identification (EIN or DDA)"));
    ("standard_entry_class_code", (50, 53, "Standard Entry Class Code (e.g., PPD, CCD)"));
    ("company_entry_description", (53, 63, "Company Entry Description"));
    ("company_descriptive_date", (63, 69, "Company Descriptive Date (YYMMDD or other)"));
    ("effective_entry_date", (69, 75, "Effective Entry Date (YYMMDD)"));
    ("settlement_date_julian", (75, 78, "Settlement Date (Julian)"));
    ("originator_status_code", (78, 79, "Originator Status Code (1=DFI)"));
    ("originating_dfi_identification", (79, 87, "Originating DFI Identification (Routing Number)"));
    ("batch_number", (87, 94, "Batch Number"))
  ]);
  ("6", [
    ("record_type_code", (0, 1, "Record Type Code"));
    ("transaction_code", (1, 3, "Transaction Code"));
    ("receiving_dfi_identification", (3, 11, "Receiving DFI Identification (Routing Number, first 8 digits)"));
    ("check_digit", (11, 12, "Check Digit (9th digit of routing number)"));
    ("dfi_account_number", (12, 29, "DFI Account Number"));
    ("amount", (29, 39, "Amount (cents)"));
    ("individual_identification_number", (39, 54, "Individual Identification Number (Receiver ID)"));
    ("individual_name", (54, 76, "Individual Name (Receiver Name)"));
    ("discretionary_data", (76, 78, "Discretionary Data (Payment Type Code)"));
    ("addenda_record_indicator", (78, 79, "Addenda Record Indicator (0=No, 1=Yes)"));
    ("trace_number", (79, 94, "Trace Number"))
  ]);
  ("7", [
    ("record_type_code", (0, 1, "Record Type Code"));
    ("addenda_type_code", (1, 3, "Addenda Type Code (e.g., 05 for payment related)"));
    ("payment_related_information", (3, 83, "Payment Related Information"));
    ("addenda_sequence_number", (83, 87, "Addenda Sequence Number"));
    ("entry_detail_sequence_number", (87, 94, "Entry Detail Sequence Number"))
  ]);
  ("8", [
    ("record_type_code", (0, 1, "Record Type Code"));
    ("service_class_code", (1, 4, "Service Class Code (matches Batch Header)"));
    ("entry_addenda_count", (4, 10, "Entry/Addenda Count"));
    ("entry_hash", (10, 20, "Entry Hash (Sum of RDFI ID numbers)"));
    ("total_debit_entry_dollar_amount", (20, 32, "Total Debit Entry Dollar Amount (cents)"));
    ("total_credit_entry_dollar_amount", (32, 44, "Total Credit Entry Dollar Amount (cents)"));
    ("company_identification", (44, 54, "Company Identification (matches Batch Header)"));
    ("message_authentication_code", (54, 73, "Message Authentication Code (MAC)"));
    ("reserved", (73, 79, "Reserved"));
    ("originating_dfi_identification", (79, 87, "Originating DFI Identification (matches Batch Header)"));
    ("batch_number", (87, 94, "Batch Number (matches Batch Header)"))
  ]);
  ("9", [
    ("record_type_code", (0, 1, "Record Type Code"));
    ("batch_count", (1, 7, "Batch Count"));
    ("block_count", (7, 13, "Block Count (lines/10, rounded up)"));
    ("entry_addenda_count", (13, 21, "Entry/Addenda Count"));
    ("entry_hash", (21, 31, "Entry Hash (Sum of Entry Hash totals from Batch Control)"));
    ("total_debit_entry_dollar_amount_in_file", (31, 43, "Total Debit Entry Dollar Amount in File (cents)"));
    ("total_credit_entry_dollar_amount_in_file", (43, 55, "Total Credit Entry Dollar Amount in File (cents)"));
    ("reserved", (55, 94, "Reserved"))
  ])
].

(** ** Record decoder *)

(** The field names [parse_record] converts to integers. *)
Definition numeric_fields : list string := [
  "amount"; "total_debit_entry_dollar_amount"; "total_credit_entry_dollar_amount";
  "entry_addenda_count"; "entry_hash"; "batch_count"; "block_count";
  "total_debit_entry_dollar_amount_in_file"; "total_credit_entry_dollar_amount_in_file"
].

(** [field_name in [...]] *)
Definition is_numeric_field (field_name : string) : bool :=
  existsb (String.eqb field_name) numeric_fields.

(** [int(value) if value else 0]; [None] is the [ValueError] of [int]. *)
Definition int_or_zero (value : string) : option Z :=
  match value with
  | EmptyString => Some 0%Z
  | _ => Text.int value
  end.

(** The body of the [try]: the three branches on the field name, each
    assigning the converted value. [None] when [int] raises or when no
    branch applies; the [except] clause then leaves the text in place. *)
Definition converted (field_name value : string) : option field_value :=
  if Text.contains "amount" field_name then VInt <$> int_or_zero value
  else if Text.contains "hash" field_name then VInt <$> int_or_zero value
  else if Text.contains "count" field_name then VInt <$> int_or_zero value
  else None.

(** One turn of the loop over [definition.items()]. *)
Definition decode_field (line : string) (parsed : record)
    (item : string * field_spec) : record :=
  let '(field_name, (start, end_, _)) := item in
  let value := Text.strip (Text.slice line start (Nat.min end_ (String.length line))) in
  let parsed := dict_set parsed field_name (VStr value) in
  if is_numeric_field field_name then
    match converted field_name value with
    | Some v => dict_set parsed field_name v
    | None => parsed
    end
  else parsed.

(** The value [parse_record] leaves under a field name. *)
Definition decoded_value (line : string) (field_name : string) (spec : field_spec)
    : field_value :=
  let '(start, end_, _) := spec in
  let value := Text.strip (Text.slice line start (Nat.min end_ (String.length line))) in
  if is_numeric_field field_name then default (VStr value) (converted field_name value)
  else VStr value.

(** The loop over [definition.items()], from the empty dictionary. *)
Definition decode_fields (line : string) (definition : definition) : record :=
  fold_left (decode_field line) definition [].

Arguments decode_fields : simpl never.

(** [parse_record(line)], reading the registry [defs] where the source
    reads the module-level [RECORD_DEFINITIONS]. The first component is the
    record type ([None], the first character, ["filler"] or ["unknown"]),
    the second the decoded record. The warning printed for an unknown type
    goes to the standard output and is not part of the result. *)
Definition parse_record (defs : registry) (line : string)
    : option string * option record :=
  match line with
  | EmptyString => (None, None)
  | String c _ =>
      let record_type := String c EmptyString in
      match dict_get defs record_type with
      | Some ((_ :: _) as definition) =>
          (Some record_type, Some (decode_fields line definition))
      | _ =>
          if String.eqb record_type "9" && Text.all_nines line then
            (Some "filler", Some [("raw_line", VStr (Text.strip line))])
          else
            (Some "unknown", Some [("raw_line", VStr (Text.strip line))])
      end
  end.

(** ** Diagnostics

    The source appends formatted messages to [ach_data["errors"]]. A
    diagnostic keeps the message template (one constructor per f-string of
    the source) and the values interpolated in it. *)
Inductive diagnostic :=
| InvalidContentType
    (* "Invalid ACH content type. Expected string or list of strings." *)
| LengthMismatch (line_number len : nat) (content : string)
    (* "Line {n}: Expected 94 characters, got {len}. Content: '{content}'" *)
| CouldNotParse (line_number : nat) (content : string)
    (* "Line {n}: Could not parse line. Content: '{content}'" *)
| UnexpectedBatchHeader (line_number : nat)
    (* "Line {n}: Unexpected Batch Header. Previous batch not closed." *)
| EntryOutsideBatch (line_number : nat)
    (* "Line {n}: Entry Detail Record found outside of a batch." *)
| AddendaWithoutEntry (line_number : nat)
    (* "Line {n}: Addenda Record found without a preceding Entry Detail." *)
| AddendaNotAssociated (line_number : nat) (addenda : record)
    (* "Line {n}: Could not associate Addenda with an Entry. Addenda: {record}" *)
| BatchControlOutsideBatch (line_number : nat)
    (* "Line {n}: Batch Control Record found outside of a batch context." *)
| UnknownRecordType (line_number : nat) (data : record)
    (* "Line {n}: Encountered an unknown record type. Data: {record}" *)
| FileNotFound (file_path : string)
    (* "Error: File not found at {file_path}" *)
| ReadFailure (file_path : string) (e : string)
    (* "Error reading file {file_path}: {e}" *)
| EmptyFile (file_path : string).
    (* "File {file_path} is empty or contains only whitespace." *)

(** The categories of the specification's error taxonomy. *)
Inductive category :=
| ContentTypeError | LengthError | DecodeError | StructuralError
| AssociationError | UnknownRecordTypeError | ReadError.

Definition category_of (d : diagnostic) : category :=
  match d with
  | InvalidContentType => ContentTypeError
  | LengthMismatch _ _ _ => LengthError
  | CouldNotParse _ _ => DecodeError
  | UnexpectedBatchHeader _ | EntryOutsideBatch _
  | AddendaWithoutEntry _ | BatchControlOutsideBatch _ => StructuralError
  | AddendaNotAssociated _ _ => AssociationError
  | UnknownRecordType _ _ => UnknownRecordTypeError
  | FileNotFound _ | ReadFailure _ _ | EmptyFile _ => ReadError
  end.

(** The source line a diagnostic is about, when it names one. *)
Definition line_of (d : diagnostic) : option nat :=
  match d with
  | LengthMismatch n _ _ | CouldNotParse n _ | UnexpectedBatchHeader n
  | EntryOutsideBatch n | AddendaWithoutEntry n | AddendaNotAssociated n _
  | BatchControlOutsideBatch n | UnknownRecordType n _ => Some n
  | InvalidContentType | FileNotFound _ | ReadFailure _ _ | EmptyFile _ => None
  end.

(** ** The state of the assembling loop

    [parse_ach_file_content] appends each batch dictionary to
    [ach_data["batches"]] and keeps a second reference to it in
    [current_batch]; an entry dictionary is referenced from the [entries]
    list of its batch and from [current_entry]. The dictionaries are
    therefore kept in two stores and named by their index. *)

Abbreviation loc := nat.

(** An entry dictionary: the decoded ['6'] record and its [addenda] key. *)
Record entry_obj := {
  eo_fields : record;
  eo_addenda : list record
}.

(** A batch dictionary: the decoded ['5'] record, its [entries] key and
    its [batch_control] key, absent until a ['8'] record closes the batch. *)
Record batch_obj := {
  bo_fields : record;
  bo_entries : list loc;
  bo_control : option record
}.

(** An element of [ach_data["other_records"]]. *)
Record other_record := {
  type : string;
  data : record
}.

Record state := {
  st_file_header : option record;
  st_batches : list loc;
  st_file_control : option record;
  st_errors : list diagnostic;
  st_other_records : list other_record;
  current_batch : option loc;
  current_entry : option loc;
  batch_store : list batch_obj;
  entry_store : list entry_obj
}.

#[global] Instance entry_obj_inhabited : Inhabited entry_obj :=
  populate {| eo_fields := []; eo_addenda := [] |}.
#[global] Instance batch_obj_inhabited : Inhabited batch_obj :=
  populate {| bo_fields := []; bo_entries := []; bo_control := None |}.

(** The state at the entry of the loop. *)
Definition initial_state : state := {|
  st_file_header := None; st_batches := []; st_file_control := None;
  st_errors := []; st_other_records := [];
  current_batch := None; current_entry := None;
  batch_store := []; entry_store := []
|}.

(** [ach_data["errors"].append(d)] *)
Definition append_error (d : diagnostic) (st : state) : state := {|
  st_file_header := st_file_header st; st_batches := st_batches st;
  st_file_control := st_file_control st;
  st_errors := st_errors st ++ [d];
  st_other_records := st_other_records st;
  current_batch := current_batch st; current_entry := current_entry st;
  batch_store := batch_store st; entry_store := entry_store st
|}.

(** [ach_data["other_records"].append({"type": t, "data": parsed_record})] *)
Definition append_other (t : string) (parsed_record : record) (st : state) : state := {|
  st_file_header := st_file_header st; st_batches := st_batches st;
  st_file_control := st_file_control st;
  st_errors := st_errors st;
  st_other_records := st_other_records st ++ [{| type := t; data := parsed_record |}];
  current_batch := current_batch st; current_entry := current_entry st;
  batch_store := batch_store st; entry_store := entry_store st
|}.

(** [ach_data["file_header"] = parsed_record] *)
Definition set_file_header (parsed_record : record) (st : state) : state := {|
  st_file_header := Some parsed_record; st_batches := st_batches st;
  st_file_control := st_file_control st;
  st_errors := st_errors st; st_other_records := st_other_records st;
  current_batch := current_batch st; current_entry := current_entry st;
  batch_store := batch_store st; entry_store := entry_store st
|}.

(** [ach_data["file_control"] = parsed_record] *)
Definition set_file_control (parsed_record : record) (st : state) : state := {|
  st_file_header := st_file_header st; st_batches := st_batches st;
  st_file_control := Some parsed_record;
  st_errors := st_errors st; st_other_records := st_other_records st;
  current_batch := current_batch st; current_entry := current_entry st;
  batch_store := batch_store st; entry_store := entry_store st
|}.

(** [current_batch = parsed_record; current_batch["entries"] = [];
    ach_data["batches"].append(current_batch)]: the new dictionary gets the
    next free index of the batch store. [current_entry] is not assigned. *)
Definition open_batch (parsed_record : record) (st : state) : state :=
  let b := length (batch_store st) in {|
  st_file_header := st_file_header st;
  st_batches := st_batches st ++ [b];
  st_file_control := st_file_control st;
  st_errors := st_errors st; st_other_records := st_other_records st;
  current_batch := Some b; current_entry := current_entry st;
  batch_store := batch_store st
    ++ [{| bo_fields := parsed_record; bo_entries := []; bo_control := None |}];
  entry_store := entry_store st
|}.

Definition push_entry (e : loc) (o : batch_obj) : batch_obj :=
  {| bo_fields := bo_fields o; bo_entries := bo_entries o ++ [e];
     bo_control := bo_control o |}.

(** [current_entry = parsed_record; current_entry["addenda"] = [];
    current_batch["entries"].append(current_entry)], for the batch [b]
    that [current_batch] refers to. *)
Definition open_entry (b : loc) (parsed_record : record) (st : state) : state :=
  let e := length (entry_store st) in {|
  st_file_header := st_file_header st; st_batches := st_batches st;
  st_file_control := st_file_control st;
  st_errors := st_errors st; st_other_records := st_other_records st;
  current_batch := current_batch st; current_entry := Some e;
  batch_store := alter (push_entry e) b (batch_store st);
  entry_store := entry_store st ++ [{| eo_fields := parsed_record; eo_addenda := [] |}]
|}.

Definition push_addenda (parsed_record : record) (o : entry_obj) : entry_obj :=
  {| eo_fields := eo_fields o; eo_addenda := eo_addenda o ++ [parsed_record] |}.

(** [entry["addenda"].append(parsed_record)] for the entry dictionary [e] *)
Definition attach_addenda (e : loc) (parsed_record : record) (st : state) : state := {|
  st_file_header := st_file_header st; st_batches := st_batches st;
  st_file_control := st_file_control st;
  st_errors := st_errors st; st_other_records := st_other_records st;
  current_batch := current_batch st; current_entry := current_entry st;
  batch_store := batch_store st;
  entry_store := alter (push_addenda parsed_record) e (entry_store st)
|}.

Definition put_control (parsed_record : record) (o : batch_obj) : batch_obj :=
  {| bo_fields := bo_fields o; bo_entries := bo_entries o;
     bo_control := Some parsed_record |}.

(** [current_batch["batch_control"] = parsed_record; current_batch = None;
    current_entry = None], for the batch [b] that [current_batch] refers
    to. *)
Definition close_batch (b : loc) (parsed_record : record) (st : state) : state := {|
  st_file_header := st_file_header st; st_batches := st_batches st;
  st_file_control := st_file_control st;
  st_errors := st_errors st; st_other_records := st_other_records st;
  current_batch := None; current_entry := None;
  batch_store := alter (put_control parsed_record) b (batch_store st);
  entry_store := entry_store st
|}.

(** ** Exceptions *)

Inductive exn := AttributeError | TypeError.

Inductive outcome (A : Type) :=
| Returned (a : A)
| Raised (e : exn).
Arguments Returned {A} a.
Arguments Raised {A} e.

Definition outcome_map {A B} (f : A → B) (o : outcome A) : outcome B :=
  match o with
  | Returned a => Returned (f a)
  | Raised e => Raised e
  end.

(** ** The assembling loop *)

(** Truth value of a decoded field: the empty text and zero are false. *)
Definition truthy (v : field_value) : bool :=
  match v with
  | VStr EmptyString => false
  | VStr _ => true
  | VInt z => negb (z =? 0)%Z
  end.

(** [record_type == t]; [None] equals no text. *)
Definition is_type (record_type : option string) (t : string) : bool :=
  match record_type with
  | Some r => String.eqb r t
  | None => false
  end.

(** The length check at the head of the loop body. *)
Definition check_length (line_number : nat) (line : string) (st : state) : state :=
  if negb (String.length line =? 94)
     && negb (Text.startswith line "9" && Text.all_nines (Text.strip line))
  then
    let is_filler_line_strict := Text.all_nines line in
    if negb is_filler_line_strict then
      append_error
        (LengthMismatch line_number (String.length line) (Text.strip line)) st
    else st
  else st.

(** The [else] of the addenda branch: attach to the last entry of the
    current batch when there is one. A batch dictionary always holds keys,
    so [current_batch] is true exactly when it is not [None]. *)
Definition addenda_fallback (line_number : nat) (parsed_record : record)
    (st : state) : state :=
  match current_batch st with
  | Some b =>
      match last (bo_entries (batch_store st !!! b)) with
      | Some e => attach_addenda e parsed_record st
      | None => append_error (AddendaNotAssociated line_number parsed_record) st
      end
  | None => append_error (AddendaNotAssociated line_number parsed_record) st
  end.

(** The branch [record_type == '7']. [str.endswith] takes text: an integer
    on either side raises. *)
Definition on_addenda (line_number : nat) (parsed_record : record)
    (st : state) : outcome state :=
  match current_entry st with
  | None => Returned (append_error (AddendaWithoutEntry line_number) st)
  | Some e =>
      match dict_get parsed_record "entry_detail_sequence_number" with
      | Some entry_detail_seq_from_addenda =>
          if truthy entry_detail_seq_from_addenda then
            match default (VStr EmptyString)
                    (dict_get (eo_fields (entry_store st !!! e)) "trace_number"),
                  entry_detail_seq_from_addenda with
            | VStr trace_number, VStr seq =>
                if Text.endswith trace_number seq
                then Returned (attach_addenda e parsed_record st)
                else Returned (addenda_fallback line_number parsed_record st)
            | VStr _, VInt _ => Raised TypeError
            | VInt _, _ => Raised AttributeError
            end
          else Returned (addenda_fallback line_number parsed_record st)
      | None => Returned (addenda_fallback line_number parsed_record st)
      end
  end.

(** The branch [record_type == '9']. *)
Definition on_file_control (parsed_record : record) (st : state) : outcome state :=
  match dict_get parsed_record "raw_line" with
  | Some (VInt _) => Raised TypeError
  | Some (VStr raw_line) =>
      if Text.all_nines raw_line then Returned (append_other "filler" parsed_record st)
      else if dict_has parsed_record "batch_count"
      then Returned (set_file_control parsed_record st)
      else Returned (set_file_control parsed_record st)
  | None =>
      if dict_has parsed_record "batch_count"
      then Returned (set_file_control parsed_record st)
      else Returned (set_file_control parsed_record st)
  end.

(** The [if]/[elif] chain on the record type. *)
Definition dispatch (line_number : nat) (record_type : option string)
    (parsed_record : record) (st : state) : outcome state :=
  if is_type record_type "1" then
    Returned (set_file_header parsed_record st)
  else if is_type record_type "5" then
    let st :=
      match current_batch st with
      | Some _ => append_error (UnexpectedBatchHeader line_number) st
      | None => st
      end in
    Returned (open_batch parsed_record st)
  else if is_type record_type "6" then
    match current_batch st with
    | None => Returned (append_error (EntryOutsideBatch line_number) st)
    | Some b => Returned (open_entry b parsed_record st)
    end
  else if is_type record_type "7" then
    on_addenda line_number parsed_record st
  else if is_type record_type "8" then
    match current_batch st with
    | None => Returned (append_error (BatchControlOutsideBatch line_number) st)
    | Some b => Returned (close_batch b parsed_record st)
    end
  else if is_type record_type "9" then
    on_file_control parsed_record st
  else if is_type record_type "filler" then
    Returned (append_other "filler" parsed_record st)
  else if is_type record_type "unknown" then
    Returned
      (append_error (UnknownRecordType line_number parsed_record)
         (append_other "unknown" parsed_record st))
  else Returned st.

(** One turn of the loop over [enumerate(lines)], for a line of text. *)
Definition loop_body (defs : registry) (line_number : nat) (line : string)
    (st : state) : outcome state :=
  if String.length (Text.strip line) =? 0 then Returned st
  else
    let st := check_length line_number line st in
    match parse_record defs line with
    | (record_type, Some ((_ :: _) as parsed_record)) =>
        dispatch line_number record_type parsed_record st
    | _ => Returned (append_error (CouldNotParse line_number (Text.strip line)) st)
    end.

(** ** Inputs *)

(** The Python values the model of the entry point covers. *)
#[warnings="-register-all"]
Inductive pyobj :=
| PyStr (s : string)
| PyList (items : list pyobj)
| PyInt (z : Z)
| PyNone.

(** [for i, line in enumerate(lines)], from index [i] on. Calling
    [line.strip()] on an element that is not text raises
    [AttributeError]. *)
Fixpoint loop (defs : registry) (i : nat) (lines : list pyobj) (st : state)
    : outcome state :=
  match lines with
  | [] => Returned st
  | PyStr line :: rest =>
      match loop_body defs (i + 1) line st with
      | Returned st' => loop defs (S i) rest st'
      | Raised e => Raised e
      end
  | _ :: _ => Raised AttributeError
  end.

(** ['\n' in s] *)
Definition has_newline (s : string) : bool :=
  Text.contains (String "010" EmptyString) s.

(** The assignment of [lines]: the lines of a text that holds a newline,
    its 94-character chunks when it holds none, the list itself for a
    list; [None] for any other value. *)
Definition lines_of (ach_content : pyobj) : option (list pyobj) :=
  match ach_content with
  | PyStr s =>
      Some (PyStr <$> (if has_newline s then Text.splitlines s else Text.chunks 94 s))
  | PyList lines => Some lines
  | _ => None
  end.

(** The final state of [parse_ach_file_content(ach_content)]. *)
Definition run (defs : registry) (ach_content : pyobj) : outcome state :=
  match lines_of ach_content with
  | Some lines => loop defs 0 lines initial_state
  | None => Returned (append_error InvalidContentType initial_state)
  end.

(** ** The returned value *)

Record entry := {
  entry_record : record;
  addenda : list record
}.

Record batch := {
  batch_record : record;
  entries : list entry;
  batch_control : option record
}.

(** The dictionary [ach_data], read through the stores. *)
Record ach_data := {
  file_header : option record;
  batches : list batch;
  file_control : option record;
  errors : list diagnostic;
  other_records : list other_record
}.

Definition entry_at (st : state) (e : loc) : entry :=
  let o := entry_store st !!! e in
  {| entry_record := eo_fields o; addenda := eo_addenda o |}.

Definition batch_at (st : state) (b : loc) : batch :=
  let o := batch_store st !!! b in
  {| batch_record := bo_fields o;
     entries := entry_at st <$> bo_entries o;
     batch_control := bo_control o |}.

Definition result_of (st : state) : ach_data := {|
  file_header := st_file_header st;
  batches := batch_at st <$> st_batches st;
  file_control := st_file_control st;
  errors := st_errors st;
  other_records := st_other_records st
|}.

(** [parse_ach_file_content(ach_content)] *)
Definition parse_ach_file_content (defs : registry) (ach_content : pyobj)
    : outcome ach_data :=
  outcome_map result_of (run defs ach_content).

(** ** The file wrapper *)

(** What opening and reading the file gives. *)
Inductive read_outcome :=
| ReadText (content : string)
| ReadNotFound
| ReadRaised (e : string).

(** The value of [parse_ach_lob_file]: a dictionary with the single key
    [errors], or the value of [parse_ach_file_content]. *)
Inductive lob_result :=
| ErrorsOnly (errors : list diagnostic)
| Parsed (r : outcome ach_data).

(** [parse_ach_lob_file(file_path)], for a file system [read]. *)
Definition parse_ach_lob_file (defs : registry) (read : string → read_outcome)
    (file_path : string) : lob_result :=
  match read file_path with
  | ReadNotFound => ErrorsOnly [FileNotFound file_path]
  | ReadRaised e => ErrorsOnly [ReadFailure file_path e]
  | ReadText content =>
      match Text.strip content with
      | EmptyString => ErrorsOnly [EmptyFile file_path]
      | _ => Parsed (parse_ach_file_content defs (PyStr content))
      end
  end.

(** ** The process: objects on a heap

    The dictionaries and lists of the Python process live on one heap and
    are named by their address: the registry and its schemas, the
    dictionaries [parse_record] returns, [ach_data] and its lists. An
    assignment to a key and an [append] change the object at an address,
    whoever else holds that address. *)

Module Heap.

(** A Python value: an immutable value or the address of an object. *)
Inductive hval :=
| HStr (s : string)
| HInt (z : Z)
| HNone
| HTuple (spec : field_spec)
| HMsg (d : diagnostic)
| HRef (l : loc).

(** A mutable object: a [dict] with text keys, or a [list]. *)
Inductive hobj :=
| HDict (items : dict hval)
| HList (items : list hval).

Abbreviation heap := (list hobj).

Inductive exception := AttributeError | TypeError | KeyError.

Inductive answer (A : Type) :=
| Value (a : A)
| Except (e : exception).
Arguments Value {A} a.
Arguments Except {A} e.

(** A computation on the heap: the heap it leaves and its value, or the
    exception it raises. *)
Definition M (A : Type) : Type := heap → heap * answer A.

Definition ret {A} (a : A) : M A := λ h, (h, Value a).

Definition raise {A} (e : exception) : M A := λ h, (h, Except e).

Definition bind {A B} (m : M A) (f : A → M B) : M B :=
  λ h, match m h with
       | (h1, Value a) => f a h1
       | (h1, Except e) => (h1, Except e)
       end.

Notation "'let!' x ':=' m 'in' k" := (bind m (λ x, k))
  (at level 10, x pattern, k at level 200).
Notation "m ;; k" := (bind m (λ _, k))
  (at level 100, k at level 200, right associativity).

(** A new object, at the next free address. *)
Definition alloc (o : hobj) : M loc := λ h, (h ++ [o], Value (length h)).

(** The object at an address. Every address a Python value holds names an
    object; the model raises on one that does not. *)
Definition load (l : loc) : M hobj :=
  λ h, (h, match h !! l with Some o => Value o | None => Except TypeError end).

Definition store (l : loc) (o : hobj) : M unit :=
  λ h, (<[l := o]> h, Value ()).

(** The object a value refers to. A value that is not an address has
    none of the methods the code calls ([AttributeError]) and none of the
    items it asks for ([TypeError]): [e] is the exception of the use. *)
Definition deref (e : exception) (v : hval) : M (loc * hobj) :=
  match v with
  | HRef l => let! o := load l in ret (l, o)
  | _ => raise e
  end.

(** [d.get(k)], also [k in d] *)
Definition get (d : hval) (k : string) : M (option hval) :=
  let! (_, o) := deref AttributeError d in
  match o with
  | HDict items => ret (dict_get items k)
  | HList _ => raise AttributeError
  end.

(** [d[k]] *)
Definition get_item (d : hval) (k : string) : M hval :=
  let! (_, o) := deref TypeError d in
  match o with
  | HDict items =>
      match dict_get items k with
      | Some v => ret v
      | None => raise KeyError
      end
  | HList _ => raise TypeError
  end.

(** [d[k] = v] *)
Definition set_item (d : hval) (k : string) (v : hval) : M unit :=
  let! (l, o) := deref TypeError d in
  match o with
  | HDict items => store l (HDict (dict_set items k v))
  | HList _ => raise TypeError
  end.

(** [xs.append(v)] *)
Definition append (xs : hval) (v : hval) : M unit :=
  let! (l, o) := deref AttributeError xs in
  match o with
  | HList items => store l (HList (items ++ [v]))
  | HDict _ => raise AttributeError
  end.

(** [d.items()] *)
Definition items (d : hval) : M (list (string * hval)) :=
  let! (_, o) := deref AttributeError d in
  match o with
  | HDict its => ret its
  | HList _ => raise AttributeError
  end.

(** [xs[-1]] for a list that holds an element *)
Definition last_item (xs : hval) : M hval :=
  let! (_, o) := deref TypeError xs in
  match o with
  | HList its =>
      match last its with
      | Some v => ret v
      | None => raise KeyError
      end
  | HDict _ => raise KeyError
  end.

(** The truth value of a Python value. *)
Definition truthy (v : hval) : M bool :=
  match v with
  | HStr s => ret (negb (String.eqb s EmptyString))
  | HInt z => ret (negb (z =? 0)%Z)
  | HNone => ret false
  | HTuple _ => ret true
  | HMsg _ => ret true
  | HRef l =>
      let! o := load l in
      ret match o with
          | HDict [] | HList [] => false
          | _ => true
          end
  end.

(** [for x in xs: body(x)] *)
Fixpoint for_each {A} (xs : list A) (body : A → M unit) : M unit :=
  match xs with
  | [] => ret ()
  | x :: rest => body x ;; for_each rest body
  end.

(** One turn of the loop of [parse_record] over [definition.items()]. *)
Definition decode_field (line : string) (parsed : hval) (item : string * hval) : M unit :=
  let '(field_name, spec) := item in
  match spec with
  | HTuple (start, end_, _) =>
      let value := Text.strip (Text.slice line start (Nat.min end_ (String.length line))) in
      set_item parsed field_name (HStr value) ;;
      if is_numeric_field field_name then
        match converted field_name value with
        | Some (VInt z) => set_item parsed field_name (HInt z)
        | _ => ret ()
        end
      else ret ()
  | _ => raise TypeError
  end.

(** [parse_record(line)], with the global [RECORD_DEFINITIONS] bound to the
    dictionary at the address [registry]. *)
Definition parse_record (registry : loc) (line : string) : M (hval * hval) :=
  match line with
  | EmptyString => ret (HNone, HNone)
  | String c _ =>
      let record_type := String c EmptyString in
      let! definition := get (HRef registry) record_type in
      let definition := default HNone definition in
      let! known := truthy definition in
      if negb known then
        if String.eqb record_type "9" && Text.all_nines line then
          let! p := alloc (HDict [("raw_line", HStr (Text.strip line))]) in
          ret (HStr "filler", HRef p)
        else
          let! p := alloc (HDict [("raw_line", HStr (Text.strip line))]) in
          ret (HStr "unknown", HRef p)
      else
        let! p := alloc (HDict []) in
        let! fields := items definition in
        for_each fields (decode_field line (HRef p)) ;;
        ret (HStr record_type, HRef p)
  end.

(** [ach_data["errors"].append(message)] *)
Definition append_error (ach_data : hval) (d : diagnostic) : M unit :=
  let! errors := get_item ach_data "errors" in
  append errors (HMsg d).

(** The items a message shows of a dictionary [parse_record] has just
    returned: its values are text and integers. *)
Definition as_record (its : dict hval) : record :=
  omap (λ '(k, v),
          match v with
          | HStr s => Some (k, VStr s)
          | HInt z => Some (k, VInt z)
          | _ => None
          end) its.

(** [ach_data["errors"].append(f"... {parsed_record}")] *)
Definition append_error_about (ach_data : hval) (d : record → diagnostic)
    (parsed_record : hval) : M unit :=
  let! errors := get_item ach_data "errors" in
  let! its := items parsed_record in
  append errors (HMsg (d (as_record its))).

(** [ach_data["other_records"].append({"type": t, "data": parsed_record})] *)
Definition append_other (ach_data : hval) (t : string) (parsed_record : hval) : M unit :=
  let! others := get_item ach_data "other_records" in
  let! o := alloc (HDict [("type", HStr t); ("data", parsed_record)]) in
  append others (HRef o).

(** [record_type == t] *)
Definition is_type (record_type : hval) (t : string) : bool :=
  match record_type with
  | HStr r => String.eqb r t
  | _ => false
  end.

(** The length check at the head of the loop body. *)
Definition check_length (ach_data : hval) (line_number : nat) (line : string) : M unit :=
  if negb (String.length line =? 94)
     && negb (Text.startswith line "9" && Text.all_nines (Text.strip line))
  then
    let is_filler_line_strict := Text.all_nines line in
    if negb is_filler_line_strict then
      append_error ach_data
        (LengthMismatch line_number (String.length line) (Text.strip line))
    else ret ()
  else ret ().

(** [trace.endswith(seq)]. The values of a decoded record are text and
    integers: text has the method and asks for text, an integer has no
    such method. *)
Definition endswith (trace seq : hval) : M bool :=
  match trace, seq with
  | HStr t, HStr s => ret (Text.endswith t s)
  | HStr _, _ => raise TypeError
  | HMsg _, _ => raise TypeError
  | _, _ => raise AttributeError
  end.

(** [all(c == '9' for c in v)], for a value of a decoded record: text is
    iterated, an integer is not iterable. *)
Definition all_nines (v : hval) : M bool :=
  match v with
  | HStr s => ret (Text.all_nines s)
  | HTuple _ => ret false
  | _ => raise TypeError
  end.

(** The branch [record_type == '7'], once a current entry is known. *)
Definition on_addenda (ach_data : hval) (line_number : nat) (parsed_record : hval)
    (current_batch current_entry : hval) : M unit :=
  let! seq := get parsed_record "entry_detail_sequence_number" in
  let entry_detail_seq_from_addenda := default HNone seq in
  let! given := truthy entry_detail_seq_from_addenda in
  let! matched :=
    if given then
      let! trace := get current_entry "trace_number" in
      endswith (default (HStr EmptyString) trace) entry_detail_seq_from_addenda
    else ret false in
  if matched then
    let! addenda := get_item current_entry "addenda" in
    append addenda parsed_record
  else
    let! open := truthy current_batch in
    let! has_entries :=
      if open then
        let! entries := get_item current_batch "entries" in
        truthy entries
      else ret false in
    if has_entries then
      let! entries := get_item current_batch "entries" in
      let! entry := last_item entries in
      let! addenda := get_item entry "addenda" in
      append addenda parsed_record
    else
      append_error_about ach_data (AddendaNotAssociated line_number) parsed_record.

(** The branch [record_type == '9']. *)
Definition on_file_control (ach_data : hval) (parsed_record : hval) : M unit :=
  let! raw_line := get parsed_record "raw_line" in
  let! filler :=
    match raw_line with
    | Some v => all_nines v
    | None => ret false
    end in
  if filler then append_other ach_data "filler" parsed_record
  else
    let! _ := get parsed_record "batch_count" in
    set_item ach_data "file_control" parsed_record.

(** The [if]/[elif] chain on the record type: the values of
    [current_batch] and [current_entry] after it. *)
Definition dispatch (ach_data : hval) (line_number : nat) (record_type parsed_record : hval)
    (current_batch current_entry : hval) : M (hval * hval) :=
  if is_type record_type "1" then
    set_item ach_data "file_header" parsed_record ;;
    ret (current_batch, current_entry)
  else if is_type record_type "5" then
    let! open := truthy current_batch in
    (if open then append_error ach_data (UnexpectedBatchHeader line_number) else ret ()) ;;
    let! entries := alloc (HList []) in
    set_item parsed_record "entries" (HRef entries) ;;
    let! batches := get_item ach_data "batches" in
    append batches parsed_record ;;
    ret (parsed_record, current_entry)
  else if is_type record_type "6" then
    let! open := truthy current_batch in
    if negb open then
      append_error ach_data (EntryOutsideBatch line_number) ;;
      ret (current_batch, current_entry)
    else
      let! addenda := alloc (HList []) in
      set_item parsed_record "addenda" (HRef addenda) ;;
      let! entries := get_item current_batch "entries" in
      append entries parsed_record ;;
      ret (current_batch, parsed_record)
  else if is_type record_type "7" then
    let! entry := truthy current_entry in
    if negb entry then
      append_error ach_data (AddendaWithoutEntry line_number) ;;
      ret (current_batch, current_entry)
    else
      on_addenda ach_data line_number parsed_record current_batch current_entry ;;
      ret (current_batch, current_entry)
  else if is_type record_type "8" then
    let! open := truthy current_batch in
    if negb open then
      append_error ach_data (BatchControlOutsideBatch line_number) ;;
      ret (current_batch, current_entry)
    else
      set_item current_batch "batch_control" parsed_record ;;
      ret (HNone, HNone)
  else if is_type record_type "9" then
    on_file_control ach_data parsed_record ;;
    ret (current_batch, current_entry)
  else if is_type record_type "filler" then
    append_other ach_data "filler" parsed_record ;;
    ret (current_batch, current_entry)
  else if is_type record_type "unknown" then
    append_other ach_data "unknown" parsed_record ;;
    append_error_about ach_data (UnknownRecordType line_number) parsed_record ;;
    ret (current_batch, current_entry)
  else ret (current_batch, current_entry).

(** One turn of the loop over [enumerate(lines)], for a line of text. *)
Definition loop_body (registry : loc) (ach_data : hval) (line_number : nat)
    (line : string) (current_batch current_entry : hval) : M (hval * hval) :=
  if String.length (Text.strip line) =? 0 then ret (current_batch, current_entry)
  else
    check_length ach_data line_number line ;;
    let! (record_type, parsed_record) := parse_record registry line in
    let! parsed := truthy parsed_record in
    if negb parsed then
      append_error ach_data (CouldNotParse line_number (Text.strip line)) ;;
      ret (current_batch, current_entry)
    else
      dispatch ach_data line_number record_type parsed_record current_batch current_entry.

(** [for i, line in enumerate(lines)], from index [i] on. *)
Fixpoint loop (registry : loc) (ach_data : hval) (i : nat) (lines : list pyobj)
    (current_batch current_entry : hval) : M unit :=
  match lines with
  | [] => ret ()
  | PyStr line :: rest =>
      let! (current_batch, current_entry) :=
        loop_body registry ach_data (i + 1) line current_batch current_entry in
      loop registry ach_data (S i) rest current_batch current_entry
  | _ :: _ => raise AttributeError
  end.

(** [parse_ach_file_content(ach_content)]: the address of [ach_data]. The
    list [lines] is only read, and is not kept on the heap. *)
Definition parse_ach_file_content (registry : loc) (ach_content : pyobj) : M hval :=
  let! batches := alloc (HList []) in
  let! errors := alloc (HList []) in
  let! other_records := alloc (HList []) in
  let! ach_data :=
    alloc (HDict [("file_header", HNone); ("batches", HRef batches);
                  ("file_control", HNone); ("errors", HRef errors);
                  ("other_records", HRef other_records)]) in
  match lines_of ach_content with
  | Some lines =>
      loop registry (HRef ach_data) 0 lines HNone HNone ;;
      ret (HRef ach_data)
  | None =>
      append_error (HRef ach_data) InvalidContentType ;;
      ret (HRef ach_data)
  end.

(** The module-level assignment [RECORD_DEFINITIONS = {...}]: a dictionary
    per schema, then the registry that refers to them; the value is the
    address of the registry. *)
Fixpoint define_schemas (defs : registry) : M (dict hval) :=
  match defs with
  | [] => ret []
  | (record_type, definition) :: rest =>
      let! d := alloc (HDict ((λ kv, (kv.1, HTuple kv.2)) <$> definition)) in
      let! entries := define_schemas rest in
      ret ((record_type, HRef d) :: entries)
  end.

Definition define_registry (defs : registry) : M loc :=
  let! entries := define_schemas defs in
  alloc (HDict entries).

(** What a value shows to one who follows its addresses, to the depth
    [fuel]. *)
#[warnings="-register-all"]
Inductive tree :=
| TStr (s : string)
| TInt (z : Z)
| TNone
| TTuple (spec : field_spec)
| TMsg (d : diagnostic)
| TDict (items : list (string * tree))
| TList (items : list tree)
| TMore.

Fixpoint reify (fuel : nat) (h : heap) (v : hval) : tree :=
  match v with
  | HStr s => TStr s
  | HInt z => TInt z
  | HNone => TNone
  | HTuple spec => TTuple spec
  | HMsg d => TMsg d
  | HRef l =>
      match fuel with
      | 0 => TMore
      | S fuel =>
          match h !! l with
          | Some (HDict its) => TDict ((λ kv, (kv.1, reify fuel h kv.2)) <$> its)
          | Some (HList its) => TList (reify fuel h <$> its)
          | None => TMore
          end
      end
  end.

(** The outcome of a call, as its caller sees it. *)
Definition observe (fuel : nat) (r : heap * answer hval) : answer tree :=
  match r.2 with
  | Value v => Value (reify fuel r.1 v)
  | Except e => Except e
  end.

(** No object of the heap holds an address beyond the heap. *)
Definition closed_val (h : heap) (v : hval) : Prop :=
  match v with
  | HRef l => l < length h
  | _ => True
  end.

Definition closed_obj (h : heap) (o : hobj) : Prop :=
  match o with
  | HDict its => Forall (λ kv, closed_val h kv.2) its
  | HList its => Forall (closed_val h) its
  end.

Definition closed (h : heap) : Prop := Forall (closed_obj h) h.

(** *** What a computation may write to *)

(** An address allocated since the heap had [n0] objects. *)
Definition fresh_val (n0 : nat) (v : hval) : Prop :=
  match v with
  | HRef l => n0 ≤ l
  | _ => True
  end.

Definition fresh_obj (n0 : nat) (o : hobj) : Prop :=
  match o with
  | HDict its => Forall (λ kv, fresh_val n0 kv.2) its
  | HList its => Forall (fresh_val n0) its
  end.

(** The objects allocated since hold addresses of such objects only. *)
Definition fresh_heap (n0 : nat) (h : heap) : Prop :=
  n0 ≤ length h ∧ ∀ l o, n0 ≤ l → h !! l = Some o → fresh_obj n0 o.

Definition answers {A} (P : A → Prop) (a : answer A) : Prop :=
  match a with
  | Value x => P x
  | Except _ => True
  end.

(** The computation [m] leaves the first [n0] objects as they are, and
    its value satisfies [P]. *)
Definition frames {A} (n0 : nat) (P : A → Prop) (m : M A) : Prop :=
  ∀ h, fresh_heap n0 h →
       take n0 (m h).1 = take n0 h ∧ fresh_heap n0 (m h).1 ∧ answers P (m h).2.

(** The objects of the heap [h] are those of the heap [h'] it grew from. *)
Definition extends (h' h : heap) : Prop := ∃ new, h = h' ++ new.

(** *** The same call on a larger heap

    The heap [h], which had [n0] objects when a computation started, set
    beside the heap in which [k] more objects came before those the
    computation allocates: the addresses from [n0] on are moved up by
    [k]. *)
Definition shift_loc (n0 k : nat) (l : loc) : loc :=
  if decide (l < n0) then l else l + k.

Definition shift_val (n0 k : nat) (v : hval) : hval :=
  match v with
  | HRef l => HRef (shift_loc n0 k l)
  | _ => v
  end.

Definition shift_items (n0 k : nat) (its : dict hval) : dict hval :=
  (λ kv, (kv.1, shift_val n0 k kv.2)) <$> its.

Definition shift_obj (n0 k : nat) (o : hobj) : hobj :=
  match o with
  | HDict its => HDict (shift_items n0 k its)
  | HList its => HList (shift_val n0 k <$> its)
  end.

(** The heap [h] with the objects [ext] put after its first [n0]
    objects. *)
Definition reloc (n0 : nat) (ext : heap) (h : heap) : heap :=
  (shift_obj n0 (length ext) <$> take n0 h) ++ ext
  ++ (shift_obj n0 (length ext) <$> drop n0 h).

Definition shift_answer {A} (sh : A → A) (a : answer A) : answer A :=
  match a with
  | Value x => Value (sh x)
  | Except e => Except e
  end.

(** The computation [m'] does on the larger heap what [m] does on the
    smaller one, [sh] moving the addresses in its value. *)
Definition simulates {A} (n0 : nat) (ext : heap) (sh : A → A) (m m' : M A) : Prop :=
  ∀ h, n0 ≤ length h →
       m' (reloc n0 ext h) = (reloc n0 ext (m h).1, shift_answer sh (m h).2)
       ∧ n0 ≤ length (m h).1.

(** *** What a call needs of the heap *)

(** The registry as the module defines it: a dictionary of schemas, each
    a dictionary of tuples [(start, end, description)]. *)
Definition schema_at (h : heap) (v : hval) : Prop :=
  ∃ l fields, v = HRef l ∧ h !! l = Some (HDict fields)
              ∧ Forall (λ kv, ∃ spec, kv.2 = HTuple spec) fields.

Definition registry_at (h : heap) (registry : loc) : Prop :=
  ∃ its, h !! registry = Some (HDict its) ∧ Forall (λ kv, schema_at h kv.2) its.

(** What the loop relies on when it uses an object: the kind of the
    object at each address. *)
Inductive kind :=
| KOld       (* an object the call found on the heap *)
| KAch       (* [ach_data] *)
| KList      (* a list the loop only appends to *)
| KEntries   (* the [entries] list of a batch *)
| KEntry     (* an entry dictionary *)
| KBatch     (* a batch dictionary *)
| KRec       (* a dictionary [parse_record] has returned *)
| KFree.     (* a dictionary the loop does not read again *)

(** The key [k] of a dictionary is absent or holds text. *)
Definition text_at (its : dict hval) (k : string) : Prop :=
  match dict_get its k with
  | Some (HStr _) | None => True
  | Some _ => False
  end.

Definition refers (Γ : list kind) (v : hval) (k : kind) : Prop :=
  ∃ l, v = HRef l ∧ Γ !! l = Some k.

(** The object [o] at the address [l] is of the kind [k]. *)
Definition shape (h0 : heap) (Γ : list kind) (l : loc) (k : kind) (o : hobj) : Prop :=
  match k with
  | KOld => h0 !! l = Some o
  | KAch =>
      ∃ its, o = HDict its
             ∧ (∃ v, dict_get its "batches" = Some v ∧ refers Γ v KList)
             ∧ (∃ v, dict_get its "errors" = Some v ∧ refers Γ v KList)
             ∧ (∃ v, dict_get its "other_records" = Some v ∧ refers Γ v KList)
  | KList => ∃ xs, o = HList xs
  | KEntries => ∃ xs, o = HList xs ∧ Forall (λ v, refers Γ v KEntry) xs
  | KEntry =>
      ∃ its, o = HDict its
             ∧ (∃ v, dict_get its "addenda" = Some v ∧ refers Γ v KList)
             ∧ text_at its "trace_number"
  | KBatch =>
      ∃ its, o = HDict its
             ∧ (∃ v, dict_get its "entries" = Some v ∧ refers Γ v KEntries)
  | KRec =>
      ∃ its, o = HDict its
             ∧ text_at its "trace_number"
             ∧ text_at its "entry_detail_sequence_number"
             ∧ text_at its "raw_line"
  | KFree => ∃ its, o = HDict its
  end.

(** Every object of the heap [h] is of the kind [Γ] gives its address. *)
Definition kinded (h0 : heap) (Γ : list kind) (h : heap) : Prop :=
  length Γ = length h
  ∧ ∀ l k o, Γ !! l = Some k → h !! l = Some o → shape h0 Γ l k o.

(** The kinds [Γ'] keep the kinds [Γ] gives, but for the dictionaries
    [parse_record] has returned, which become batches and entries. *)
Definition keeps (Γ Γ' : list kind) : Prop :=
  ∀ l k, Γ !! l = Some k → k ≠ KRec → Γ' !! l = Some k.

(** [None], or a dictionary of the kind [k]. *)
Definition none_or (Γ : list kind) (k : kind) (v : hval) : Prop :=
  v = HNone ∨ refers Γ v k.

(** The objects the call found are of the kind [KOld]. *)
Definition olds (h0 : heap) (Γ : list kind) : Prop :=
  ∀ l, l < length h0 → Γ !! l = Some KOld.

(** What the loop keeps between two lines. *)
Definition between_lines (h0 : heap) (Γ : list kind) (h : heap) (ach : loc)
    (cb ce : hval) : Prop :=
  kinded h0 Γ h ∧ olds h0 Γ ∧ Γ !! ach = Some KAch
  ∧ none_or Γ KBatch cb ∧ none_or Γ KEntry ce.

End Heap.

(** ** Shapes of inputs *)

(** [isinstance(v, str)] *)
Definition is_str (v : pyobj) : bool :=
  match v with PyStr _ => true | _ => false end.

(** [isinstance(v, list)] *)
Definition is_list (v : pyobj) : bool :=
  match v with PyList _ => true | _ => false end.

(** A list all of whose elements are text. *)
Definition is_list_of_str (v : pyobj) : bool :=
  match v with PyList items => forallb is_str items | _ => false end.

(** [p] is a suffix of [s]. *)
Definition is_suffix (p s : string) : Prop := ∃ q, s = q +:+ p.

(** The first character of [line] is [c]. *)
Definition has_type (c : ascii) (line : string) : Prop :=
  ∃ rest, line = String c rest.

(** ** Sample records *)

(** [s.ljust(width)] *)
Definition ljust (width : nat) (s : string) : string :=
  s +:+ String.string_of_list_ascii (replicate (width - String.length s) " "%char).

(** [n * '9'] *)
Definition nines (n : nat) : string :=
  String.string_of_list_ascii (replicate n "9"%char).

Definition sample_file_header : string :=
  ljust 63 ("101 076401251 0764012510807291511A094101" +:+ "DEST BANK")
  +:+ ljust 31 "ORIGIN CO".

Definition sample_batch_header : string :=
  "5200" +:+ ljust 16 "ACME CORP" +:+ ljust 20 EmptyString +:+ "1234567890"
  +:+ "PPD" +:+ ljust 10 "PAYROLL" +:+ "080729" +:+ "080730" +:+ "   " +:+ "1"
  +:+ "07640125" +:+ "0000001".

Definition sample_entry_detail : string :=
  "622" +:+ "07640125" +:+ "1" +:+ ljust 17 "12345678" +:+ "0000100000"
  +:+ ljust 15 "ID00001" +:+ ljust 22 "JANE DOE" +:+ "  " +:+ "1"
  +:+ "076401250000001".

Definition sample_addenda : string :=
  "705" +:+ ljust 80 "INVOICE 42" +:+ "0001" +:+ "0000001".

(** An addenda whose sequence columns are blank. *)
Definition sample_addenda_blank : string :=
  "705" +:+ ljust 91 "INVOICE 42".

Definition sample_batch_control : string :=
  "8200" +:+ "000002" +:+ "0007640125" +:+ "000000000000" +:+ "000000100000"
  +:+ "1234567890" +:+ ljust 25 EmptyString +:+ "07640125" +:+ "0000001".

Definition sample_file_control : string :=
  ljust 94 ("9" +:+ "000001" +:+ "000001" +:+ "00000002" +:+ "0007640125"
            +:+ "000000000000" +:+ "000000100000").

(** A line of 94 characters: a space, then nines. *)
Definition sample_indented_nines : string := " " +:+ nines 93.

(** The six records of a well-formed file. *)
Definition sample_file : list string := [
  sample_file_header; sample_batch_header; sample_entry_detail;
  sample_addenda; sample_batch_control; sample_file_control
].

(** A batch with one entry, then a second batch header before any batch
    control. *)
Definition sample_reopened : list string := [
  sample_batch_header; sample_entry_detail; sample_batch_header
].

(** [lines] joined by newlines, each line terminated. *)
Definition unlines (lines : list string) : string :=
  foldr (λ l acc, l +:+ String "010" acc) EmptyString lines.

(** ** Invariants of the loop *)

(** The schema of a record type, empty for an unknown one. *)
Definition schema (record_type : string) : definition :=
  default [] (dict_get RECORD_DEFINITIONS record_type).

(** What the conditions of the loop rely on in a decoded record: text under
    the two keys compared by the addenda rule, and no [raw_line] key in a
    record of type ['9']. *)
Definition typed_record (record_type : option string) (parsed_record : record) : Prop :=
  (is_type record_type "6" = true →
   ∀ z, dict_get parsed_record "trace_number" ≠ Some (VInt z))
  ∧ (is_type record_type "7" = true →
     ∃ s, dict_get parsed_record "entry_detail_sequence_number" = Some (VStr s))
  ∧ (is_type record_type "9" = true → dict_get parsed_record "raw_line" = None).


(** Every entry dictionary of the store holds text, if anything, under
    [trace_number]. *)
Definition well_formed (st : state) : Prop :=
  ∀ (e : loc) (o : entry_obj) (z : Z),
    entry_store st !! e = Some o →
    dict_get (eo_fields o) "trace_number" ≠ Some (VInt z).

(** How the state can differ after the lines numbered [lo + 1] to [hi]:
    diagnostics and batches are appended, a batch dictionary keeps its
    decoded fields, one that is not the current batch is not touched at
    all, and a batch that becomes current is a new one. *)
Record evolves (lo hi : nat) (st st' : state) : Prop := {
  ev_errors :
    ∃ new, st_errors st' = st_errors st ++ new
           ∧ Forall (λ d, ∃ n, line_of d = Some n ∧ lo < n ≤ hi) new;
  ev_batches : ∃ new, st_batches st' = st_batches st ++ new;
  ev_store : length (batch_store st) ≤ length (batch_store st');
  ev_frozen :
    ∀ b, b < length (batch_store st) → current_batch st ≠ Some b →
         batch_store st' !! b = batch_store st !! b;
  ev_fields :
    ∀ b o, batch_store st !! b = Some o →
           ∃ o', batch_store st' !! b = Some o' ∧ bo_fields o' = bo_fields o;
  ev_current :
    ∀ b, current_batch st' = Some b →
         current_batch st = Some b ∨ length (batch_store st) ≤ b
}.

(** A batch is open, and the batch dictionary [b] has no [batch_control]
    key. *)
Definition open_uncontrolled (b : loc) (st : state) : Prop :=
  is_Some (current_batch st)
  ∧ ∃ o, batch_store st !! b = Some o ∧ bo_control o = None.

#[global] Instance category_eq_dec : EqDecision category.
Proof. solve_decision. Defined.

(** A structural diagnostic about the line numbered [n]. *)
Definition structural_at (n : nat) (d : diagnostic) : Prop :=
  category_of d = StructuralError ∧ line_of d = Some n.

#[global] Instance structural_at_dec (n : nat) (d : diagnostic) :
  Decision (structural_at n d).
Proof. unfold structural_at. apply _. Defined.

(** ** What one line does *)

(** The record types with a schema. *)
Definition known_types : list string := ["1"; "5"; "6"; "7"; "8"; "9"].

(** [len(line.strip()) == 0] *)
Definition is_blank (line : string) : bool :=
  String.length (Text.strip line) =? 0.

(** [line[0] == c] on a line that may be empty. *)
Definition is_of_type (c : ascii) (line : string) : bool :=
  Text.startswith line (String c EmptyString).

(** A line that is not blank and whose first character has no schema. *)
Definition is_unknown (line : string) : bool :=
  negb (is_blank line)
  && negb (bool_decide (String.substring 0 1 line ∈ known_types)).

(** The record [parse_record] gives for a line of unknown type. *)
Definition raw_record (line : string) : record :=
  [("raw_line", VStr (Text.strip line))].

(** The states a turn of the loop can leave, by the type of the line,
    under [RECORD_DEFINITIONS]. [st] is the state before the line. *)
Inductive line_effect (n : nat) (line : string) (st : state) : state → Prop :=
| effect_blank :
    is_blank line = true → line_effect n line st st
| effect_file_header :
    has_type "1" line →
    line_effect n line st
      (set_file_header (decode_fields line (schema "1")) (check_length n line st))
| effect_batch_header :
    has_type "5" line →
    line_effect n line st
      (open_batch (decode_fields line (schema "5"))
         match current_batch st with
         | Some _ => append_error (UnexpectedBatchHeader n) (check_length n line st)
         | None => check_length n line st
         end)
| effect_entry (b : loc) :
    has_type "6" line → current_batch st = Some b →
    line_effect n line st
      (open_entry b (decode_fields line (schema "6")) (check_length n line st))
| effect_entry_outside :
    has_type "6" line → current_batch st = None →
    line_effect n line st
      (append_error (EntryOutsideBatch n) (check_length n line st))
| effect_addenda_orphan :
    has_type "7" line → current_entry st = None →
    line_effect n line st
      (append_error (AddendaWithoutEntry n) (check_length n line st))
| effect_addenda_current (e : loc) :
    has_type "7" line → current_entry st = Some e →
    line_effect n line st
      (attach_addenda e (decode_fields line (schema "7")) (check_length n line st))
| effect_addenda_last (b e : loc) :
    has_type "7" line → is_Some (current_entry st) →
    current_batch st = Some b →
    last (bo_entries (batch_store st !!! b)) = Some e →
    line_effect n line st
      (attach_addenda e (decode_fields line (schema "7")) (check_length n line st))
| effect_addenda_lost :
    has_type "7" line → is_Some (current_entry st) →
    (∀ b, current_batch st = Some b →
          last (bo_entries (batch_store st !!! b)) = None) →
    line_effect n line st
      (append_error (AddendaNotAssociated n (decode_fields line (schema "7")))
         (check_length n line st))
| effect_batch_control (b : loc) :
    has_type "8" line → current_batch st = Some b →
    line_effect n line st
      (close_batch b (decode_fields line (schema "8")) (check_length n line st))
| effect_batch_control_outside :
    has_type "8" line → current_batch st = None →
    line_effect n line st
      (append_error (BatchControlOutsideBatch n) (check_length n line st))
| effect_file_control :
    has_type "9" line →
    line_effect n line st
      (set_file_control (decode_fields line (schema "9")) (check_length n line st))
| effect_unknown :
    is_unknown line = true →
    line_effect n line st
      (append_error (UnknownRecordType n (raw_record line))
         (append_other "unknown" (raw_record line) (check_length n line st))).

(** ** What the loop keeps *)

(** The element of [other_records] for a line of unknown type. *)
Definition unknown_other (line : string) : other_record :=
  {| type := "unknown"; data := raw_record line |}.

(** The diagnostic of an entry detail outside a batch. *)
Definition is_entry_outside (d : diagnostic) : bool :=
  match d with EntryOutsideBatch _ => true | _ => false end.

(** The two diagnostics of an addenda that is stored nowhere. *)
Definition is_addenda_dropped (d : diagnostic) : bool :=
  match d with
  | AddendaWithoutEntry _ | AddendaNotAssociated _ _ => true
  | _ => false
  end.

(** The diagnostic of a batch control outside a batch. *)
Definition is_control_outside (d : diagnostic) : bool :=
  match d with BatchControlOutsideBatch _ => true | _ => false end.

(** The layout of the stores: the batches are the batch dictionaries in
    the order of their creation, the current batch is the newest one, and
    the entry lists of the batches, one after the other, name the entry
    dictionaries in the order of their creation. *)
Record consistent (st : state) : Prop := {
  cons_batches : st_batches st = seq 0 (length (batch_store st));
  cons_current_batch :
    ∀ b, current_batch st = Some b → S b = length (batch_store st);
  cons_current_entry :
    ∀ e, current_entry st = Some e → e < length (entry_store st);
  cons_entries :
    concat (bo_entries <$> batch_store st) = seq 0 (length (entry_store st));
  cons_open :
    ∀ b o, current_batch st = Some b → batch_store st !! b = Some o →
           bo_control o = None
}.

(** What the state holds of the lines [done] read so far. *)
Record summary (done : list string) (st : state) : Prop := {
  sum_file_header :
    st_file_header st
    = (λ l, decode_fields l (schema "1")) <$> last (filter (λ l, is_of_type "1" l) done);
  sum_file_control :
    st_file_control st
    = (λ l, decode_fields l (schema "9")) <$> last (filter (λ l, is_of_type "9" l) done);
  sum_other :
    st_other_records st = unknown_other <$> filter (λ l, is_unknown l) done;
  sum_batch_fields :
    bo_fields <$> batch_store st
    = (λ l, decode_fields l (schema "5")) <$> filter (λ l, is_of_type "5" l) done;
  sum_entry_fields :
    sublist (eo_fields <$> entry_store st)
      ((λ l, decode_fields l (schema "6")) <$> filter (λ l, is_of_type "6" l) done)
}.

(** Every line of a type is stored or reported: entry details, addenda
    and batch controls. *)
Record tally (done : list string) (st : state) : Prop := {
  tally_entries :
    length (entry_store st)
    + length (filter (λ d, is_entry_outside d) (st_errors st))
    = length (filter (λ l, is_of_type "6" l) done);
  tally_addenda :
    sum_list_with (λ o, length (eo_addenda o)) (entry_store st)
    + length (filter (λ d, is_addenda_dropped d) (st_errors st))
    = length (filter (λ l, is_of_type "7" l) done);
  tally_controls :
    length (filter (λ c, is_Some c) (bo_control <$> batch_store st))
    + length (filter (λ d, is_control_outside d) (st_errors st))
    = length (filter (λ l, is_of_type "8" l) done)
}.

(** ** Diagnostics, read off the lines *)

(** The diagnostic of the length check. *)
Definition is_length_mismatch (d : diagnostic) : bool :=
  match d with LengthMismatch _ _ _ => true | _ => false end.

(** A line the length check reports: not blank, not 94 characters long,
    and not excused as a line of nines. *)
Definition is_wrong_length (line : string) : bool :=
  negb (is_blank line) && negb (String.length line =? 94)
  && negb (Text.startswith line "9" && Text.all_nines (Text.strip line)).

(** The diagnostic of a batch header read while a batch is open. *)
Definition is_unexpected_header (d : diagnostic) : bool :=
  match d with UnexpectedBatchHeader _ => true | _ => false end.

(** [batch.get("batch_control") is None] *)
Definition is_uncontrolled (c : option record) : bool :=
  match c with None => true | Some _ => false end.

(** Where the loop is in a file: whether a batch is open, and whether an
    entry detail of the open batch has been read. *)
Record place := { in_batch : bool; after_entry : bool }.

(** The place after a line that causes no diagnostic; [None] for a line
    that causes one. *)
Definition step_place (line : string) (p : place) : option place :=
  if is_blank line then Some p
  else if is_wrong_length line then None
  else if is_of_type "1" line || is_of_type "9" line then Some p
  else if is_of_type "5" line then
    if in_batch p then None else Some {| in_batch := true; after_entry := false |}
  else if is_of_type "6" line then
    if in_batch p then Some {| in_batch := true; after_entry := true |} else None
  else if is_of_type "7" line then
    if after_entry p then Some p else None
  else if is_of_type "8" line then
    if in_batch p then Some {| in_batch := false; after_entry := false |} else None
  else None.

(** The place after [lines], read from the start of a file; [None] when
    one of them causes a diagnostic. *)
Definition placed (lines : list string) : option place :=
  foldl (λ p line, p ≫= step_place line)
    (Some {| in_batch := false; after_entry := false |}) lines.

(** The state of the loop at a place, while no diagnostic has been
    recorded. *)
Record at_place (p : place) (st : state) : Prop := {
  at_no_errors : st_errors st = [];
  at_batch : in_batch p = true ↔ is_Some (current_batch st);
  at_entry :
    if after_entry p
    then ∃ b e, current_batch st = Some b ∧ current_entry st = Some e
                ∧ last (bo_entries (batch_store st !!! b)) = Some e
    else current_entry st = None
}.

(** The batches without a batch control are the open one, if any, and the
    ones a batch header found open; when no batch is open the newest one
    has its batch control. *)
Record cut_short (st : state) : Prop := {
  cut_count :
    length (filter (λ c, is_uncontrolled c) (bo_control <$> batch_store st))
    = length (filter (λ d, is_unexpected_header d) (st_errors st))
      + match current_batch st with Some _ => 1 | None => 0 end;
  cut_closed :
    current_batch st = None →
    ∀ o, last (batch_store st) = Some o → is_uncontrolled (bo_control o) = false
}.

(** ** The forms of the input *)

(** A text that holds none of the line boundaries of [str.splitlines]. *)
Definition one_line (s : string) : bool :=
  Text.all (λ c, negb (Text.is_linebreak c)) s.

(** [''.join(lines)] *)
Definition joined (lines : list string) : string :=
  foldr (λ l acc, l +:+ acc) EmptyString lines.

(** ** Line numbers *)

(** A diagnostic with its line number left out. *)
Definition unnumbered (d : diagnostic) : diagnostic :=
  match d with
  | LengthMismatch _ len content => LengthMismatch 0 len content
  | CouldNotParse _ content => CouldNotParse 0 content
  | UnexpectedBatchHeader _ => UnexpectedBatchHeader 0
  | EntryOutsideBatch _ => EntryOutsideBatch 0
  | AddendaWithoutEntry _ => AddendaWithoutEntry 0
  | AddendaNotAssociated _ addenda => AddendaNotAssociated 0 addenda
  | BatchControlOutsideBatch _ => BatchControlOutsideBatch 0
  | UnknownRecordType _ data => UnknownRecordType 0 data
  | InvalidContentType | FileNotFound _ | ReadFailure _ _ | EmptyFile _ => d
  end.

(** The state with the line numbers of its diagnostics left out. *)
Definition forget (st : state) : state := {|
  st_file_header := st_file_header st; st_batches := st_batches st;
  st_file_control := st_file_control st;
  st_errors := unnumbered <$> st_errors st;
  st_other_records := st_other_records st;
  current_batch := current_batch st; current_entry := current_entry st;
  batch_store := batch_store st; entry_store := entry_store st
|}.

(** ** Where records are stored *)

(** The batch dictionary [b], decoded from the batch header [header], is
    the open batch, and its entries are the entry details among the lines
    [done] read since its header. *)
Record in_open_batch (b : loc) (header : string) (done : list string)
    (st : state) : Prop := {
  ob_consistent : consistent st;
  ob_current : current_batch st = Some b;
  ob_batch :
    ∃ o, batch_store st !! b = Some o
         ∧ bo_fields o = decode_fields header (schema "5")
         ∧ (λ e, (eo_fields <$> entry_store st) !!! e) <$> bo_entries o
           = (λ l, decode_fields l (schema "6")) <$> filter (λ l, is_of_type "6" l) done
}.

(** The entry dictionary [e], decoded from the entry detail [detail], is
    the current entry and the last entry of the open batch [b], and its
    addenda are the addenda among the lines [done] read since. *)
Record after_entry_detail (b e : loc) (detail : string) (done : list string)
    (st : state) : Prop := {
  ae_consistent : consistent st;
  ae_batch : current_batch st = Some b;
  ae_entry : current_entry st = Some e;
  ae_last : ∃ o, batch_store st !! b = Some o ∧ last (bo_entries o) = Some e;
  ae_addenda :
    ∃ o, entry_store st !! e = Some o
         ∧ eo_fields o = decode_fields detail (schema "6")
         ∧ eo_addenda o
           = (λ l, decode_fields l (schema "7")) <$> filter (λ l, is_of_type "7" l) done
}.

(** The state after a batch header and an entry detail. *)
Definition sample_entry_state : state :=
  open_entry 0 (decode_fields sample_entry_detail (schema "6"))
    (open_batch (decode_fields sample_batch_header (schema "5")) initial_state).

(** ** The two readings side by side

    What the caller sees of the value of the first reading, drawn as the
    second reading draws it: a batch and an entry are one dictionary each,
    the decoded fields followed by the keys the loop adds. *)

Definition tree_of_value (v : field_value) : Heap.tree :=
  match v with
  | VStr s => Heap.TStr s
  | VInt z => Heap.TInt z
  end.

Definition tree_items (r : record) : dict Heap.tree :=
  (λ kv, (kv.1, tree_of_value kv.2)) <$> r.

Definition tree_of_record (r : record) : Heap.tree := Heap.TDict (tree_items r).

Definition tree_of_entry (e : entry) : Heap.tree :=
  Heap.TDict (dict_set (tree_items (entry_record e)) "addenda"
                (Heap.TList (tree_of_record <$> addenda e))).

Definition tree_of_batch (b : batch) : Heap.tree :=
  let d := dict_set (tree_items (batch_record b)) "entries"
             (Heap.TList (tree_of_entry <$> entries b)) in
  Heap.TDict match batch_control b with
             | Some c => dict_set d "batch_control" (tree_of_record c)
             | None => d
             end.

Definition tree_of_other (o : other_record) : Heap.tree :=
  Heap.TDict [("type", Heap.TStr (type o)); ("data", tree_of_record (data o))].

Definition tree_of_ach_data (a : ach_data) : Heap.tree :=
  Heap.TDict [("file_header", from_option tree_of_record Heap.TNone (file_header a));
              ("batches", Heap.TList (tree_of_batch <$> batches a));
              ("file_control", from_option tree_of_record Heap.TNone (file_control a));
              ("errors", Heap.TList (Heap.TMsg <$> errors a));
              ("other_records", Heap.TList (tree_of_other <$> other_records a))].

Definition answer_of (o : outcome ach_data) : Heap.answer Heap.tree :=
  match o with
  | Returned a => Heap.Value (tree_of_ach_data a)
  | Raised AttributeError => Heap.Except Heap.AttributeError
  | Raised TypeError => Heap.Except Heap.TypeError
  end.

(** The first call of a process that has just defined the registry. *)
Definition first_call (ach_content : pyobj) : Heap.heap * Heap.answer Heap.hval :=
  Heap.bind (Heap.define_registry RECORD_DEFINITIONS)
    (λ registry, Heap.parse_ach_file_content registry ach_content) [].

(** The value of the first reading, on the registry of the source. *)
Definition value_seen (ach_content : pyobj) : Heap.answer Heap.tree :=
  answer_of (parse_ach_file_content RECORD_DEFINITIONS ach_content).

Definition sample_mixed : list string :=
  sample_reopened ++ sample_file
  ++ [sample_addenda_blank; "X"; "6 short"; sample_indented_nines].

(** Closes a decidable closed goal by computation. *)
Ltac known_type := apply (bool_decide_unpack _); vm_compute; exact I.

(** * Properties *)

(** ** Text *)

Lemma append_cons (c : ascii) (s t : string) :
  String c s +:+ t = String c (s +:+ t).
Proof. reflexivity. Qed.

Lemma append_nil_l (t : string) : EmptyString +:+ t = t.
Proof. reflexivity. Qed.

Lemma append_nil_r (s : string) : s +:+ EmptyString = s.
Proof. induction s as [|c s IH]; [done|]. by rewrite append_cons, IH. Qed.

(** The empty text is a suffix of every text. *)
Lemma is_suffix_empty (s : string) : is_suffix EmptyString s.
Proof. exists s. by rewrite append_nil_r. Qed.

Lemma string_length_app (s t : string) :
  String.length (s +:+ t) = String.length s + String.length t.
Proof.
  induction s as [|c s IH]; [done|].
  rewrite append_cons. simpl. by rewrite IH.
Qed.

Lemma all_nines_lstrip (s : string) : Text.all_nines s = true → Text.lstrip s = s.
Proof.
  destruct s as [|c s]; [done|]. unfold Text.all_nines. simpl.
  intros [Hc _]%andb_prop. unfold Text.is_nine in Hc.
  apply Ascii.eqb_eq in Hc. by subst c.
Qed.

Lemma all_nines_rstrip (s : string) : Text.all_nines s = true → Text.rstrip s = s.
Proof.
  unfold Text.all_nines. induction s as [|c s IH]; [done|]. simpl.
  intros [Hc Hs]%andb_prop. rewrite (IH Hs).
  unfold Text.is_nine in Hc. apply Ascii.eqb_eq in Hc. subst c.
  by destruct s.
Qed.

(** A run of nines is its own trimmed content. *)
Lemma all_nines_strip (s : string) : Text.all_nines s = true → Text.strip s = s.
Proof.
  intros H. unfold Text.strip. rewrite (all_nines_lstrip _ H).
  by apply all_nines_rstrip.
Qed.

Lemma all_nines_startswith (c : ascii) (s : string) :
  Text.all_nines (String c s) = true → Text.startswith (String c s) "9" = true.
Proof.
  unfold Text.all_nines. simpl. intros [Hc _]%andb_prop.
  unfold Text.is_nine in Hc. apply Ascii.eqb_eq in Hc. subst c.
  unfold Text.startswith. simpl. by destruct s.
Qed.

Lemma rstrip_cons_nonspace (c : ascii) (s : string) :
  Text.isspace c = false → Text.rstrip (String c s) = String c (Text.rstrip s).
Proof. intros Hc. simpl. destruct (Text.rstrip s); [by rewrite Hc | done]. Qed.

(** A line that starts with a character other than white space is not
    blank. *)
Lemma strip_cons_nonspace (c : ascii) (s : string) :
  Text.isspace c = false → Text.strip (String c s) = String c (Text.rstrip s).
Proof.
  intros Hc. unfold Text.strip. simpl. rewrite Hc.
  by apply rstrip_cons_nonspace.
Qed.

Lemma substring_all (s : string) : String.substring 0 (String.length s) s = s.
Proof. induction s as [|c s IH]; simpl; [done | by rewrite IH]. Qed.

Lemma substring_app_r (q p : string) (n : nat) :
  String.substring (String.length q) n (q +:+ p) = String.substring 0 n p.
Proof.
  induction q as [|c q IH]; [done|]. rewrite append_cons. simpl. apply IH.
Qed.

Lemma substring_skip (s : string) (n : nat) :
  n ≤ String.length s →
  String.substring 0 n s +:+ String.substring n (String.length s - n) s = s.
Proof.
  revert n. induction s as [|c s IH]; intros [|n] Hn; simpl in *; try done; try lia.
  - by rewrite append_nil_l, substring_all.
  - rewrite append_cons, IH by lia. done.
Qed.

(** [str.endswith] decides the suffix relation. *)
Lemma endswith_spec (s p : string) : Text.endswith s p = true ↔ is_suffix p s.
Proof.
  unfold Text.endswith, Text.slice, is_suffix. split.
  - intros [Hlen Heq]%andb_prop. apply Nat.leb_le in Hlen.
    apply String.eqb_eq in Heq.
    exists (String.substring 0 (String.length s - String.length p) s).
    pose proof (substring_skip s (String.length s - String.length p)) as Hs.
    rewrite Heq in Hs. symmetry. apply Hs. lia.
  - intros [q ->]. rewrite string_length_app. apply andb_true_intro. split.
    + apply Nat.leb_le. lia.
    + apply String.eqb_eq.
      replace (String.length q + String.length p - String.length p)
        with (String.length q) by lia.
      replace (String.length q + String.length p - String.length q)
        with (String.length p) by lia.
      rewrite substring_app_r. apply substring_all.
Qed.

(** ** Dictionaries *)

Section Dict.
Context {V : Type}.
Implicit Types (d : dict V) (k : string) (v : V).

Lemma dict_get_set_eq d k v : dict_get (dict_set d k v) k = Some v.
Proof.
  induction d as [|[k' v'] d IH]; simpl.
  - by rewrite String.eqb_refl.
  - destruct (String.eqb k' k) eqn:E; simpl; rewrite E; [done | apply IH].
Qed.

Lemma dict_get_set_ne d k k' v : k ≠ k' → dict_get (dict_set d k v) k' = dict_get d k'.
Proof.
  intros Hne. induction d as [|[k0 v0] d IH]; simpl.
  - destruct (String.eqb k k') eqn:E; [|done].
    apply String.eqb_eq in E. done.
  - destruct (String.eqb k0 k) eqn:E; simpl.
    + apply String.eqb_eq in E. subst k0.
      destruct (String.eqb k k') eqn:E'; [|done].
      apply String.eqb_eq in E'. done.
    + by rewrite IH.
Qed.

Lemma dict_set_nonempty d k v : dict_set d k v ≠ [].
Proof. destruct d as [|[k' v'] d]; simpl; [done|]. by destruct (String.eqb k' k). Qed.

Lemma dict_get_elem_of d k v : dict_get d k = Some v → (k, v) ∈ d.
Proof.
  induction d as [|[k' v'] d IH]; simpl; [done|].
  destruct (String.eqb k' k) eqn:E.
  - apply String.eqb_eq in E. intros [= ->]. subst. left.
  - intros H. right. by apply IH.
Qed.

End Dict.

(** ** The decoder *)

Lemma decode_field_self (line : string) (parsed : record) (field_name : string)
    (spec : field_spec) :
  dict_get (decode_field line parsed (field_name, spec)) field_name
  = Some (decoded_value line field_name spec).
Proof.
  destruct spec as [[start end_] descr]. unfold decode_field, decoded_value.
  destruct (is_numeric_field field_name).
  - destruct (converted field_name _); simpl; by rewrite dict_get_set_eq.
  - by rewrite dict_get_set_eq.
Qed.

Lemma decode_field_other (line : string) (parsed : record) (item : string * field_spec)
    (k : string) :
  item.1 ≠ k → dict_get (decode_field line parsed item) k = dict_get parsed k.
Proof.
  destruct item as [field_name [[start end_] descr]]. simpl. intros Hne.
  unfold decode_field. destruct (is_numeric_field field_name).
  - destruct (converted field_name _); by rewrite !dict_get_set_ne.
  - by rewrite dict_get_set_ne.
Qed.

Lemma decode_field_nonempty (line : string) (parsed : record) (item : string * field_spec) :
  decode_field line parsed item ≠ [].
Proof.
  destruct item as [field_name [[start end_] descr]]. unfold decode_field.
  destruct (is_numeric_field field_name); [destruct (converted field_name _)|];
    apply dict_set_nonempty.
Qed.

Lemma fold_decode_other (line : string) (definition : definition) (parsed : record)
    (k : string) :
  k ∉ definition.*1 →
  dict_get (fold_left (decode_field line) definition parsed) k = dict_get parsed k.
Proof.
  revert parsed. induction definition as [|item l IH]; intros parsed Hk; [done|].
  simpl. rewrite IH.
  - apply decode_field_other. intros Heq. apply Hk. rewrite <- Heq.
    rewrite fmap_cons. left.
  - intros H. apply Hk. rewrite fmap_cons. by right.
Qed.

Lemma fold_decode_lookup (line : string) (definition : definition) (parsed : record)
    (field_name : string) (spec : field_spec) :
  NoDup definition.*1 → (field_name, spec) ∈ definition →
  dict_get (fold_left (decode_field line) definition parsed) field_name
  = Some (decoded_value line field_name spec).
Proof.
  revert parsed. induction definition as [|item l IH]; intros parsed Hnd Hin.
  - by apply elem_of_nil in Hin.
  - simpl in Hnd. apply NoDup_cons in Hnd as [Hfresh Hnd].
    apply elem_of_cons in Hin as [<- | Hin]; simpl.
    + rewrite fold_decode_other by done. apply decode_field_self.
    + by apply IH.
Qed.

Lemma fold_decode_nonempty (line : string) (definition : definition) (parsed : record) :
  parsed ≠ [] → fold_left (decode_field line) definition parsed ≠ [].
Proof.
  revert parsed. induction definition as [|item l IH]; intros parsed Hp; [done|].
  simpl. apply IH, decode_field_nonempty.
Qed.

(** Decoding under a schema with at least one field gives a dictionary
    with at least one key. *)
Lemma decode_fields_nonempty (line : string) (definition : definition) :
  definition ≠ [] → decode_fields line definition ≠ [].
Proof.
  destruct definition as [|item l]; [done|]. intros _.
  unfold decode_fields. simpl. apply fold_decode_nonempty, decode_field_nonempty.
Qed.

Lemma decode_fields_lookup (line : string) (definition : definition)
    (field_name : string) (spec : field_spec) :
  NoDup definition.*1 → (field_name, spec) ∈ definition →
  dict_get (decode_fields line definition) field_name
  = Some (decoded_value line field_name spec).
Proof. apply fold_decode_lookup. Qed.

Lemma decode_fields_absent (line : string) (definition : definition) (k : string) :
  k ∉ definition.*1 → dict_get (decode_fields line definition) k = None.
Proof. intros H. unfold decode_fields. by rewrite fold_decode_other. Qed.

(** No schema of the registry names a field twice. *)
Lemma registry_fields_distinct (record_type : string) (definition : definition) :
  dict_get RECORD_DEFINITIONS record_type = Some definition → NoDup definition.*1.
Proof.
  intros H%dict_get_elem_of. unfold RECORD_DEFINITIONS in H.
  repeat (apply elem_of_cons in H as [[= -> ->] | H];
          [apply (bool_decide_unpack _); vm_compute; exact I|]).
  by apply elem_of_nil in H.
Qed.

Lemma registry_schema_nonempty (record_type : string) (definition : definition) :
  dict_get RECORD_DEFINITIONS record_type = Some definition → definition ≠ [].
Proof.
  intros H%dict_get_elem_of. unfold RECORD_DEFINITIONS in H.
  repeat (apply elem_of_cons in H as [[= -> ->] | H]; [done|]).
  by apply elem_of_nil in H.
Qed.

(** Each numeric field name holds one of the words the conversion looks
    for, so the conversion is attempted for all of them. *)
Lemma converted_numeric (field_name value : string) :
  is_numeric_field field_name = true →
  converted field_name value = VInt <$> int_or_zero value.
Proof.
  unfold is_numeric_field. intros H. apply existsb_exists in H as [x [Hin Heq]].
  apply String.eqb_eq in Heq. subst x. unfold numeric_fields in Hin. simpl in Hin.
  repeat (destruct Hin as [<- | Hin]; [reflexivity|]). done.
Qed.

(** What [parse_record] gives for a line of a known record type. *)
Lemma parse_record_known (c : ascii) (rest : string) (definition : definition) :
  dict_get RECORD_DEFINITIONS (String c EmptyString) = Some definition →
  parse_record RECORD_DEFINITIONS (String c rest)
  = (Some (String c EmptyString), Some (decode_fields (String c rest) definition)).
Proof.
  intros H. unfold parse_record. rewrite H.
  pose proof (registry_schema_nonempty _ _ H). by destruct definition.
Qed.

(** C8. For a line of a known record type and a field whose name is in the
    numeric list, the decoder returns (it has no error to raise and no
    diagnostic list to write to) a record in which the field is: the
    integer 0 when the trimmed slice is empty; the integer [int] reads when
    the trimmed slice parses; the trimmed text itself otherwise. *)
Theorem numeric_field_coercion (c : ascii) (rest : string) (definition : definition)
    (field_name : string) (start end_ : nat) (descr : string) :
  dict_get RECORD_DEFINITIONS (String c EmptyString) = Some definition →
  (field_name, (start, end_, descr)) ∈ definition →
  is_numeric_field field_name = true →
  let line := String c rest in
  let value := Text.strip (Text.slice line start (Nat.min end_ (String.length line))) in
  ∃ parsed : record,
    parse_record RECORD_DEFINITIONS line = (Some (String c EmptyString), Some parsed)
    ∧ (value = EmptyString → dict_get parsed field_name = Some (VInt 0))
    ∧ (∀ z, value ≠ EmptyString → Text.int value = Some z →
            dict_get parsed field_name = Some (VInt z))
    ∧ (value ≠ EmptyString → Text.int value = None →
       dict_get parsed field_name = Some (VStr value)).
Proof.
  intros Hdef Hin Hnum line value.
  exists (decode_fields line definition). split; [by apply parse_record_known|].
  pose proof (decode_fields_lookup line _ _ _ (registry_fields_distinct _ _ Hdef) Hin)
    as Hget.
  unfold decoded_value in Hget. rewrite Hnum, (converted_numeric _ _ Hnum) in Hget.
  fold line in Hget. fold value in Hget. rewrite Hget. clear Hget.
  unfold int_or_zero. repeat split.
  - by intros ->.
  - intros z Hne Hz. destruct value; [done|]. by rewrite Hz.
  - intros Hne Hz. destruct value; [done|]. by rewrite Hz.
Qed.

(** ** The loop body *)

(** A line that is not empty is decoded to a record type and a record with
    at least one key, whatever the registry. *)
Lemma parse_record_cons (defs : registry) (c : ascii) (rest : string) :
  ∃ (record_type : string) (parsed_record : record),
    parse_record defs (String c rest) = (Some record_type, Some parsed_record)
    ∧ parsed_record ≠ [].
Proof.
  unfold parse_record.
  destruct (dict_get defs (String c EmptyString)) as [[|item l]|] eqn:E.
  - destruct (_ && _); eexists _, _; split; done.
  - eexists _, _; split; [done|]. by apply decode_fields_nonempty.
  - destruct (_ && _); eexists _, _; split; done.
Qed.

Lemma strip_nonblank_cons (line : string) :
  String.length (Text.strip line) ≠ 0 → ∃ c rest, line = String c rest.
Proof. destruct line as [|c rest]; [done | eauto]. Qed.

(** A line that is not blank goes through the length check and the
    decoder, and its record is dispatched. *)
Lemma loop_body_nonblank (defs : registry) (line_number : nat) (line : string) (st : state) :
  String.length (Text.strip line) ≠ 0 →
  ∃ (record_type : string) (parsed_record : record),
    parse_record defs line = (Some record_type, Some parsed_record)
    ∧ parsed_record ≠ []
    ∧ loop_body defs line_number line st
      = dispatch line_number (Some record_type) parsed_record
          (check_length line_number line st).
Proof.
  intros Hnb. destruct (strip_nonblank_cons _ Hnb) as (c & rest & ->).
  destruct (parse_record_cons defs c rest) as (rt & p & Hp & Hne).
  exists rt, p. split; [done|]. split; [done|].
  unfold loop_body. apply Nat.eqb_neq in Hnb. rewrite Hnb, Hp.
  by destruct p.
Qed.

(** A blank line is skipped. *)
Lemma loop_body_blank (defs : registry) (line_number : nat) (line : string) (st : state) :
  String.length (Text.strip line) = 0 →
  loop_body defs line_number line st = Returned st.
Proof. intros H. unfold loop_body. apply Nat.eqb_eq in H. by rewrite H. Qed.

(** The length check in one condition: on a line that is not empty, the
    nested test on the untrimmed line never excuses a line the outer test
    has not excused already. *)
Lemma check_length_spec (line_number : nat) (line : string) (st : state) :
  line ≠ EmptyString →
  check_length line_number line st
  = if (String.length line =? 94)
       || (Text.startswith line "9" && Text.all_nines (Text.strip line))
    then st
    else append_error
           (LengthMismatch line_number (String.length line) (Text.strip line)) st.
Proof.
  intros Hne. unfold check_length. destruct (String.length line =? 94); [done|]. simpl.
  destruct (Text.startswith line "9" && Text.all_nines (Text.strip line)) eqn:E; [done|].
  simpl. destruct (Text.all_nines line) eqn:E9; [|done]. exfalso.
  rewrite (all_nines_strip _ E9), E9, andb_true_r in E.
  destruct line as [|c rest]; [done|].
  by rewrite (all_nines_startswith _ _ E9) in E.
Qed.

(** C6, amended. For a line that is not blank and whose length is not 94,
    the length diagnostic is recorded unless the line starts with '9' and
    its trimmed content is all nines; either way the line is decoded and
    its record dispatched, from the state the check leaves. *)
Theorem length_check_then_decode (defs : registry) (line_number : nat)
    (line : string) (st : state) :
  String.length (Text.strip line) ≠ 0 →
  String.length line ≠ 94 →
  let excused := Text.startswith line "9" && Text.all_nines (Text.strip line) in
  let diagnostic :=
    LengthMismatch line_number (String.length line) (Text.strip line) in
  (excused = true → check_length line_number line st = st)
  ∧ (excused = false →
     check_length line_number line st = append_error diagnostic st)
  ∧ ∃ (record_type : string) (parsed_record : record),
      parse_record defs line = (Some record_type, Some parsed_record)
      ∧ loop_body defs line_number line st
        = dispatch line_number (Some record_type) parsed_record
            (check_length line_number line st).
Proof.
  intros Hnb Hlen excused diagnostic.
  assert (line ≠ EmptyString) as Hne by (by intros ->).
  apply Nat.eqb_neq in Hlen.
  pose proof (check_length_spec line_number line st Hne) as Hc.
  rewrite Hlen in Hc. simpl in Hc. fold excused in Hc.
  split; [|split].
  - intros E. by rewrite E in Hc.
  - intros E. by rewrite E in Hc.
  - destruct (loop_body_nonblank defs line_number line st Hnb)
      as (rt & p & Hp & _ & Hl).
    by exists rt, p.
Qed.

(** ** How the state evolves *)

Lemma evolves_refl (lo hi : nat) (st : state) : evolves lo hi st st.
Proof.
  constructor; eauto.
  - exists []. by rewrite app_nil_r.
  - exists []. by rewrite app_nil_r.
Qed.

Lemma evolves_weaken (lo hi lo' hi' : nat) (st st' : state) :
  lo' ≤ lo → hi ≤ hi' → evolves lo hi st st' → evolves lo' hi' st st'.
Proof.
  intros Hlo Hhi [E B S F D C]. constructor; try done.
  destruct E as (new & He & Hf). exists new. split; [done|].
  eapply Forall_impl; [exact Hf|]. intros d (n & ? & ?). exists n. split; [done|lia].
Qed.

Lemma evolves_trans (lo hi : nat) (st st1 st2 : state) :
  evolves lo hi st st1 → evolves lo hi st1 st2 → evolves lo hi st st2.
Proof.
  intros [E1 B1 S1 F1 D1 C1] [E2 B2 S2 F2 D2 C2]. constructor.
  - destruct E1 as (n1 & He1 & H1). destruct E2 as (n2 & He2 & H2).
    exists (n1 ++ n2). split; [by rewrite He2, He1, app_assoc|].
    apply Forall_app. by split.
  - destruct B1 as (n1 & Hb1). destruct B2 as (n2 & Hb2).
    exists (n1 ++ n2). by rewrite Hb2, Hb1, app_assoc.
  - lia.
  - intros b Hb Hcur. rewrite F2, F1; [done..|lia|].
    intros Hc. apply C1 in Hc as [?|?]; [done|lia].
  - intros b o Ho. destruct (D1 b o Ho) as (o1 & Ho1 & Hf1).
    destruct (D2 b o1 Ho1) as (o2 & Ho2 & Hf2). exists o2. split; [done|congruence].
  - intros b Hc. apply C2 in Hc as [Hc|?]; [|right; lia].
    apply C1 in Hc as [?|?]; [by left | by right].
Qed.

(** Consecutive ranges of lines. *)
Lemma evolves_chain (lo mid hi : nat) (st st1 st2 : state) :
  lo ≤ mid → mid ≤ hi →
  evolves lo mid st st1 → evolves mid hi st1 st2 → evolves lo hi st st2.
Proof.
  intros ?? H1 H2. eapply evolves_trans.
  - eapply evolves_weaken; [| |exact H1]; lia.
  - eapply evolves_weaken; [| |exact H2]; lia.
Qed.

(** A change that leaves the diagnostics, the batch list, the batch store
    and the current batch alone. *)
Lemma evolves_aside (lo hi : nat) (st st' : state) :
  st_errors st' = st_errors st → st_batches st' = st_batches st →
  batch_store st' = batch_store st → current_batch st' = current_batch st →
  evolves lo hi st st'.
Proof.
  intros He Hb Hs Hc. constructor; rewrite ?He, ?Hb, ?Hs, ?Hc; eauto.
  - exists []. by rewrite app_nil_r.
  - exists []. by rewrite app_nil_r.
Qed.

Lemma evolves_append_error (lo hi n : nat) (d : diagnostic) (st : state) :
  line_of d = Some n → lo < n ≤ hi → evolves lo hi st (append_error d st).
Proof.
  intros Hd Hn. constructor; simpl; eauto.
  - exists [d]. split; [done|]. apply Forall_singleton. eauto.
  - exists []. by rewrite app_nil_r.
Qed.

Lemma evolves_open_batch (lo hi : nat) (parsed_record : record) (st : state) :
  evolves lo hi st (open_batch parsed_record st).
Proof.
  constructor; simpl.
  - exists []. by rewrite app_nil_r.
  - eauto.
  - rewrite length_app. lia.
  - intros b Hb _. by apply lookup_app_l.
  - intros b o Ho. exists o. split; [|done].
    rewrite lookup_app_l; [done|]. by eapply lookup_lt_Some.
  - intros b [= <-]. by right.
Qed.

Lemma evolves_open_entry (lo hi : nat) (b : loc) (parsed_record : record) (st : state) :
  current_batch st = Some b → evolves lo hi st (open_entry b parsed_record st).
Proof.
  intros Hcur. constructor; simpl.
  - exists []. by rewrite app_nil_r.
  - exists []. by rewrite app_nil_r.
  - by rewrite length_alter.
  - intros b' _ Hne. apply list_lookup_alter_ne. intros ->. by apply Hne.
  - intros b' o Ho. destruct (decide (b = b')) as [->|Hne].
    + rewrite list_lookup_alter_eq, Ho. simpl. eauto.
    + rewrite list_lookup_alter_ne by done. eauto.
  - by left.
Qed.

Lemma evolves_close_batch (lo hi : nat) (b : loc) (parsed_record : record) (st : state) :
  current_batch st = Some b → evolves lo hi st (close_batch b parsed_record st).
Proof.
  intros Hcur. constructor; simpl.
  - exists []. by rewrite app_nil_r.
  - exists []. by rewrite app_nil_r.
  - by rewrite length_alter.
  - intros b' _ Hne. apply list_lookup_alter_ne. intros ->. by apply Hne.
  - intros b' o Ho. destruct (decide (b = b')) as [->|Hne].
    + rewrite list_lookup_alter_eq, Ho. simpl. eauto.
    + rewrite list_lookup_alter_ne by done. eauto.
  - done.
Qed.

Lemma evolves_check_length (i : nat) (line : string) (st : state) :
  evolves i (i + 1) st (check_length (i + 1) line st).
Proof.
  unfold check_length. destruct (_ && _); [|apply evolves_refl].
  simpl. destruct (negb _); [|apply evolves_refl].
  eapply evolves_append_error; [done|lia].
Qed.

Lemma evolves_addenda_fallback (i : nat) (parsed_record : record) (st : state) :
  evolves i (i + 1) st (addenda_fallback (i + 1) parsed_record st).
Proof.
  unfold addenda_fallback. destruct (current_batch st) as [b|].
  - destruct (last _).
    + by apply evolves_aside.
    + eapply evolves_append_error; [done|lia].
  - eapply evolves_append_error; [done|lia].
Qed.

Lemma evolves_on_addenda (i : nat) (parsed_record : record) (st st' : state) :
  on_addenda (i + 1) parsed_record st = Returned st' → evolves i (i + 1) st st'.
Proof.
  unfold on_addenda. destruct (current_entry st) as [e|].
  - destruct (dict_get parsed_record _) as [seq|].
    + destruct (truthy seq).
      * destruct (default _ _) as [t|]; [destruct seq as [s|]|]; try done.
        destruct (Text.endswith t s); intros [= <-].
        -- by apply evolves_aside.
        -- apply evolves_addenda_fallback.
      * intros [= <-]. apply evolves_addenda_fallback.
    + intros [= <-]. apply evolves_addenda_fallback.
  - intros [= <-]. eapply evolves_append_error; [done|lia].
Qed.

Lemma evolves_on_file_control (lo hi : nat) (parsed_record : record) (st st' : state) :
  on_file_control parsed_record st = Returned st' → evolves lo hi st st'.
Proof.
  unfold on_file_control. destruct (dict_get parsed_record "raw_line") as [[raw|]|].
  - destruct (Text.all_nines raw); [|destruct (dict_has _ _)];
      intros [= <-]; by apply evolves_aside.
  - done.
  - destruct (dict_has _ _); intros [= <-]; by apply evolves_aside.
Qed.

Lemma evolves_dispatch (i : nat) (record_type : option string) (parsed_record : record)
    (st st' : state) :
  dispatch (i + 1) record_type parsed_record st = Returned st' →
  evolves i (i + 1) st st'.
Proof.
  unfold dispatch.
  repeat (match goal with |- context [if is_type ?r ?t then _ else _] =>
            destruct (is_type r t) end; [|]).
  - intros [= <-]. by apply evolves_aside.
  - intros [= <-]. destruct (current_batch st) as [b|].
    + eapply evolves_trans; [|apply evolves_open_batch].
      eapply evolves_append_error; [done|lia].
    + apply evolves_open_batch.
  - destruct (current_batch st) as [b|] eqn:E; intros [= <-].
    + by apply evolves_open_entry.
    + eapply evolves_append_error; [done|lia].
  - apply evolves_on_addenda.
  - destruct (current_batch st) as [b|] eqn:E; intros [= <-].
    + by apply evolves_close_batch.
    + eapply evolves_append_error; [done|lia].
  - apply evolves_on_file_control.
  - intros [= <-]. by apply evolves_aside.
  - intros [= <-].
    eapply evolves_trans.
    + by apply (evolves_aside _ _ st (append_other "unknown" parsed_record st)).
    + eapply evolves_append_error; [done|lia].
  - intros [= <-]. apply evolves_refl.
Qed.

(** One turn of the loop, on the line numbered [i + 1]. *)
Lemma evolves_loop_body (defs : registry) (i : nat) (line : string) (st st' : state) :
  loop_body defs (i + 1) line st = Returned st' → evolves i (i + 1) st st'.
Proof.
  destruct (decide (String.length (Text.strip line) = 0)) as [Hb|Hnb].
  - rewrite loop_body_blank by done. intros [= <-]. apply evolves_refl.
  - destruct (loop_body_nonblank defs (i + 1) line st Hnb) as (rt & p & _ & _ & ->).
    intros H%evolves_dispatch.
    eapply evolves_trans; [apply evolves_check_length | exact H].
Qed.

(** The loop, from the line numbered [i + 1] on. *)
Lemma evolves_loop (defs : registry) (lines : list pyobj) (i : nat) (st st' : state) :
  loop defs i lines st = Returned st' → evolves i (i + length lines) st st'.
Proof.
  revert i st. induction lines as [|line rest IH]; intros i st; simpl.
  - intros [= <-]. apply evolves_refl.
  - destruct line as [line| | |]; try done.
    destruct (loop_body defs (i + 1) line st) as [st1|] eqn:E; [|done].
    intros H%IH. apply evolves_loop_body in E.
    eapply (evolves_chain _ (i + 1)); [lia | lia | exact E |].
    replace (i + S (length rest)) with (S i + length rest) by lia.
    replace (i + 1) with (S i) by lia. exact H.
Qed.

Lemma loop_app (defs : registry) (l1 l2 : list pyobj) (i : nat) (st : state) :
  loop defs i (l1 ++ l2) st
  = match loop defs i l1 st with
    | Returned st' => loop defs (i + length l1) l2 st'
    | Raised e => Raised e
    end.
Proof.
  revert i st. induction l1 as [|line rest IH]; intros i st; simpl.
  - by rewrite Nat.add_0_r.
  - destruct line as [line| | |]; try done.
    destruct (loop_body defs (i + 1) line st) as [st1|]; [|done].
    rewrite IH. by replace (S i + length rest) with (i + S (length rest)) by lia.
Qed.

(** ** The loop returns *)

Lemma schema_lookup (line field_name : string) (record_type : string) (spec : field_spec) :
  (field_name, spec) ∈ schema record_type →
  dict_get (decode_fields line (schema record_type)) field_name
  = Some (decoded_value line field_name spec).
Proof.
  intros Hin. apply decode_fields_lookup; [|done].
  unfold schema in *. destruct (dict_get RECORD_DEFINITIONS record_type) eqn:E; simpl.
  - by eapply registry_fields_distinct.
  - constructor.
Qed.

(** The trace number of a decoded entry is the trimmed text of columns 79
    to 93. *)
Lemma entry_trace_number (line : string) :
  dict_get (decode_fields line (schema "6")) "trace_number"
  = Some (VStr (Text.strip (Text.slice line 79 (Nat.min 94 (String.length line))))).
Proof.
  rewrite (schema_lookup line _ "6" (79, 94, "Trace Number")); [done|].
  apply (bool_decide_unpack _). vm_compute. exact I.
Qed.

(** The sequence number of a decoded addenda is the trimmed text of columns
    87 to 93. *)
Lemma addenda_sequence_number (line : string) :
  dict_get (decode_fields line (schema "7")) "entry_detail_sequence_number"
  = Some (VStr (Text.strip (Text.slice line 87 (Nat.min 94 (String.length line))))).
Proof.
  rewrite (schema_lookup line _ "7" (87, 94, "Entry Detail Sequence Number")); [done|].
  apply (bool_decide_unpack _). vm_compute. exact I.
Qed.

(** A record decoded under the ['9'] schema has no [raw_line] key. *)
Lemma file_control_no_raw_line (line : string) :
  dict_get (decode_fields line (schema "9")) "raw_line" = None.
Proof.
  apply decode_fields_absent. apply (bool_decide_unpack _). vm_compute. exact I.
Qed.

(** The two shapes of a decoded line under [RECORD_DEFINITIONS]: a known
    type with its schema, or ["unknown"] with the raw line. The ["filler"]
    shape needs a type ['9'] without a schema, and ['9'] has one. *)
Lemma parse_record_shapes (c : ascii) (rest : string) :
  let line := String c rest in
  let record_type := String c EmptyString in
  (record_type ∈ ["1"; "5"; "6"; "7"; "8"; "9"]
   ∧ parse_record RECORD_DEFINITIONS line
     = (Some record_type, Some (decode_fields line (schema record_type))))
  ∨ ((record_type ∉ ["1"; "5"; "6"; "7"; "8"; "9"])
     ∧ parse_record RECORD_DEFINITIONS line
       = (Some "unknown", Some [("raw_line", VStr (Text.strip line))])).
Proof.
  intros line record_type.
  destruct (decide (record_type ∈ ["1"; "5"; "6"; "7"; "8"; "9"])) as [Hin|Hout].
  - left. split; [done|]. subst line record_type.
    repeat (apply elem_of_cons in Hin as [[= ->] | Hin]; [reflexivity|]).
    by apply elem_of_nil in Hin.
  - right. split; [done|]. subst line. unfold parse_record. fold record_type.
    assert (dict_get RECORD_DEFINITIONS record_type = None) as ->.
    { destruct (dict_get RECORD_DEFINITIONS record_type) eqn:E; [|done].
      exfalso. apply Hout. apply dict_get_elem_of in E.
      unfold RECORD_DEFINITIONS in E.
      repeat (apply elem_of_cons in E as [[= -> _] | E];
              [apply (bool_decide_unpack _); vm_compute; exact I|]).
      by apply elem_of_nil in E. }
    assert (String.eqb record_type "9" = false) as ->; [|done].
    apply String.eqb_neq. intros E. apply Hout. rewrite E.
    apply (bool_decide_unpack _). vm_compute. exact I.
Qed.

Lemma parse_record_typed (line : string) (record_type : option string)
    (parsed_record : record) :
  parse_record RECORD_DEFINITIONS line = (record_type, Some parsed_record) →
  typed_record record_type parsed_record.
Proof.
  destruct line as [|c rest]; [done|].
  destruct (parse_record_shapes c rest) as [[Hin ->] | [_ ->]].
  - intros [= <- <-].
    repeat (apply elem_of_cons in Hin as [[= ->] | Hin];
            [repeat split; intros Heq; try discriminate Heq;
             first [ intros z; by rewrite entry_trace_number
                   | eexists; apply addenda_sequence_number
                   | apply file_control_no_raw_line ]|]).
    by apply elem_of_nil in Hin.
  - intros [= <- <-]. repeat split; intros Heq; discriminate Heq.
Qed.

Lemma well_formed_entries (st st' : state) :
  entry_store st' = entry_store st → well_formed st → well_formed st'.
Proof. unfold well_formed. by intros ->. Qed.

Lemma well_formed_attach (e : loc) (parsed_record : record) (st : state) :
  well_formed st → well_formed (attach_addenda e parsed_record st).
Proof.
  intros Hwf e' o z. simpl. rewrite list_lookup_alter.
  case_decide as Hd; [subst e'|exact (Hwf e' o z)].
  destruct (entry_store st !! e) as [o'|] eqn:E; [|done].
  intros [= <-]. simpl. by eapply Hwf.
Qed.

Lemma well_formed_fallback (n : nat) (parsed_record : record) (st : state) :
  well_formed st → well_formed (addenda_fallback n parsed_record st).
Proof.
  intros Hwf. unfold addenda_fallback.
  destruct (current_batch st); [destruct (last _)|];
    [by apply well_formed_attach | done | done].
Qed.

Lemma well_formed_trace (st : state) (e : loc) :
  well_formed st →
  ∃ t, (default (VStr EmptyString)
          (dict_get (eo_fields (entry_store st !!! e)) "trace_number")) = VStr t.
Proof.
  intros Hwf. rewrite list_lookup_total_alt.
  destruct (entry_store st !! e) as [o|] eqn:E; simpl; [|eauto].
  destruct (dict_get (eo_fields o) "trace_number") as [[t|z]|] eqn:Et; simpl; eauto.
  by destruct (Hwf e o z E).
Qed.

(** On a well-typed record the dispatch returns, in a well-formed state. *)
Lemma dispatch_returns (n : nat) (record_type : option string) (parsed_record : record)
    (st : state) :
  typed_record record_type parsed_record → well_formed st →
  ∃ st', dispatch n record_type parsed_record st = Returned st' ∧ well_formed st'.
Proof.
  intros (H6 & H7 & H9) Hwf. unfold dispatch.
  destruct (is_type record_type "1"); [by eexists|].
  destruct (is_type record_type "5"); [eexists; split; [done|]|].
  { by destruct (current_batch st). }
  destruct (is_type record_type "6").
  { destruct (current_batch st); eexists; (split; [done|]); [|done].
    intros e o z. simpl. intros [Ho|[_ Ho]]%lookup_app_Some; [by eapply Hwf|].
    apply list_lookup_singleton_Some in Ho as [_ <-]. simpl. by apply H6. }
  destruct (is_type record_type "7").
  { destruct (H7 eq_refl) as [s Hs]. unfold on_addenda.
    destruct (current_entry st) as [e|]; [|by eexists].
    rewrite Hs. destruct (truthy (VStr s)).
    - destruct (well_formed_trace st e Hwf) as [t ->].
      destruct (Text.endswith t s); eexists; (split; [done|]).
      + by apply well_formed_attach.
      + by apply well_formed_fallback.
    - eexists; split; [done|]. by apply well_formed_fallback. }
  destruct (is_type record_type "8").
  { destruct (current_batch st); by eexists. }
  destruct (is_type record_type "9").
  { unfold on_file_control. rewrite (H9 eq_refl).
    destruct (dict_has _ _); by eexists. }
  destruct (is_type record_type "filler"); [by eexists|].
  destruct (is_type record_type "unknown"); by eexists.
Qed.

(** Under [RECORD_DEFINITIONS] a turn of the loop on a line of text
    returns. *)
Lemma loop_body_returns (n : nat) (line : string) (st : state) :
  well_formed st →
  ∃ st', loop_body RECORD_DEFINITIONS n line st = Returned st' ∧ well_formed st'.
Proof.
  intros Hwf. destruct (decide (String.length (Text.strip line) = 0)) as [Hb|Hnb].
  - rewrite loop_body_blank by done. eauto.
  - destruct (loop_body_nonblank RECORD_DEFINITIONS n line st Hnb)
      as (rt & p & Hp & _ & ->).
    apply dispatch_returns; [by eapply parse_record_typed|].
    eapply well_formed_entries; [|exact Hwf].
    unfold check_length. destruct (_ && _); [|done]. simpl. by destruct (negb _).
Qed.

(** Under [RECORD_DEFINITIONS] the loop over lines of text returns. *)
Lemma loop_returns (lines : list string) (i : nat) (st : state) :
  well_formed st →
  ∃ st', loop RECORD_DEFINITIONS i (PyStr <$> lines) st = Returned st'
         ∧ well_formed st'.
Proof.
  revert i st. induction lines as [|line rest IH]; intros i st Hwf; simpl; [eauto|].
  destruct (loop_body_returns (i + 1) line st Hwf) as (st1 & -> & Hwf1).
  by apply IH.
Qed.

Lemma well_formed_initial : well_formed initial_state.
Proof. by intros e o z. Qed.

(** ** The branches of the dispatch *)

Lemma dispatch_file_header (n : nat) (p : record) (st : state) :
  dispatch n (Some "1") p st = Returned (set_file_header p st).
Proof. reflexivity. Qed.

Lemma dispatch_batch_header (n : nat) (p : record) (st : state) :
  dispatch n (Some "5") p st
  = Returned (open_batch p
                match current_batch st with
                | Some _ => append_error (UnexpectedBatchHeader n) st
                | None => st
                end).
Proof. reflexivity. Qed.

Lemma dispatch_entry_detail (n : nat) (p : record) (st : state) :
  dispatch n (Some "6") p st
  = match current_batch st with
    | None => Returned (append_error (EntryOutsideBatch n) st)
    | Some b => Returned (open_entry b p st)
    end.
Proof. reflexivity. Qed.

Lemma dispatch_addenda (n : nat) (p : record) (st : state) :
  dispatch n (Some "7") p st = on_addenda n p st.
Proof. reflexivity. Qed.

Lemma dispatch_batch_control (n : nat) (p : record) (st : state) :
  dispatch n (Some "8") p st
  = match current_batch st with
    | None => Returned (append_error (BatchControlOutsideBatch n) st)
    | Some b => Returned (close_batch b p st)
    end.
Proof. reflexivity. Qed.

Lemma dispatch_file_control (n : nat) (p : record) (st : state) :
  dispatch n (Some "9") p st = on_file_control p st.
Proof. reflexivity. Qed.

(** A line of a known record type is decoded under its schema and
    dispatched under its type. *)
Lemma loop_body_known (n : nat) (c : ascii) (rest : string) (st : state) :
  String c EmptyString ∈ ["1"; "5"; "6"; "7"; "8"; "9"] →
  let line := String c rest in
  loop_body RECORD_DEFINITIONS n line st
  = dispatch n (Some (String c EmptyString))
      (decode_fields line (schema (String c EmptyString)))
      (check_length n line st).
Proof.
  intros Hin line.
  assert (String.length (Text.strip line) ≠ 0) as Hnb.
  { subst line. rewrite strip_cons_nonspace; [done|].
    repeat (apply elem_of_cons in Hin as [[= ->] | Hin]; [reflexivity|]).
    by apply elem_of_nil in Hin. }
  destruct (loop_body_nonblank RECORD_DEFINITIONS n line st Hnb)
    as (rt & p & Hp & _ & ->).
  destruct (parse_record_shapes c rest) as [[_ Hk] | [Hout _]]; [|done].
  fold line in Hk. rewrite Hk in Hp. by injection Hp as <- <-.
Qed.

Lemma check_length_current_batch (n : nat) (line : string) (st : state) :
  current_batch (check_length n line st) = current_batch st.
Proof. unfold check_length. destruct (_ && _); [|done]. simpl. by destruct (negb _). Qed.

Lemma check_length_batch_store (n : nat) (line : string) (st : state) :
  batch_store (check_length n line st) = batch_store st.
Proof. unfold check_length. destruct (_ && _); [|done]. simpl. by destruct (negb _). Qed.

Lemma check_length_batches (n : nat) (line : string) (st : state) :
  st_batches (check_length n line st) = st_batches st.
Proof. unfold check_length. destruct (_ && _); [|done]. simpl. by destruct (negb _). Qed.

Lemma check_length_current_entry (n : nat) (line : string) (st : state) :
  current_entry (check_length n line st) = current_entry st.
Proof. unfold check_length. destruct (_ && _); [|done]. simpl. by destruct (negb _). Qed.

Lemma check_length_entry_store (n : nat) (line : string) (st : state) :
  entry_store (check_length n line st) = entry_store st.
Proof. unfold check_length. destruct (_ && _); [|done]. simpl. by destruct (negb _). Qed.

(** The length check adds at most a length diagnostic. *)
Lemma check_length_errors (n : nat) (line : string) (st : state) :
  ∃ new, st_errors (check_length n line st) = st_errors st ++ new
         ∧ Forall (λ d, category_of d = LengthError) new.
Proof.
  unfold check_length. destruct (_ && _).
  - simpl. destruct (negb _); simpl.
    + eexists [_]. split; [done|]. by apply Forall_singleton.
    + exists []. by rewrite app_nil_r.
  - exists []. by rewrite app_nil_r.
Qed.

(** ** A batch header on an open batch *)

Lemma open_uncontrolled_aside (b : loc) (st st' : state) :
  batch_store st' = batch_store st → current_batch st' = current_batch st →
  open_uncontrolled b st → open_uncontrolled b st'.
Proof. unfold open_uncontrolled. by intros -> ->. Qed.

Lemma open_uncontrolled_open_batch (b : loc) (p : record) (st : state) :
  open_uncontrolled b st → open_uncontrolled b (open_batch p st).
Proof.
  intros (_ & o & Ho & Hc). split; [by eexists|]. exists o. split; [|done].
  simpl. rewrite lookup_app_l; [done|]. by eapply lookup_lt_Some.
Qed.

Lemma on_addenda_aside (n : nat) (p : record) (st st' : state) :
  on_addenda n p st = Returned st' →
  batch_store st' = batch_store st ∧ current_batch st' = current_batch st.
Proof.
  assert (∀ st0, batch_store (addenda_fallback n p st0) = batch_store st0
                 ∧ current_batch (addenda_fallback n p st0) = current_batch st0) as Hf.
  { intros st0. unfold addenda_fallback.
    destruct (current_batch st0) eqn:E; [destruct (last _)|]; by rewrite ?E. }
  unfold on_addenda. destruct (current_entry st) as [e|]; [|by intros [= <-]].
  destruct (dict_get p _) as [seq|]; [|intros [= <-]; apply Hf].
  destruct (truthy seq); [|intros [= <-]; apply Hf].
  destruct (default _ _) as [t|]; [destruct seq as [s|]|]; try done.
  destruct (Text.endswith t s); intros [= <-]; [done | apply Hf].
Qed.

Lemma on_file_control_aside (p : record) (st st' : state) :
  on_file_control p st = Returned st' →
  batch_store st' = batch_store st ∧ current_batch st' = current_batch st.
Proof.
  unfold on_file_control. destruct (dict_get p "raw_line") as [[raw|]|]; [|done|].
  - destruct (Text.all_nines raw); [|destruct (dict_has _ _)]; by intros [= <-].
  - destruct (dict_has _ _); by intros [= <-].
Qed.

(** A record that is not a batch control leaves an open batch open and
    adds no [batch_control] key. *)
Lemma dispatch_keeps_open (b : loc) (n : nat) (record_type : option string)
    (p : record) (st st' : state) :
  is_type record_type "8" = false →
  dispatch n record_type p st = Returned st' →
  open_uncontrolled b st → open_uncontrolled b st'.
Proof.
  intros H8 Hd Hopen. unfold dispatch in Hd. rewrite H8 in Hd.
  destruct (is_type record_type "1").
  { injection Hd as <-. by eapply open_uncontrolled_aside. }
  destruct (is_type record_type "5").
  { injection Hd as <-. apply open_uncontrolled_open_batch.
    destruct (current_batch st) eqn:E; [|done].
    eapply open_uncontrolled_aside; [| |exact Hopen]; done. }
  destruct (is_type record_type "6").
  { destruct Hopen as ([b0 Hb0] & o & Ho & Hc). rewrite Hb0 in Hd.
    injection Hd as <-. split; [by eexists|]. simpl.
    rewrite list_lookup_alter. case_decide as Hdec.
    - subst b0. rewrite Ho. simpl. eauto.
    - eauto. }
  destruct (is_type record_type "7").
  { destruct (on_addenda_aside _ _ _ _ Hd). by eapply open_uncontrolled_aside. }
  destruct (is_type record_type "9").
  { destruct (on_file_control_aside _ _ _ Hd). by eapply open_uncontrolled_aside. }
  destruct (is_type record_type "filler").
  { injection Hd as <-. by eapply open_uncontrolled_aside. }
  destruct (is_type record_type "unknown"); injection Hd as <-; [|done].
  by eapply open_uncontrolled_aside.
Qed.

Lemma startswith_cons (c d : ascii) (rest : string) :
  Text.startswith (String c rest) (String d EmptyString) = bool_decide (d = c).
Proof.
  unfold Text.startswith. simpl. destruct (ascii_dec d c) as [->|Hne].
  - rewrite bool_decide_eq_true_2 by done. by destruct rest.
  - by rewrite bool_decide_eq_false_2.
Qed.

Lemma loop_body_keeps_open (b : loc) (n : nat) (line : string) (st st' : state) :
  Text.startswith line "8" = false →
  loop_body RECORD_DEFINITIONS n line st = Returned st' →
  open_uncontrolled b st → open_uncontrolled b st'.
Proof.
  intros H8. destruct (decide (String.length (Text.strip line) = 0)) as [Hb|Hnb].
  { rewrite loop_body_blank by done. by intros [= <-]. }
  destruct (strip_nonblank_cons _ Hnb) as (c & rest & ->).
  destruct (loop_body_nonblank RECORD_DEFINITIONS n (String c rest) st Hnb)
    as (rt & p & Hp & _ & ->).
  intros Hd Hopen. eapply dispatch_keeps_open; [|exact Hd|].
  - rewrite startswith_cons in H8. apply bool_decide_eq_false_1 in H8.
    destruct (parse_record_shapes c rest) as [[_ Hk] | [_ Hk]];
      rewrite Hk in Hp; injection Hp as <- <-; simpl; [|done].
    destruct (Ascii.eqb_spec c "8"); [by subst c | done].
  - eapply open_uncontrolled_aside; [| |exact Hopen];
      [apply check_length_batch_store | apply check_length_current_batch].
Qed.

Lemma loop_keeps_open (b : loc) (lines : list string) (i : nat) (st st' : state) :
  Forall (λ line, Text.startswith line "8" = false) lines →
  loop RECORD_DEFINITIONS i (PyStr <$> lines) st = Returned st' →
  open_uncontrolled b st → open_uncontrolled b st'.
Proof.
  intros Hall. revert i st.
  induction Hall as [|line rest H8 Hall IH]; intros i st; simpl.
  - by intros [= <-].
  - destruct (loop_body RECORD_DEFINITIONS (i + 1) line st) as [st1|] eqn:E; [|done].
    intros Hl Hopen. eapply IH; [exact Hl|]. by eapply loop_body_keeps_open.
Qed.

Lemma filter_none {A} (P : A → Prop) `{!∀ x, Decision (P x)} (l : list A) :
  Forall (λ x, ¬ P x) l → filter P l = [].
Proof. induction 1 as [|x l Hx Hl IH]; [done|]. by rewrite filter_cons_False. Qed.

(** The loop around one line of the input. *)
Lemma loop_middle (defs : registry) (l1 : list string) (x : string) (l2 : list string)
    (i : nat) (st st' : state) :
  loop defs i (PyStr <$> (l1 ++ x :: l2)) st = Returned st' →
  ∃ sa sb, loop defs i (PyStr <$> l1) st = Returned sa
           ∧ loop_body defs (i + length l1 + 1) x sa = Returned sb
           ∧ loop defs (i + length l1 + 1) (PyStr <$> l2) sb = Returned st'.
Proof.
  rewrite fmap_app, loop_app, length_fmap.
  destruct (loop defs i (PyStr <$> l1) st) as [sa|]; [|done].
  rewrite fmap_cons. simpl.
  destruct (loop_body defs (i + length l1 + 1) x sa) as [sb|] eqn:Eb; [|done].
  intros H. exists sa, sb. split; [done|]. split; [done|].
  by replace (i + length l1 + 1) with (S (i + length l1)) by lia.
Qed.

(** What a batch header does: a new dictionary, appended to the batches
    and made current, and one diagnostic when a batch was open. *)
Lemma loop_body_batch_header (n : nat) (rest : string) (st st' : state) :
  let line := String "5" rest in
  loop_body RECORD_DEFINITIONS n line st = Returned st' →
  let b := length (batch_store st) in
  st_batches st' = st_batches st ++ [b]
  ∧ current_batch st' = Some b
  ∧ current_entry st' = current_entry st
  ∧ batch_store st'
    = batch_store st
      ++ [{| bo_fields := decode_fields line (schema "5");
             bo_entries := []; bo_control := None |}]
  ∧ st_errors st'
    = st_errors (check_length n line st)
      ++ match current_batch st with
         | Some _ => [UnexpectedBatchHeader n]
         | None => []
         end.
Proof.
  intros line. unfold line at 1. rewrite loop_body_known.
  2:{ apply (bool_decide_unpack _). vm_compute. exact I. }
  fold line. rewrite dispatch_batch_header. intros [= <-].
  rewrite check_length_current_batch.
  pose proof (check_length_batch_store n line st) as Hs.
  pose proof (check_length_batches n line st) as Hb.
  pose proof (check_length_current_entry n line st) as He.
  destruct (current_batch st); simpl; rewrite Hs, Hb, He, ?app_nil_r; done.
Qed.

(** C3. When the lines of the input hold a batch header, then lines none
    of which is a batch control, then a second batch header, the parser
    returns; among its diagnostics exactly one structural one is about the
    line of the second header, the "unexpected batch header" one; the
    batches of both headers are in the list of batches, the first before
    the second; and the first has no batch control. *)
Theorem second_header_on_open_batch (content : pyobj) (pre mid post : list string)
    (h1 h2 : string) :
  lines_of content = Some (PyStr <$> (pre ++ h1 :: mid ++ h2 :: post)) →
  has_type "5" h1 → has_type "5" h2 →
  Forall (λ line, Text.startswith line "8" = false) mid →
  let n2 := length pre + length mid + 2 in
  ∃ (r : ach_data) (i j : nat) (B1 B2 : batch),
    parse_ach_file_content RECORD_DEFINITIONS content = Returned r
    ∧ filter (structural_at n2) (errors r) = [UnexpectedBatchHeader n2]
    ∧ i < j
    ∧ batches r !! i = Some B1 ∧ batches r !! j = Some B2
    ∧ batch_record B1 = decode_fields h1 (schema "5")
    ∧ batch_record B2 = decode_fields h2 (schema "5")
    ∧ batch_control B1 = None.
Proof.
  intros Hlines [r1 Eh1] [r2 Eh2] Hmid n2.
  unfold parse_ach_file_content, run. rewrite Hlines.
  destruct (loop_returns (pre ++ h1 :: mid ++ h2 :: post) 0 initial_state
              well_formed_initial) as (st5 & Hrun & _).
  rewrite Hrun. simpl.
  (* the states around the two headers *)
  replace (pre ++ h1 :: mid ++ h2 :: post)
    with ((pre ++ h1 :: mid) ++ h2 :: post) in Hrun by by rewrite <- app_assoc.
  apply loop_middle in Hrun as (st3 & st4 & HA & H2 & Hpost).
  pose proof (evolves_loop _ _ _ _ _ HA) as EA.
  apply loop_middle in HA as (st1 & st2 & Hpre & H1 & Hm).
  rewrite length_fmap, length_app in EA. simpl in *.
  rewrite length_app in H2, Hpost. simpl in H2, Hpost.
  assert (length pre + S (length mid) + 1 = n2) as En by (unfold n2; lia).
  rewrite En in H2, Hpost. clear En.
  (* the first header *)
  rewrite Eh1 in H1.
  apply loop_body_batch_header in H1 as (Hb1 & Hc1 & _ & Hs1 & _).
  rewrite <- Eh1 in Hs1.
  set (b1 := length (batch_store st1)) in *.
  assert (open_uncontrolled b1 st2) as Hopen2.
  { split; [by eexists|]. eexists.
    split; [rewrite Hs1; by apply list_lookup_middle | reflexivity]. }
  (* the lines between the headers *)
  pose proof (loop_keeps_open b1 _ _ _ _ Hmid Hm Hopen2)
    as ([b Hcur3] & o & Ho3 & Hctl).
  pose proof (evolves_loop _ _ _ _ _ Hm) as Em.
  assert (bo_fields o = decode_fields h1 (schema "5")) as Hf1.
  { destruct (ev_fields _ _ _ _ Em b1
                {| bo_fields := decode_fields h1 (schema "5");
                   bo_entries := []; bo_control := None |})
      as (o' & Ho' & Hf); [rewrite Hs1; by apply list_lookup_middle|].
    rewrite Ho3 in Ho'. by injection Ho' as <-. }
  destruct (ev_batches _ _ _ _ Em) as (M & HM).
  assert (b1 < length (batch_store st3)) as Hlt by (by eapply lookup_lt_Some).
  (* the second header *)
  rewrite Eh2 in H2.
  apply loop_body_batch_header in H2 as (Hb2 & Hc2 & _ & Hs2 & He2).
  rewrite <- Eh2 in Hs2, He2. rewrite Hcur3 in He2.
  set (b2 := length (batch_store st3)) in *.
  destruct (check_length_errors n2 h2 st3) as (len_errors & Hlen & Hcat).
  rewrite Hlen in He2.
  (* the lines after it *)
  pose proof (evolves_loop _ _ _ _ _ Hpost) as Ep.
  destruct (ev_errors _ _ _ _ Ep) as (after & Hafter & Hlines_after).
  destruct (ev_batches _ _ _ _ Ep) as (P & HP).
  destruct (ev_errors _ _ _ _ EA) as (before & Hbefore & Hlines_before).
  simpl in Hbefore.
  assert (batch_store st5 !! b1 = Some o) as Ho5.
  { rewrite (ev_frozen _ _ _ _ Ep).
    - rewrite Hs2. by apply lookup_app_l_Some.
    - rewrite Hs2, length_app. simpl. lia.
    - rewrite Hc2. intros [= E]. lia. }
  destruct (ev_fields _ _ _ _ Ep b2
              {| bo_fields := decode_fields h2 (schema "5");
                 bo_entries := []; bo_control := None |})
    as (o2 & Ho2 & Hf2); [rewrite Hs2; by apply list_lookup_middle|].
  simpl in Hf2.
  exists (result_of st5), (length (st_batches st1)), (length (st_batches st3)),
    (batch_at st5 b1), (batch_at st5 b2).
  split; [done|]. split; [|split; [|split; [|split; [|split; [|split]]]]].
  - simpl. rewrite Hafter, He2, Hbefore, !filter_app.
    rewrite (filter_none _ before), (filter_none _ len_errors), (filter_none _ after).
    + rewrite filter_singleton_True; by try exact [].
    + eapply Forall_impl; [exact Hlines_after|].
      intros d (n & Hn & Hr) [_ Hd]. rewrite Hn in Hd. injection Hd as ->. lia.
    + eapply Forall_impl; [exact Hcat|]. intros d Hd [Hs _]. congruence.
    + eapply Forall_impl; [exact Hlines_before|].
      intros d (n & Hn & Hr) [_ Hd]. rewrite Hn in Hd. injection Hd as ->.
      unfold n2 in Hr. lia.
  - rewrite HM, Hb1, !length_app. simpl. lia.
  - simpl. rewrite list_lookup_fmap, HP, Hb2, HM, Hb1.
    rewrite <- !app_assoc. simpl. by rewrite list_lookup_middle.
  - simpl. rewrite list_lookup_fmap, HP, Hb2.
    rewrite <- app_assoc. simpl. by rewrite list_lookup_middle.
  - unfold batch_at. simpl. by rewrite (list_lookup_total_correct _ _ _ Ho5).
  - unfold batch_at. simpl. by rewrite (list_lookup_total_correct _ _ _ Ho2).
  - unfold batch_at. simpl. by rewrite (list_lookup_total_correct _ _ _ Ho5).
Qed.

(** ** The addenda rule *)

(** A sequence number that is not empty and ends the trace number of the
    current entry: the addenda goes to the current entry. *)
Lemma on_addenda_match (n : nat) (p : record) (st : state) (e : loc) (seq trace : string) :
  current_entry st = Some e →
  dict_get p "entry_detail_sequence_number" = Some (VStr seq) →
  dict_get (eo_fields (entry_store st !!! e)) "trace_number" = Some (VStr trace) →
  seq ≠ EmptyString → is_suffix seq trace →
  on_addenda n p st = Returned (attach_addenda e p st).
Proof.
  intros He Hs Ht Hne Hsuf. unfold on_addenda. rewrite He, Hs, Ht. simpl.
  apply endswith_spec in Hsuf. rewrite Hsuf. by destruct seq.
Qed.

(** A sequence number that is empty, or does not end the trace number:
    the fallback. *)
Lemma on_addenda_no_match (n : nat) (p : record) (st : state) (e : loc) (seq trace : string) :
  current_entry st = Some e →
  dict_get p "entry_detail_sequence_number" = Some (VStr seq) →
  dict_get (eo_fields (entry_store st !!! e)) "trace_number" = Some (VStr trace) →
  seq = EmptyString ∨ ¬ is_suffix seq trace →
  on_addenda n p st = Returned (addenda_fallback n p st).
Proof.
  intros He Hs Ht Hno. unfold on_addenda. rewrite He, Hs, Ht. simpl.
  destruct seq as [|c seq]; [done|]. destruct Hno as [?|Hno]; [done|].
  destruct (Text.endswith trace (String c seq)) eqn:E; [|done].
  by apply endswith_spec in E.
Qed.

(** The fallback, when the current batch has entries: the addenda goes to
    the last of them, without a diagnostic. *)
Lemma addenda_fallback_last (n : nat) (p : record) (st : state) (b e : loc) :
  current_batch st = Some b →
  last (bo_entries (batch_store st !!! b)) = Some e →
  addenda_fallback n p st = attach_addenda e p st.
Proof. intros Hb Hl. unfold addenda_fallback. by rewrite Hb, Hl. Qed.

(** When the current entry is the last entry of the current batch, an
    addenda goes to it whatever its sequence number. *)
Lemma on_addenda_current_last (n : nat) (p : record) (st : state) (b e : loc)
    (seq trace : string) :
  current_entry st = Some e → current_batch st = Some b →
  last (bo_entries (batch_store st !!! b)) = Some e →
  dict_get p "entry_detail_sequence_number" = Some (VStr seq) →
  dict_get (eo_fields (entry_store st !!! e)) "trace_number" = Some (VStr trace) →
  on_addenda n p st = Returned (attach_addenda e p st).
Proof.
  intros He Hb Hl Hs Ht. unfold on_addenda. rewrite He, Hs, Ht. simpl.
  rewrite (addenda_fallback_last n p st b e Hb Hl).
  destruct seq; [done|]. by destruct (Text.endswith _ _).
Qed.

(** ** A well-formed file of six lines *)

Lemma check_length_94 (n : nat) (line : string) (st : state) :
  String.length line = 94 → check_length n line st = st.
Proof. intros H. unfold check_length. by rewrite H. Qed.

Lemma loop_body_record (n : nat) (c : ascii) (line : string) (st : state) :
  String c EmptyString ∈ ["1"; "5"; "6"; "7"; "8"; "9"] →
  has_type c line → String.length line = 94 →
  loop_body RECORD_DEFINITIONS n line st
  = dispatch n (Some (String c EmptyString))
      (decode_fields line (schema (String c EmptyString))) st.
Proof.
  intros Hin [rest ->] Hlen. rewrite loop_body_known by done.
  by rewrite check_length_94.
Qed.

Lemma six_line_result (l1 l2 l3 l4 l5 l6 : string) :
  has_type "1" l1 → has_type "5" l2 → has_type "6" l3 →
  has_type "7" l4 → has_type "8" l5 → has_type "9" l6 →
  Forall (λ line, String.length line = 94) [l1; l2; l3; l4; l5; l6] →
  parse_ach_file_content RECORD_DEFINITIONS (PyList (PyStr <$> [l1; l2; l3; l4; l5; l6]))
  = Returned {|
      file_header := Some (decode_fields l1 (schema "1"));
      batches := [ {|
        batch_record := decode_fields l2 (schema "5");
        entries := [ {| entry_record := decode_fields l3 (schema "6");
                        addenda := [decode_fields l4 (schema "7")] |} ];
        batch_control := Some (decode_fields l5 (schema "8")) |} ];
      file_control := Some (decode_fields l6 (schema "9"));
      errors := [];
      other_records := []
    |}.
Proof.
  intros T1 T2 T3 T4 T5 T6 Hlen.
  repeat (apply Forall_cons in Hlen as [? Hlen]).
  unfold parse_ach_file_content, run. simpl.
  rewrite (loop_body_record _ "1") by (done || known_type).
  rewrite dispatch_file_header.
  rewrite (loop_body_record _ "5") by (done || known_type).
  rewrite dispatch_batch_header.
  rewrite (loop_body_record _ "6") by (done || known_type).
  rewrite dispatch_entry_detail. simpl.
  rewrite (loop_body_record _ "7") by (done || known_type).
  rewrite dispatch_addenda.
  erewrite (on_addenda_current_last _ _ _ 0 0);
    [|done|done|done|apply addenda_sequence_number|apply entry_trace_number].
  rewrite (loop_body_record _ "8") by (done || known_type).
  rewrite dispatch_batch_control. simpl.
  rewrite (loop_body_record _ "9") by (done || known_type).
  rewrite dispatch_file_control. unfold on_file_control.
  rewrite file_control_no_raw_line.
  by destruct (dict_has _ _).
Qed.

(** The value of the parser depends on the input through its lines
    only. *)
Lemma parse_by_lines (defs : registry) (content : pyobj) (lines : list pyobj) :
  lines_of content = Some lines →
  parse_ach_file_content defs content = parse_ach_file_content defs (PyList lines).
Proof. intros H. unfold parse_ach_file_content, run. by rewrite H. Qed.

(** C2. For an input whose lines are a file header, a batch header, an
    entry detail, an addenda, a batch control and a file control, each of
    94 characters, the sequence number of the addenda being a suffix of the
    trace number of the entry, the parser returns a result with no
    diagnostic, one batch, one entry in it, one addenda under that entry,
    and both the file header and the file control set. *)
Theorem six_line_file_parses (content : pyobj) (l1 l2 l3 l4 l5 l6 : string)
    (seq trace : string) :
  lines_of content = Some (PyStr <$> [l1; l2; l3; l4; l5; l6]) →
  has_type "1" l1 → has_type "5" l2 → has_type "6" l3 →
  has_type "7" l4 → has_type "8" l5 → has_type "9" l6 →
  Forall (λ line, String.length line = 94) [l1; l2; l3; l4; l5; l6] →
  dict_get (decode_fields l4 (schema "7")) "entry_detail_sequence_number"
  = Some (VStr seq) →
  dict_get (decode_fields l3 (schema "6")) "trace_number" = Some (VStr trace) →
  is_suffix seq trace →
  ∃ (r : ach_data) (B : batch) (E : entry),
    parse_ach_file_content RECORD_DEFINITIONS content = Returned r
    ∧ errors r = []
    ∧ batches r = [B] ∧ entries B = [E] ∧ length (addenda E) = 1
    ∧ is_Some (file_header r) ∧ is_Some (file_control r).
Proof.
  intros Hlines T1 T2 T3 T4 T5 T6 Hlen _ _ _.
  rewrite (parse_by_lines _ _ _ Hlines), six_line_result by done.
  eexists _, _, _. repeat split; eauto.
Qed.

Lemma six_line_file_parses_witness :
  ∃ (r : ach_data) (B : batch) (E : entry),
    parse_ach_file_content RECORD_DEFINITIONS (PyStr (unlines sample_file)) = Returned r
    ∧ errors r = []
    ∧ batches r = [B] ∧ entries B = [E] ∧ length (addenda E) = 1
    ∧ is_Some (file_header r) ∧ is_Some (file_control r).
Proof.
  apply (six_line_file_parses _ sample_file_header sample_batch_header
           sample_entry_detail sample_addenda sample_batch_control
           sample_file_control "0000001" "076401250000001").
  - vm_compute. reflexivity.
  - eexists. vm_compute. reflexivity.
  - eexists. vm_compute. reflexivity.
  - eexists. vm_compute. reflexivity.
  - eexists. vm_compute. reflexivity.
  - eexists. vm_compute. reflexivity.
  - eexists. vm_compute. reflexivity.
  - repeat constructor; vm_compute; reflexivity.
  - vm_compute. reflexivity.
  - vm_compute. reflexivity.
  - exists "07640125". reflexivity.
Defined.

Lemma numeric_field_coercion_witness :
  ∃ parsed : record,
    parse_record RECORD_DEFINITIONS sample_entry_detail = (Some "6", Some parsed)
    ∧ dict_get parsed "amount" = Some (VInt 100000).
Proof.
  destruct (numeric_field_coercion "6"
              (String.substring 1 93 sample_entry_detail) (schema "6")
              "amount" 29 39 "Amount (cents)")
    as (parsed & Hp & _ & Hint & _).
  - reflexivity.
  - apply (bool_decide_unpack _). vm_compute. exact I.
  - reflexivity.
  - exists parsed. split; [exact Hp|]. apply Hint.
    + vm_compute. discriminate.
    + vm_compute. reflexivity.
Defined.

Lemma second_header_on_open_batch_witness :
  ∃ (r : ach_data) (i j : nat) (B1 B2 : batch),
    parse_ach_file_content RECORD_DEFINITIONS
      (PyList (PyStr <$> [sample_file_header; sample_batch_header;
                          sample_entry_detail; sample_batch_header;
                          sample_batch_control])) = Returned r
    ∧ filter (structural_at 4) (errors r) = [UnexpectedBatchHeader 4]
    ∧ i < j
    ∧ batches r !! i = Some B1 ∧ batches r !! j = Some B2
    ∧ batch_record B1 = decode_fields sample_batch_header (schema "5")
    ∧ batch_record B2 = decode_fields sample_batch_header (schema "5")
    ∧ batch_control B1 = None.
Proof.
  apply (second_header_on_open_batch _ [sample_file_header] [sample_entry_detail]
           [sample_batch_control] sample_batch_header sample_batch_header).
  - reflexivity.
  - eexists. vm_compute. reflexivity.
  - eexists. vm_compute. reflexivity.
  - repeat constructor.
Defined.

Lemma length_check_then_decode_witness :
  check_length 1 "99 " initial_state = initial_state
  ∧ check_length 1 "6 short" initial_state
    = append_error (LengthMismatch 1 7 "6 short") initial_state
  ∧ ∃ (record_type : string) (parsed_record : record),
      parse_record RECORD_DEFINITIONS "6 short" = (Some record_type, Some parsed_record)
      ∧ loop_body RECORD_DEFINITIONS 1 "6 short" initial_state
        = dispatch 1 (Some record_type) parsed_record
            (check_length 1 "6 short" initial_state).
Proof.
  destruct (length_check_then_decode RECORD_DEFINITIONS 1 "99 " initial_state)
    as (Hyes & _ & _); [vm_compute; lia | vm_compute; lia |].
  destruct (length_check_then_decode RECORD_DEFINITIONS 1 "6 short" initial_state)
    as (_ & Hno & Hfwd); [vm_compute; lia | vm_compute; lia |].
  split; [apply Hyes; reflexivity|]. split; [apply Hno; reflexivity|]. exact Hfwd.
Defined.

(** C6 as stated fails: a line of two characters, a space and a nine, is
    not blank, is not 94 characters long and is all nines once trimmed, yet
    the length diagnostic is recorded. *)
Lemma length_error_on_indented_nines :
  let line := " 9" in
  String.length (Text.strip line) ≠ 0
  ∧ String.length line ≠ 94
  ∧ Text.all_nines (Text.strip line) = true
  ∧ st_errors (check_length 1 line initial_state) = [LengthMismatch 1 2 "9"]
  ∧ outcome_map errors (parse_ach_file_content RECORD_DEFINITIONS (PyList [PyStr line]))
    = Returned [LengthMismatch 1 2 "9";
                UnknownRecordType 1 [("raw_line", VStr "9")]].
Proof. vm_compute. repeat split; (lia || reflexivity). Qed.

(** ** Lines of nines *)

(** Every line of nines that is not empty, of any length and in any
    state, is decoded under the ['9'] schema and stored as the file
    control; nothing is appended to the other records. *)
Lemma loop_body_all_nines (n : nat) (line : string) (st : state) :
  line ≠ EmptyString → Text.all_nines line = true →
  loop_body RECORD_DEFINITIONS n line st
  = Returned (set_file_control (decode_fields line (schema "9")) st).
Proof.
  intros Hne H9. destruct line as [|c rest]; [done|].
  assert (c = "9"%char) as ->.
  { unfold Text.all_nines in H9. simpl in H9. apply andb_prop in H9 as [Hc _].
    by apply Ascii.eqb_eq in Hc. }
  rewrite loop_body_known by known_type.
  rewrite check_length_spec by done.
  rewrite (all_nines_strip _ H9), H9, (all_nines_startswith _ _ H9), orb_true_r.
  rewrite dispatch_file_control. unfold on_file_control.
  rewrite file_control_no_raw_line. by destruct (dict_has _ _).
Qed.

(** The filler test is out of reach. A line of 94 nines is not
    classified as filler: the parser appends nothing to the other records
    and stores the line, decoded under the ['9'] schema (batch count
    999999), as the file control; after a real file control line it
    replaces that record. *)
Lemma nines_line_taken_as_file_control :
  (∃ r, parse_ach_file_content RECORD_DEFINITIONS (PyStr (nines 94)) = Returned r
        ∧ other_records r = []
        ∧ file_control r = Some (decode_fields (nines 94) (schema "9"))
        ∧ dict_get (decode_fields (nines 94) (schema "9")) "batch_count"
          = Some (VInt 999999))
  ∧ (∃ r, parse_ach_file_content RECORD_DEFINITIONS
            (PyStr (unlines [sample_file_control; nines 94])) = Returned r
          ∧ other_records r = []
          ∧ file_control r = Some (decode_fields (nines 94) (schema "9"))
          ∧ file_control r ≠ Some (decode_fields sample_file_control (schema "9"))).
Proof.
  split.
  - eexists. split; [vm_compute; reflexivity|]. vm_compute. by repeat split.
  - eexists. split; [vm_compute; reflexivity|]. vm_compute. by repeat split.
Qed.

(** C1 as stated fails: a line of 94 characters, a space followed by
    nines, is not blank and is all nines once trimmed; its record type is
    its first character, the space, so it is recorded as unknown, with a
    diagnostic. *)
Lemma indented_nines_taken_as_unknown :
  String.length (Text.strip sample_indented_nines) ≠ 0
  ∧ Text.all_nines (Text.strip sample_indented_nines) = true
  ∧ ∃ r, parse_ach_file_content RECORD_DEFINITIONS
           (PyList [PyStr sample_indented_nines]) = Returned r
         ∧ errors r = [UnknownRecordType 1 [("raw_line", VStr (nines 93))]]
         ∧ other_records r
           = [{| type := "unknown"; data := [("raw_line", VStr (nines 93))] |}].
Proof.
  split; [vm_compute; lia|]. split; [vm_compute; reflexivity|].
  eexists. split; [vm_compute; reflexivity|]. vm_compute. by split.
Qed.

(** C1, amended. In every state and at every line number, a line that is
    not blank, starts with '9' and is all nines once trimmed is processed
    without any diagnostic; the batches, the file header and the current
    batch and entry stay as they were. *)
Theorem leading_nines_no_diagnostic (n : nat) (line : string) (st : state) :
  String.length (Text.strip line) ≠ 0 →
  Text.startswith line "9" = true →
  Text.all_nines (Text.strip line) = true →
  ∃ st', loop_body RECORD_DEFINITIONS n line st = Returned st'
         ∧ st_errors st' = st_errors st
         ∧ st_batches st' = st_batches st
         ∧ st_file_header st' = st_file_header st
         ∧ current_batch st' = current_batch st
         ∧ current_entry st' = current_entry st
         ∧ batch_store st' = batch_store st
         ∧ entry_store st' = entry_store st.
Proof.
  intros Hnb Hstart Hnines.
  destruct (strip_nonblank_cons _ Hnb) as (c & rest & ->).
  rewrite startswith_cons in Hstart. apply bool_decide_eq_true_1 in Hstart.
  subst c. rewrite loop_body_known by known_type.
  rewrite check_length_spec by done.
  rewrite Hnines, startswith_cons, bool_decide_eq_true_2, orb_true_r by done.
  rewrite dispatch_file_control. unfold on_file_control.
  rewrite file_control_no_raw_line.
  destruct (dict_has _ _); eexists; by repeat split.
Qed.

Lemma leading_nines_no_diagnostic_witness :
  ∃ st', loop_body RECORD_DEFINITIONS 1 "9999  " initial_state = Returned st'
         ∧ st_errors st' = st_errors initial_state
         ∧ st_batches st' = st_batches initial_state
         ∧ st_file_header st' = st_file_header initial_state
         ∧ current_batch st' = current_batch initial_state
         ∧ current_entry st' = current_entry initial_state
         ∧ batch_store st' = batch_store initial_state
         ∧ entry_store st' = entry_store initial_state.
Proof.
  apply (leading_nines_no_diagnostic 1 "9999  " initial_state).
  - vm_compute. lia.
  - reflexivity.
  - reflexivity.
Defined.

(** ** The current entry across a batch header *)

(** A batch header leaves [current_entry] as it was. *)
Lemma batch_header_keeps_entry (n : nat) (rest : string) (st st' : state) :
  loop_body RECORD_DEFINITIONS n (String "5" rest) st = Returned st' →
  current_entry st' = current_entry st.
Proof. intros H. by apply loop_body_batch_header in H as (_ & _ & ? & _). Qed.

(** C5, at a failing input. After a batch header, an entry detail and a
    second batch header, the new batch is the current batch and is in the
    list of batches, but the current entry is still the entry of the
    first batch; an addenda that follows, bearing the sequence number of
    that entry, is stored under it, in the first batch. *)
Theorem second_header_keeps_stale_entry :
  (∃ st, run RECORD_DEFINITIONS (PyList (PyStr <$> sample_reopened)) = Returned st
         ∧ st_batches st = [0; 1] ∧ current_batch st = Some 1
         ∧ current_entry st = Some 0
         ∧ bo_entries (batch_store st !!! 0) = [0]
         ∧ bo_entries (batch_store st !!! 1) = [])
  ∧ (∃ r B1 B2 E,
       parse_ach_file_content RECORD_DEFINITIONS
         (PyList (PyStr <$> sample_reopened ++ [sample_addenda])) = Returned r
       ∧ errors r = [UnexpectedBatchHeader 3]
       ∧ batches r = [B1; B2]
       ∧ entries B1 = [E] ∧ entries B2 = []
       ∧ addenda E = [decode_fields sample_addenda (schema "7")]).
Proof.
  split.
  - eexists. split; [vm_compute; reflexivity|]. vm_compute. by repeat split.
  - eexists _, _, _, _. split; [vm_compute; reflexivity|]. vm_compute. by repeat split.
Qed.

(** C4 as stated fails on a blank sequence number. After a batch header,
    an entry detail and a second batch header a current entry exists; an
    addenda whose sequence columns are blank has a sequence number, the
    empty text, that is a suffix of the trace number of that entry; the
    guard [if entry_detail_seq_from_addenda and ...] sends it to the
    fallback all the same, and there the addenda is stored under no entry
    and a diagnostic is recorded. *)
Theorem blank_addenda_after_second_header :
  ∃ st st' trace,
    run RECORD_DEFINITIONS (PyList (PyStr <$> sample_reopened)) = Returned st
    ∧ current_entry st = Some 0
    ∧ dict_get (eo_fields (entry_store st !!! 0)) "trace_number" = Some (VStr trace)
    ∧ dict_get (decode_fields sample_addenda_blank (schema "7"))
        "entry_detail_sequence_number" = Some (VStr EmptyString)
    ∧ is_suffix EmptyString trace
    ∧ loop_body RECORD_DEFINITIONS 4 sample_addenda_blank st = Returned st'
    ∧ st_errors st'
      = st_errors st
        ++ [AddendaNotAssociated 4 (decode_fields sample_addenda_blank (schema "7"))]
    ∧ eo_addenda <$> entry_store st' = [[]].
Proof.
  eexists _, _, _. split; [vm_compute; reflexivity|].
  split; [reflexivity|]. split; [vm_compute; reflexivity|].
  split; [vm_compute; reflexivity|].
  split; [apply is_suffix_empty|].
  split; [vm_compute; reflexivity|]. vm_compute. by split.
Qed.

(** C4, amended. For a ['7'] record processed while a current entry
    exists, in every state: a sequence number that is not blank and ends
    the trace number of the current entry sends the addenda to that entry;
    a sequence number that is blank, or does not end the trace number,
    sends it to the last entry of the current batch when that batch has
    entries; in both cases the addenda is appended to the addenda list of
    that entry and no diagnostic is recorded. *)
Theorem addenda_attached_without_error (n : nat) (p : record) (st : state) (e : loc)
    (seq trace : string) :
  current_entry st = Some e →
  dict_get p "entry_detail_sequence_number" = Some (VStr seq) →
  default (VStr EmptyString) (dict_get (eo_fields (entry_store st !!! e)) "trace_number")
  = VStr trace →
  (seq ≠ EmptyString ∧ is_suffix seq trace →
   ∃ st', dispatch n (Some "7") p st = Returned st'
          ∧ entry_store st' = alter (push_addenda p) e (entry_store st)
          ∧ batch_store st' = batch_store st
          ∧ st_errors st' = st_errors st)
  ∧ (seq = EmptyString ∨ ¬ is_suffix seq trace →
     ∀ b e', current_batch st = Some b →
             last (bo_entries (batch_store st !!! b)) = Some e' →
             ∃ st', dispatch n (Some "7") p st = Returned st'
                    ∧ entry_store st' = alter (push_addenda p) e' (entry_store st)
                    ∧ batch_store st' = batch_store st
                    ∧ st_errors st' = st_errors st).
Proof.
  intros He Hs Ht. rewrite dispatch_addenda. unfold on_addenda.
  rewrite He, Hs, Ht. split.
  - intros [Hne Hsuf]. apply endswith_spec in Hsuf. rewrite Hsuf.
    destruct seq; [done|]. simpl. eexists. split; [reflexivity|]. by repeat split.
  - intros Hno b e' Hb Hl.
    assert (Returned (addenda_fallback n p st) = Returned (attach_addenda e' p st)) as Hf
      by by rewrite (addenda_fallback_last n p st b e' Hb Hl).
    assert (∃ st', Returned (addenda_fallback n p st) = Returned st'
                   ∧ entry_store st' = alter (push_addenda p) e' (entry_store st)
                   ∧ batch_store st' = batch_store st
                   ∧ st_errors st' = st_errors st) as Hfall.
    { rewrite Hf. eexists. split; [reflexivity|]. by repeat split. }
    destruct seq as [|c seq]; simpl; [exact Hfall|].
    destruct Hno as [?|Hno]; [done|].
    destruct (Text.endswith trace (String c seq)) eqn:E; [|exact Hfall].
    by apply endswith_spec in E.
Qed.

Lemma addenda_attached_without_error_witness :
  ∃ st', dispatch 3 (Some "7") (decode_fields sample_addenda (schema "7"))
           sample_entry_state = Returned st'
         ∧ entry_store st'
           = alter (push_addenda (decode_fields sample_addenda (schema "7"))) 0
               (entry_store sample_entry_state)
         ∧ batch_store st' = batch_store sample_entry_state
         ∧ st_errors st' = st_errors sample_entry_state.
Proof.
  refine (proj1 (addenda_attached_without_error 3
                   (decode_fields sample_addenda (schema "7")) sample_entry_state 0
                   "0000001" "076401250000001" _ _ _) _).
  - reflexivity.
  - vm_compute. reflexivity.
  - vm_compute. reflexivity.
  - split; [done|]. by exists "07640125".
Defined.

(** In the states where the claim of C4 does describe the code: the
    current entry is the last entry of the current batch. An addenda is
    then stored under the current entry, whether its sequence number
    matches or not, and no diagnostic is added. *)
Lemma addenda_attaches_to_last_entry (n : nat) (p : record) (st : state) (b e : loc)
    (seq trace : string) :
  current_entry st = Some e → current_batch st = Some b →
  last (bo_entries (batch_store st !!! b)) = Some e →
  dict_get p "entry_detail_sequence_number" = Some (VStr seq) →
  dict_get (eo_fields (entry_store st !!! e)) "trace_number" = Some (VStr trace) →
  ∃ st', dispatch n (Some "7") p st = Returned st'
         ∧ st_errors st' = st_errors st
         ∧ entry_store st' = alter (push_addenda p) e (entry_store st).
Proof.
  intros He Hb Hl Hs Ht. rewrite dispatch_addenda.
  rewrite (on_addenda_current_last n p st b e seq trace) by done.
  by eexists.
Qed.

(** ** Degenerate inputs *)

(** C7 as stated fails: on the empty text the parser returns a result
    without any diagnostic. *)
Lemma empty_text_no_diagnostic :
  ∃ r, parse_ach_file_content RECORD_DEFINITIONS (PyStr EmptyString) = Returned r
       ∧ length (errors r) ≠ 1.
Proof. eexists. split; [reflexivity|]. simpl. lia. Qed.

(** C7, amended. On the empty text the parser returns a result with no
    diagnostic, no batch, no file header and no file control. The single
    diagnostic for a content that is empty, or all white space, is that of
    the file wrapper, whose value then holds nothing but the list of
    diagnostics. *)
Theorem empty_text_result (defs : registry) (read : string → read_outcome)
    (file_path content : string) :
  read file_path = ReadText content →
  Text.strip content = EmptyString →
  parse_ach_file_content defs (PyStr EmptyString)
  = Returned {| file_header := None; batches := []; file_control := None;
                errors := []; other_records := [] |}
  ∧ parse_ach_lob_file defs read file_path = ErrorsOnly [EmptyFile file_path].
Proof.
  intros Hread Hblank. split; [reflexivity|].
  unfold parse_ach_lob_file. by rewrite Hread, Hblank.
Qed.

Lemma empty_text_result_witness :
  parse_ach_file_content RECORD_DEFINITIONS (PyStr EmptyString)
  = Returned {| file_header := None; batches := []; file_control := None;
                errors := []; other_records := [] |}
  ∧ parse_ach_lob_file RECORD_DEFINITIONS (λ _, ReadText "  ") "empty.lob"
    = ErrorsOnly [EmptyFile "empty.lob"].
Proof.
  apply (empty_text_result RECORD_DEFINITIONS (λ _, ReadText "  ") "empty.lob" "  ").
  - reflexivity.
  - reflexivity.
Defined.

(** C10 as stated fails: a list that holds an integer is neither text nor
    a list of texts, and the call raises. *)
Lemma list_of_non_text_raises :
  let content := PyList [PyInt 1] in
  is_str content = false
  ∧ is_list_of_str content = false
  ∧ parse_ach_file_content RECORD_DEFINITIONS content = Raised AttributeError.
Proof. by repeat split. Qed.

(** C10, amended. On a value that is neither text nor a list the call
    returns, with the single diagnostic of an invalid content type and
    nothing else. *)
Theorem invalid_content_type (defs : registry) (content : pyobj) :
  is_str content = false → is_list content = false →
  parse_ach_file_content defs content
  = Returned {| file_header := None; batches := []; file_control := None;
                errors := [InvalidContentType]; other_records := [] |}.
Proof. by destruct content. Qed.

Lemma invalid_content_type_witness :
  parse_ach_file_content RECORD_DEFINITIONS PyNone
  = Returned {| file_header := None; batches := []; file_control := None;
                errors := [InvalidContentType]; other_records := [] |}.
Proof.
  apply (invalid_content_type RECORD_DEFINITIONS PyNone); reflexivity.
Defined.

(** * Further properties *)

(** ** The effect of a line *)

Lemma is_of_type_spec (c : ascii) (line : string) :
  is_of_type c line = true ↔ has_type c line.
Proof.
  unfold is_of_type, has_type. destruct line as [|d rest].
  - split; [done|]. by intros [? ?].
  - rewrite startswith_cons. split.
    + intros H%bool_decide_eq_true_1. subst. eauto.
    + intros [r [= -> ->]]. by apply bool_decide_eq_true_2.
Qed.

(** A line of text or a list of texts has lines of text. *)
Lemma lines_of_text (content : pyobj) :
  is_str content = true ∨ is_list_of_str content = true →
  ∃ lines, lines_of content = Some (PyStr <$> lines).
Proof.
  destruct content as [s|items| |]; simpl; try (by intros [?|?]).
  - intros _. eauto.
  - intros [?|Hall]; [done|].
    induction items as [|x items IH]; [by exists []|].
    simpl in Hall. apply andb_prop in Hall as [Hx Hall].
    destruct (IH Hall) as [lines [= ->]].
    destruct x as [s| | |]; try done. by exists (s :: lines).
Qed.

(** A line that is not blank and whose type has no schema: an unknown
    record and its diagnostic, after the length check. *)
Lemma loop_body_unknown (n : nat) (line : string) (st : state) :
  is_unknown line = true →
  loop_body RECORD_DEFINITIONS n line st
  = Returned (append_error (UnknownRecordType n (raw_record line))
                (append_other "unknown" (raw_record line) (check_length n line st))).
Proof.
  unfold is_unknown, is_blank. intros [Hnb Hout]%andb_prop.
  apply negb_true_iff, Nat.eqb_neq in Hnb.
  apply negb_true_iff, bool_decide_eq_false_1 in Hout.
  destruct (loop_body_nonblank RECORD_DEFINITIONS n line st Hnb)
    as (rt & p & Hp & _ & ->).
  destruct (strip_nonblank_cons _ Hnb) as (c & rest & ->).
  destruct (parse_record_shapes c rest) as [[Hin _] | [_ Hk]].
  - destruct Hout. simpl. by destruct rest.
  - rewrite Hk in Hp. by injection Hp as <- <-.
Qed.

(** What a turn of the loop does, by the type of the line. *)
Lemma loop_body_effect (n : nat) (line : string) (st st' : state) :
  loop_body RECORD_DEFINITIONS n line st = Returned st' →
  line_effect n line st st'.
Proof.
  destruct (is_blank line) eqn:Hb.
  { unfold is_blank in Hb. apply Nat.eqb_eq in Hb.
    rewrite loop_body_blank by done. intros [= <-].
    apply effect_blank. unfold is_blank. by apply Nat.eqb_eq. }
  destruct (is_unknown line) eqn:Hu.
  { rewrite loop_body_unknown by done. intros [= <-]. by apply effect_unknown. }
  unfold is_unknown in Hu. rewrite Hb in Hu. simpl in Hu.
  apply negb_false_iff, bool_decide_eq_true_1 in Hu.
  unfold is_blank in Hb. apply Nat.eqb_neq in Hb.
  destruct (strip_nonblank_cons _ Hb) as (c & rest & ->).
  assert (String c EmptyString ∈ known_types) as Hin by (simpl in Hu; by destruct rest).
  clear Hu. rewrite loop_body_known by done.
  set (line := String c rest). set (st1 := check_length n line st).
  unfold known_types in Hin.
  repeat (apply elem_of_cons in Hin as [[= Hc] | Hin]); [..|by apply elem_of_nil in Hin];
    subst c.
  - rewrite dispatch_file_header. intros [= <-]. apply effect_file_header. by eexists.
  - rewrite dispatch_batch_header. intros [= <-]. unfold st1 at 1.
    rewrite check_length_current_batch. apply effect_batch_header. by eexists.
  - rewrite dispatch_entry_detail. unfold st1 at 1.
    rewrite check_length_current_batch.
    destruct (current_batch st) as [b|] eqn:E; intros [= <-].
    + apply effect_entry; [by eexists | done].
    + apply effect_entry_outside; [by eexists | done].
  - rewrite dispatch_addenda. unfold on_addenda, addenda_fallback.
    pose proof (check_length_current_entry n line st) as Hce.
    pose proof (check_length_current_batch n line st) as Hcb.
    pose proof (check_length_batch_store n line st) as Hbs.
    fold st1 in Hce, Hcb, Hbs. rewrite Hce, Hcb, Hbs.
    assert (has_type "7" line) as Ht by (by eexists).
    destruct (current_entry st) as [e|] eqn:Ee.
    2:{ intros [= <-]. by apply effect_addenda_orphan. }
    assert (∀ s2,
      Returned
        match current_batch st with
        | Some b =>
            match last (bo_entries (batch_store st !!! b)) with
            | Some e0 => attach_addenda e0 (decode_fields line (schema "7")) st1
            | None =>
                append_error
                  (AddendaNotAssociated n (decode_fields line (schema "7"))) st1
            end
        | None =>
            append_error (AddendaNotAssociated n (decode_fields line (schema "7"))) st1
        end = Returned s2 → line_effect n line st s2) as Hfb.
    { intros s2. destruct (current_batch st) as [b|] eqn:Eb.
      - destruct (last _) as [e0|] eqn:El; intros [= <-].
        + eapply effect_addenda_last; eauto.
        + apply effect_addenda_lost; eauto.
          intros b' Hb'. rewrite Eb in Hb'. by injection Hb' as <-.
      - intros [= <-]. apply effect_addenda_lost; eauto.
        intros b' Hb'. by rewrite Eb in Hb'. }
    destruct (dict_get _ _) as [seq|]; [|apply Hfb].
    destruct (truthy seq); [|apply Hfb].
    destruct (default _ _) as [t|]; [destruct seq as [s|]|]; try done.
    destruct (Text.endswith t s); [|apply Hfb].
    intros [= <-]. by apply effect_addenda_current.
  - rewrite dispatch_batch_control. unfold st1 at 1.
    rewrite check_length_current_batch.
    destruct (current_batch st) as [b|] eqn:E; intros [= <-].
    + apply effect_batch_control; [by eexists | done].
    + apply effect_batch_control_outside; [by eexists | done].
  - rewrite dispatch_file_control. unfold on_file_control.
    rewrite file_control_no_raw_line.
    destruct (dict_has _ _); intros [= <-]; apply effect_file_control; by eexists.
Qed.

(** An invariant of the lines read so far is an invariant of the loop. *)
Lemma loop_effect_ind (P : list string → state → Prop) (lines : list string) :
  (∀ done line n st st',
     P done st → line_effect n line st st' → P (done ++ [line]) st') →
  ∀ done i st st',
    P done st →
    loop RECORD_DEFINITIONS i (PyStr <$> lines) st = Returned st' →
    P (done ++ lines) st'.
Proof.
  intros Hstep. induction lines as [|line rest IH]; intros done i st st' HP; simpl.
  - intros [= <-]. by rewrite app_nil_r.
  - destruct (loop_body RECORD_DEFINITIONS (i + 1) line st) as [st1|] eqn:E; [|done].
    intros Hl. replace (done ++ line :: rest) with ((done ++ [line]) ++ rest)
      by by rewrite <- app_assoc.
    eapply IH; [|exact Hl]. eapply Hstep; [exact HP|]. by apply loop_body_effect.
Qed.

Lemma filter_snoc_bool (f : string → bool) (done : list string) (line : string) :
  filter (λ l, f l) (done ++ [line])
  = filter (λ l, f l) done ++ (if f line then [line] else []).
Proof.
  rewrite filter_app. f_equal. rewrite filter_cons, filter_nil.
  destruct (f line); by case_decide.
Qed.

Lemma blank_line_facts (line : string) :
  is_blank line = true →
  is_unknown line = false
  ∧ ∀ d, Text.isspace d = false → is_of_type d line = false.
Proof.
  intros Hb. split; [unfold is_unknown; by rewrite Hb|].
  intros d Hd. destruct (is_of_type d line) eqn:E; [|done].
  apply is_of_type_spec in E as [rest ->].
  unfold is_blank in Hb. by rewrite strip_cons_nonspace in Hb.
Qed.

Lemma typed_line_facts (c : ascii) (line : string) :
  has_type c line → String c EmptyString ∈ known_types →
  is_unknown line = false ∧ ∀ d, is_of_type d line = bool_decide (d = c).
Proof.
  intros [rest ->] Hin. split.
  - unfold is_unknown. apply andb_false_iff. right. apply negb_false_iff.
    apply bool_decide_eq_true_2. simpl. by destruct rest.
  - intros d. unfold is_of_type. apply startswith_cons.
Qed.

Lemma unknown_line_facts (line : string) :
  is_unknown line = true →
  ∀ d, String d EmptyString ∈ known_types → is_of_type d line = false.
Proof.
  unfold is_unknown. intros [_ Hout]%andb_prop d Hd.
  apply negb_true_iff, bool_decide_eq_false_1 in Hout.
  destruct (is_of_type d line) eqn:E; [|done].
  apply is_of_type_spec in E as [rest ->]. destruct Hout. simpl. by destruct rest.
Qed.

(** How a line changes the lines of one type, for each case of
    [line_effect]. *)
Ltac line_facts :=
  repeat match goal with
  | H : is_blank _ = true |- _ =>
      let Hu := fresh "Hu" in let Ht := fresh "Ht" in
      destruct (blank_line_facts _ H) as [Hu Ht];
      rewrite ?Hu, ?(Ht "1"%char eq_refl), ?(Ht "5"%char eq_refl),
        ?(Ht "6"%char eq_refl), ?(Ht "7"%char eq_refl), ?(Ht "8"%char eq_refl),
        ?(Ht "9"%char eq_refl);
      clear H Hu Ht
  | H : has_type _ _ |- _ =>
      let Hu := fresh "Hu" in let Ht := fresh "Ht" in
      destruct (typed_line_facts _ _ H ltac:(known_type)) as [Hu Ht];
      rewrite ?Hu, ?Ht; clear H Hu Ht
  | H : is_unknown _ = true |- _ =>
      let Ht := fresh "Ht" in
      pose proof (unknown_line_facts _ H) as Ht;
      rewrite ?H, ?(Ht "1"%char ltac:(known_type)), ?(Ht "5"%char ltac:(known_type)),
        ?(Ht "6"%char ltac:(known_type)), ?(Ht "7"%char ltac:(known_type)),
        ?(Ht "8"%char ltac:(known_type)), ?(Ht "9"%char ltac:(known_type));
      clear H Ht
  end.

(** ** The layout of the stores *)

Lemma check_length_file_header (n : nat) (line : string) (st : state) :
  st_file_header (check_length n line st) = st_file_header st.
Proof. unfold check_length. destruct (_ && _); [|done]. simpl. by destruct (negb _). Qed.

Lemma check_length_file_control (n : nat) (line : string) (st : state) :
  st_file_control (check_length n line st) = st_file_control st.
Proof. unfold check_length. destruct (_ && _); [|done]. simpl. by destruct (negb _). Qed.

Lemma check_length_other_records (n : nat) (line : string) (st : state) :
  st_other_records (check_length n line st) = st_other_records st.
Proof. unfold check_length. destruct (_ && _); [|done]. simpl. by destruct (negb _). Qed.

(** The newest dictionary of a store is its last element. *)
Lemma store_last {A} (l : list A) (b : nat) :
  S b = length l → ∃ init o, l = init ++ [o] ∧ length init = b.
Proof.
  intros Hb. destruct (decide (l = [])) as [->|Hne]; [done|].
  destruct (exists_last Hne) as (init & o & ->).
  exists init, o. split; [done|]. rewrite length_app in Hb. simpl in Hb. lia.
Qed.

Lemma alter_last {A} (f : A → A) (init : list A) (o : A) :
  alter f (length init) (init ++ [o]) = init ++ [f o].
Proof.
  replace (length init) with (length init + 0) by lia. by rewrite alter_app_r.
Qed.

Lemma consistent_same (st st' : state) :
  st_batches st' = st_batches st → batch_store st' = batch_store st →
  entry_store st' = entry_store st → current_batch st' = current_batch st →
  current_entry st' = current_entry st →
  consistent st → consistent st'.
Proof. intros Hb Hs He Hcb Hce [? ? ? ? ?]. constructor; by rewrite ?Hb, ?Hs, ?He, ?Hcb, ?Hce. Qed.

Lemma consistent_check_length (n : nat) (line : string) (st : state) :
  consistent st → consistent (check_length n line st).
Proof.
  apply consistent_same;
    auto using check_length_batches, check_length_batch_store,
      check_length_entry_store, check_length_current_batch,
      check_length_current_entry.
Qed.

Lemma consistent_open_batch (p : record) (st : state) :
  consistent st → consistent (open_batch p st).
Proof.
  intros [Hb Hcb Hce He Ho]. constructor; simpl.
  - by rewrite length_app, Nat.add_1_r, seq_S, Hb.
  - intros b [= <-]. rewrite length_app. simpl. lia.
  - done.
  - rewrite fmap_app, concat_app. simpl. by rewrite !app_nil_r.
  - intros b o [= <-]. rewrite list_lookup_middle by done. by intros [= <-].
Qed.

Lemma consistent_open_entry (b : loc) (p : record) (st : state) :
  current_batch st = Some b → consistent st → consistent (open_entry b p st).
Proof.
  intros Hcur [Hb Hcb Hce He Ho]. pose proof (Hcb b Hcur) as Hlast.
  destruct (store_last _ _ Hlast) as (init & o & Hs & Hlen).
  constructor; simpl.
  - by rewrite length_alter.
  - intros b'. rewrite length_alter. apply Hcb.
  - intros e [= <-]. rewrite length_app. simpl. lia.
  - rewrite Hs, <- Hlen, alter_last, fmap_app, concat_app. simpl.
    rewrite app_nil_r, app_assoc.
    rewrite Hs, fmap_app, concat_app in He. simpl in He. rewrite app_nil_r in He.
    by rewrite He, length_app, Nat.add_1_r, seq_S.
  - intros b' o' Hb' Hl. rewrite Hcur in Hb'. injection Hb' as <-.
    rewrite list_lookup_alter_eq in Hl.
    destruct (batch_store st !! b) as [o0|] eqn:E; [|done].
    injection Hl as <-. simpl. by eapply Ho.
Qed.

Lemma consistent_attach (e : loc) (p : record) (st : state) :
  consistent st → consistent (attach_addenda e p st).
Proof. intros [? ? ? ? ?]. constructor; simpl; by rewrite ?length_alter. Qed.

Lemma entries_alter_control (p : record) (b : loc) (l : list batch_obj) :
  bo_entries <$> alter (put_control p) b l = bo_entries <$> l.
Proof.
  rewrite (list_fmap_alter bo_entries (put_control p) id) by by apply Forall_forall.
  by apply list_alter_id.
Qed.

Lemma consistent_close_batch (b : loc) (p : record) (st : state) :
  consistent st → consistent (close_batch b p st).
Proof.
  intros [? ? ? ? ?]. constructor; simpl;
    by rewrite ?length_alter, ?entries_alter_control.
Qed.

Lemma consistent_append_error (d : diagnostic) (st : state) :
  consistent st → consistent (append_error d st).
Proof. by apply consistent_same. Qed.

(** Every turn of the loop keeps the layout. *)
Lemma consistent_effect (n : nat) (line : string) (st st' : state) :
  consistent st → line_effect n line st st' → consistent st'.
Proof.
  intros Hc Heff. pose proof (consistent_check_length n line st Hc) as Hc1.
  destruct Heff;
    auto using consistent_append_error, consistent_attach, consistent_close_batch.
  - by apply (consistent_same (check_length n line st)).
  - apply consistent_open_batch. destruct (current_batch st);
      auto using consistent_append_error.
  - apply consistent_open_entry; [|done]. by rewrite check_length_current_batch.
  - by apply (consistent_same (check_length n line st)).
  - apply consistent_append_error. by apply (consistent_same (check_length n line st)).
Qed.

Lemma consistent_initial : consistent initial_state.
Proof. by constructor. Qed.

(** The layout holds at the end of the loop. *)
Lemma consistent_loop (lines : list string) (i : nat) (st st' : state) :
  consistent st →
  loop RECORD_DEFINITIONS i (PyStr <$> lines) st = Returned st' → consistent st'.
Proof.
  intros Hc Hl.
  apply (loop_effect_ind (λ _ s, consistent s) lines) with (done := []) (i := i) (st := st);
    [|done..].
  intros done line n s s' Hs Heff. by eapply consistent_effect.
Qed.

(** ** What the state holds of the lines read *)

Lemma summary_initial : summary [] initial_state.
Proof. by constructor. Qed.

Lemma fields_alter_entry (e : loc) (b : loc) (l : list batch_obj) :
  bo_fields <$> alter (push_entry e) b l = bo_fields <$> l.
Proof.
  rewrite (list_fmap_alter bo_fields (push_entry e) id) by by apply Forall_forall.
  by apply list_alter_id.
Qed.

Lemma fields_alter_control (p : record) (b : loc) (l : list batch_obj) :
  bo_fields <$> alter (put_control p) b l = bo_fields <$> l.
Proof.
  rewrite (list_fmap_alter bo_fields (put_control p) id) by by apply Forall_forall.
  by apply list_alter_id.
Qed.

Lemma fields_alter_addenda (p : record) (e : loc) (l : list entry_obj) :
  eo_fields <$> alter (push_addenda p) e l = eo_fields <$> l.
Proof.
  rewrite (list_fmap_alter eo_fields (push_addenda p) id) by by apply Forall_forall.
  by apply list_alter_id.
Qed.

Lemma last_snoc_if {A} (l : list A) (x : A) (c : bool) :
  last (l ++ (if c then [x] else [])) = if c then Some x else last l.
Proof. destruct c; [apply last_snoc | by rewrite app_nil_r]. Qed.

(** Every turn of the loop keeps the summary. *)
Lemma summary_effect (done : list string) (n : nat) (line : string) (st st' : state) :
  summary done st → line_effect n line st st' → summary (done ++ [line]) st'.
Proof.
  intros [Hh Hc Ho Hb He] Heff.
  pose proof (check_length_file_header n line st) as E1.
  pose proof (check_length_file_control n line st) as E2.
  pose proof (check_length_other_records n line st) as E3.
  pose proof (check_length_batch_store n line st) as E4.
  pose proof (check_length_entry_store n line st) as E5.
  destruct Heff; constructor; rewrite !filter_snoc_bool; line_facts; simpl;
    rewrite ?last_snoc_if, ?app_nil_r, ?E1, ?E2, ?E3, ?E4, ?E5,
      ?fields_alter_entry, ?fields_alter_control, ?fields_alter_addenda;
    simpl; rewrite ?app_nil_r; try done.
  all: try (destruct (current_batch st); simpl;
            rewrite ?fmap_app, ?E1, ?E2, ?E3, ?E4, ?E5, ?Hb; done).
  all: rewrite ?last_snoc, ?fmap_app, ?Ho; try done.
  - by apply sublist_app.
  - by apply sublist_inserts_r.
Qed.

Lemma summary_loop (lines : list string) (st' : state) :
  loop RECORD_DEFINITIONS 0 (PyStr <$> lines) initial_state = Returned st' →
  summary lines st'.
Proof.
  intros Hl.
  apply (loop_effect_ind summary lines) with (done := []) (i := 0) (st := initial_state);
    [|apply summary_initial|done].
  intros done line n s s'. apply summary_effect.
Qed.

(** ** Every line is stored or reported *)

Lemma filter_snoc_if {A} (f : A → bool) (l : list A) (x : A) :
  filter (λ y, f y) (l ++ [x]) = filter (λ y, f y) l ++ (if f x then [x] else []).
Proof.
  rewrite filter_app. f_equal. rewrite filter_cons, filter_nil.
  destruct (f x); by case_decide.
Qed.

(** The length check adds no diagnostic of another kind. *)
Lemma check_length_filter (f : diagnostic → bool) (n : nat) (line : string) (st : state) :
  (∀ a b c, f (LengthMismatch a b c) = false) →
  filter (λ d, f d) (st_errors (check_length n line st))
  = filter (λ d, f d) (st_errors st).
Proof.
  intros Hf. unfold check_length. destruct (_ && _); [|done]. simpl.
  destruct (negb _); [|done]. simpl. by rewrite filter_snoc_if, Hf, app_nil_r.
Qed.

Lemma sum_addenda_alter (p : record) (l : list entry_obj) (e : loc) :
  e < length l →
  sum_list_with (λ o, length (eo_addenda o)) (alter (push_addenda p) e l)
  = S (sum_list_with (λ o, length (eo_addenda o)) l).
Proof.
  revert e. induction l as [|o l IH]; intros e He; simpl in *; [lia|].
  destruct e as [|e]; simpl.
  - rewrite length_app. simpl. lia.
  - specialize (IH e ltac:(lia)). unfold alter in IH. rewrite IH. lia.
Qed.

Lemma control_alter_entry (e : loc) (b : loc) (l : list batch_obj) :
  bo_control <$> alter (push_entry e) b l = bo_control <$> l.
Proof.
  rewrite (list_fmap_alter bo_control (push_entry e) id) by by apply Forall_forall.
  by apply list_alter_id.
Qed.

(** The last entry of the current batch is an entry of the store. *)
Lemma last_entry_valid (st : state) (b e : loc) :
  consistent st → current_batch st = Some b →
  last (bo_entries (batch_store st !!! b)) = Some e →
  e < length (entry_store st).
Proof.
  intros [_ Hcb _ He _] Hcur Hlast. pose proof (Hcb b Hcur) as Hb.
  destruct (store_last _ _ Hb) as (init & o & Hs & Hlen).
  rewrite Hs, <- Hlen in Hlast.
  rewrite (list_lookup_total_correct (init ++ [o]) (length init) o) in Hlast
    by by apply list_lookup_middle.
  assert (e ∈ seq 0 (length (entry_store st))) as Hin.
  { rewrite <- He, Hs, fmap_app, concat_app. simpl. rewrite app_nil_r.
    apply elem_of_app. right. apply last_Some in Hlast as [l' ->].
    apply elem_of_app. right. left. }
  apply elem_of_seq in Hin. lia.
Qed.

Lemma tally_initial : tally [] initial_state.
Proof. by constructor. Qed.

(** Every turn of the loop keeps the tally, where the stores are laid out
    as the loop builds them. *)
Lemma tally_effect (done : list string) (n : nat) (line : string) (st st' : state) :
  consistent st → tally done st → line_effect n line st st' →
  tally (done ++ [line]) st'.
Proof.
  intros Hcons [He Ha Hc] Heff.
  pose proof (check_length_batch_store n line st) as E4.
  pose proof (check_length_entry_store n line st) as E5.
  pose proof (check_length_filter is_entry_outside n line st (λ _ _ _, eq_refl)) as F1.
  pose proof (check_length_filter is_addenda_dropped n line st (λ _ _ _, eq_refl)) as F2.
  pose proof (check_length_filter is_control_outside n line st (λ _ _ _, eq_refl)) as F3.
  assert (∀ b p, current_batch st = Some b →
            length (filter (λ c : option record, is_Some c)
                      (bo_control <$> alter (put_control p) b (batch_store st)))
            = S (length (filter (λ c : option record, is_Some c)
                           (bo_control <$> batch_store st)))) as Hclose.
  { intros b p Hcur. pose proof (cons_current_batch _ Hcons b Hcur) as Hb.
    destruct (store_last _ _ Hb) as (init & o & Hs & Hlen).
    assert (bo_control o = None) as Ho.
    { apply (cons_open _ Hcons b o Hcur). rewrite Hs, <- Hlen.
      by apply list_lookup_middle. }
    rewrite Hs, <- Hlen, alter_last, !fmap_app, !filter_app, !length_app. simpl.
    rewrite Ho, filter_cons_False, filter_nil by (by intros [? ?]). simpl. lia. }
  destruct Heff as [Hb | Ht | Ht | b Ht Hcur | Ht Hcur | Ht Hce | e Ht Hce
                   | b e Ht Hce Hcur Hlast | Ht Hce | b Ht Hcur | Ht Hcur | Ht | Hu].
  3: destruct (current_batch st).
  8: pose proof (cons_current_entry _ Hcons e Hce) as Hv.
  9: pose proof (last_entry_valid st b e Hcons Hcur Hlast) as Hv.
  11: pose proof (Hclose b (decode_fields line (schema "8")) Hcur) as Hv.
  all: constructor; rewrite !filter_snoc_bool; line_facts; simpl;
    rewrite ?filter_snoc_if; simpl;
    rewrite ?F1, ?F2, ?F3, ?E4, ?E5, ?fmap_app, ?filter_app, ?length_app, ?app_nil_r,
      ?control_alter_entry, ?length_alter, ?sum_list_with_app, ?Hv,
      ?sum_addenda_alter by done; simpl; lia.
Qed.

(** The layout and the tally hold at the end of the loop. *)
Lemma tally_loop (lines : list string) (st' : state) :
  loop RECORD_DEFINITIONS 0 (PyStr <$> lines) initial_state = Returned st' →
  consistent st' ∧ tally lines st'.
Proof.
  intros Hl.
  apply (loop_effect_ind (λ done s, consistent s ∧ tally done s) lines)
    with (done := []) (i := 0) (st := initial_state);
    [|split; [apply consistent_initial | apply tally_initial]|done].
  intros done line n s s' [Hc Ht] Heff. split.
  - by eapply consistent_effect.
  - by eapply tally_effect.
Qed.

(** ** Reading the result off the stores *)

Lemma fmap_total_seq {A B} `{!Inhabited A} (f : A → B) (l : list A) :
  (λ i, f (l !!! i)) <$> seq 0 (length l) = f <$> l.
Proof.
  apply list_eq. intros i. rewrite !list_lookup_fmap.
  destruct (decide (i < length l)) as [Hi|Hi].
  - rewrite lookup_seq_lt by done. simpl.
    destruct (lookup_lt_is_Some_2 l i Hi) as [x Hx].
    by rewrite Hx, (list_lookup_total_correct _ _ _ Hx).
  - rewrite lookup_seq_ge, lookup_ge_None_2 by lia. done.
Qed.

Lemma result_batch_records (st : state) :
  consistent st → batch_record <$> batches (result_of st) = bo_fields <$> batch_store st.
Proof.
  intros Hc. simpl. rewrite (cons_batches _ Hc), <- list_fmap_compose.
  apply (fmap_total_seq bo_fields).
Qed.

Lemma result_batch_controls (st : state) :
  consistent st →
  batch_control <$> batches (result_of st) = bo_control <$> batch_store st.
Proof.
  intros Hc. simpl. rewrite (cons_batches _ Hc), <- list_fmap_compose.
  apply (fmap_total_seq bo_control).
Qed.

Lemma concat_fmap_fmap {A B} (f : A → B) (ll : list (list A)) :
  concat ((λ l : list A, f <$> l) <$> ll) = f <$> concat ll.
Proof.
  induction ll as [|l ll IH]; [done|].
  rewrite fmap_cons. simpl. rewrite fmap_app. by f_equal.
Qed.

(** The entries of the result, batch after batch, are the entry
    dictionaries in the order of their creation. *)
Lemma result_entries (st : state) :
  consistent st →
  concat (entries <$> batches (result_of st))
  = (λ o, {| entry_record := eo_fields o; addenda := eo_addenda o |})
      <$> entry_store st.
Proof.
  intros Hc. simpl. rewrite (cons_batches _ Hc), <- list_fmap_compose.
  transitivity (concat ((λ l : list loc, entry_at st <$> l)
                          <$> (bo_entries <$> batch_store st))).
  { f_equal. rewrite <- list_fmap_compose.
    apply (fmap_total_seq (λ o, entry_at st <$> bo_entries o)). }
  rewrite concat_fmap_fmap, (cons_entries _ Hc).
  apply (fmap_total_seq
           (λ o, {| entry_record := eo_fields o; addenda := eo_addenda o |})).
Qed.

(** The final state of a call that returns. *)
Lemma parse_final_state (content : pyobj) (lines : list string) :
  lines_of content = Some (PyStr <$> lines) →
  ∃ st, loop RECORD_DEFINITIONS 0 (PyStr <$> lines) initial_state = Returned st
        ∧ parse_ach_file_content RECORD_DEFINITIONS content = Returned (result_of st).
Proof.
  intros Hl. destruct (loop_returns lines 0 initial_state well_formed_initial)
    as (st & Hrun & _).
  exists st. split; [done|]. unfold parse_ach_file_content, run. by rewrite Hl, Hrun.
Qed.

(** ** The result, read off the lines *)

(** X1. For an input whose lines are text, the parser returns, and the
    batches of its result are the lines that start with '5', in order,
    each decoded under the batch header schema: one batch per batch header
    line and none besides. *)
Theorem batches_follow_headers (content : pyobj) (lines : list string) :
  lines_of content = Some (PyStr <$> lines) →
  ∃ r, parse_ach_file_content RECORD_DEFINITIONS content = Returned r
       ∧ batch_record <$> batches r
         = (λ l, decode_fields l (schema "5"))
             <$> filter (λ l, is_of_type "5" l) lines.
Proof.
  intros Hl. destruct (parse_final_state _ _ Hl) as (st & Hrun & ->).
  eexists. split; [done|].
  destruct (tally_loop _ _ Hrun) as [Hc _].
  rewrite (result_batch_records _ Hc). apply (sum_batch_fields _ _ (summary_loop _ _ Hrun)).
Qed.

Lemma batches_follow_headers_witness :
  ∃ r, parse_ach_file_content RECORD_DEFINITIONS
         (PyList (PyStr <$> sample_reopened ++ sample_file)) = Returned r
       ∧ batch_record <$> batches r
         = (λ l, decode_fields l (schema "5"))
             <$> filter (λ l, is_of_type "5" l) (sample_reopened ++ sample_file).
Proof.
  apply (batches_follow_headers _ (sample_reopened ++ sample_file)). reflexivity.
Defined.

(** X2. For an input whose lines are text, the file header of the result
    is the last line that starts with '1', decoded, and is absent when no
    line does; the file control is the last line that starts with '9',
    decoded, and is absent when no line does: a later line of either type
    silently replaces an earlier one. *)
Theorem file_records_are_last_lines (content : pyobj) (lines : list string) :
  lines_of content = Some (PyStr <$> lines) →
  ∃ r, parse_ach_file_content RECORD_DEFINITIONS content = Returned r
       ∧ file_header r
         = (λ l, decode_fields l (schema "1"))
             <$> last (filter (λ l, is_of_type "1" l) lines)
       ∧ file_control r
         = (λ l, decode_fields l (schema "9"))
             <$> last (filter (λ l, is_of_type "9" l) lines).
Proof.
  intros Hl. destruct (parse_final_state _ _ Hl) as (st & Hrun & ->).
  eexists. split; [done|]. pose proof (summary_loop _ _ Hrun) as Hs.
  split; [apply (sum_file_header _ _ Hs) | apply (sum_file_control _ _ Hs)].
Qed.

Lemma file_records_are_last_lines_witness :
  ∃ r, parse_ach_file_content RECORD_DEFINITIONS
         (PyStr (unlines (sample_file ++ [nines 94]))) = Returned r
       ∧ file_header r
         = (λ l, decode_fields l (schema "1"))
             <$> last (filter (λ l, is_of_type "1" l) (sample_file ++ [nines 94]))
       ∧ file_control r
         = (λ l, decode_fields l (schema "9"))
             <$> last (filter (λ l, is_of_type "9" l) (sample_file ++ [nines 94])).
Proof.
  apply (file_records_are_last_lines _ (sample_file ++ [nines 94])).
  vm_compute. reflexivity.
Defined.

(** X3. For an input whose lines are text, the other records of the result
    are the lines that are not blank and whose first character is none of
    1, 5, 6, 7, 8, 9, in order, each of kind "unknown" with the trimmed
    line as its data; under the registry of the source no record of kind
    "filler" is ever produced. *)
Theorem other_records_are_unknown_lines (content : pyobj) (lines : list string) :
  lines_of content = Some (PyStr <$> lines) →
  ∃ r, parse_ach_file_content RECORD_DEFINITIONS content = Returned r
       ∧ other_records r = unknown_other <$> filter (λ l, is_unknown l) lines
       ∧ Forall (λ o, type o = "unknown") (other_records r).
Proof.
  intros Hl. destruct (parse_final_state _ _ Hl) as (st & Hrun & ->).
  eexists. split; [done|]. pose proof (sum_other _ _ (summary_loop _ _ Hrun)) as Ho.
  simpl. rewrite Ho. split; [done|]. apply Forall_fmap. by apply Forall_forall.
Qed.

Lemma other_records_are_unknown_lines_witness :
  ∃ r, parse_ach_file_content RECORD_DEFINITIONS
         (PyList (PyStr <$> ["HEADER"; sample_file_header; " 99"; nines 94])) = Returned r
       ∧ other_records r
         = unknown_other
             <$> filter (λ l, is_unknown l) ["HEADER"; sample_file_header; " 99"; nines 94]
       ∧ Forall (λ o, type o = "unknown") (other_records r).
Proof.
  apply (other_records_are_unknown_lines _
           ["HEADER"; sample_file_header; " 99"; nines 94]).
  reflexivity.
Defined.

(** X4. For an input whose lines are text, every line that starts with '6'
    is either stored as an entry of a batch or reported as found outside
    of a batch: the entries of all the batches and the diagnostics of that
    kind together are as many as those lines; and the entries, read batch
    after batch, are decoded lines that start with '6', in the order of
    the input. *)
Theorem entries_stored_or_reported (content : pyobj) (lines : list string) :
  lines_of content = Some (PyStr <$> lines) →
  ∃ r, parse_ach_file_content RECORD_DEFINITIONS content = Returned r
       ∧ length (concat (entries <$> batches r))
         + length (filter (λ d, is_entry_outside d) (errors r))
         = length (filter (λ l, is_of_type "6" l) lines)
       ∧ sublist (entry_record <$> concat (entries <$> batches r))
           ((λ l, decode_fields l (schema "6"))
              <$> filter (λ l, is_of_type "6" l) lines).
Proof.
  intros Hl. destruct (parse_final_state _ _ Hl) as (st & Hrun & ->).
  eexists. split; [done|].
  destruct (tally_loop _ _ Hrun) as [Hc Ht].
  rewrite (result_entries _ Hc), <- list_fmap_compose, length_fmap. split.
  - apply (tally_entries _ _ Ht).
  - apply (sum_entry_fields _ _ (summary_loop _ _ Hrun)).
Qed.

Lemma entries_stored_or_reported_witness :
  ∃ r, parse_ach_file_content RECORD_DEFINITIONS
         (PyList (PyStr <$> sample_entry_detail :: sample_file)) = Returned r
       ∧ length (concat (entries <$> batches r))
         + length (filter (λ d, is_entry_outside d) (errors r))
         = length (filter (λ l, is_of_type "6" l) (sample_entry_detail :: sample_file))
       ∧ sublist (entry_record <$> concat (entries <$> batches r))
           ((λ l, decode_fields l (schema "6"))
              <$> filter (λ l, is_of_type "6" l) (sample_entry_detail :: sample_file)).
Proof.
  apply (entries_stored_or_reported _ (sample_entry_detail :: sample_file)).
  reflexivity.
Defined.

(** X5. For an input whose lines are text, every line that starts with '7'
    is either stored as an addenda of an entry of a batch or reported,
    as found without a preceding entry or as not associated: the addenda
    of all entries and the diagnostics of these two kinds together are as
    many as those lines. *)
Theorem addenda_stored_or_reported (content : pyobj) (lines : list string) :
  lines_of content = Some (PyStr <$> lines) →
  ∃ r, parse_ach_file_content RECORD_DEFINITIONS content = Returned r
       ∧ sum_list_with (λ E, length (addenda E)) (concat (entries <$> batches r))
         + length (filter (λ d, is_addenda_dropped d) (errors r))
         = length (filter (λ l, is_of_type "7" l) lines).
Proof.
  intros Hl. destruct (parse_final_state _ _ Hl) as (st & Hrun & ->).
  eexists. split; [done|].
  destruct (tally_loop _ _ Hrun) as [Hc Ht].
  rewrite (result_entries _ Hc), <- (tally_addenda _ _ Ht). f_equal.
  generalize (entry_store st). intros l.
  induction l as [|o l IH]; [done|]. rewrite fmap_cons. simpl. by rewrite IH.
Qed.

Lemma addenda_stored_or_reported_witness :
  ∃ r, parse_ach_file_content RECORD_DEFINITIONS
         (PyList (PyStr <$> sample_addenda :: sample_file ++ [sample_addenda_blank]))
       = Returned r
       ∧ sum_list_with (λ E, length (addenda E)) (concat (entries <$> batches r))
         + length (filter (λ d, is_addenda_dropped d) (errors r))
         = length (filter (λ l, is_of_type "7" l)
                     (sample_addenda :: sample_file ++ [sample_addenda_blank])).
Proof.
  apply (addenda_stored_or_reported _
           (sample_addenda :: sample_file ++ [sample_addenda_blank])).
  reflexivity.
Defined.

(** X6. For an input whose lines are text, every line that starts with '8'
    either closes a batch, which then holds it as its batch control, or is
    reported as found outside of a batch: the batches that have a batch
    control and the diagnostics of that kind together are as many as those
    lines, so no batch control replaces another. *)
Theorem controls_stored_or_reported (content : pyobj) (lines : list string) :
  lines_of content = Some (PyStr <$> lines) →
  ∃ r, parse_ach_file_content RECORD_DEFINITIONS content = Returned r
       ∧ length (filter (λ c, is_Some c) (batch_control <$> batches r))
         + length (filter (λ d, is_control_outside d) (errors r))
         = length (filter (λ l, is_of_type "8" l) lines).
Proof.
  intros Hl. destruct (parse_final_state _ _ Hl) as (st & Hrun & ->).
  eexists. split; [done|].
  destruct (tally_loop _ _ Hrun) as [Hc Ht].
  rewrite (result_batch_controls _ Hc). apply (tally_controls _ _ Ht).
Qed.

Lemma controls_stored_or_reported_witness :
  ∃ r, parse_ach_file_content RECORD_DEFINITIONS
         (PyList (PyStr <$> sample_file ++ [sample_batch_control])) = Returned r
       ∧ length (filter (λ c, is_Some c) (batch_control <$> batches r))
         + length (filter (λ d, is_control_outside d) (errors r))
         = length (filter (λ l, is_of_type "8" l) (sample_file ++ [sample_batch_control])).
Proof.
  apply (controls_stored_or_reported _ (sample_file ++ [sample_batch_control])).
  reflexivity.
Defined.

(** ** The order of the diagnostics *)

Lemma Forall_omap_line (P : nat → Prop) (l : list diagnostic) :
  Forall (λ d, ∃ n, line_of d = Some n ∧ P n) l → Forall P (omap line_of l).
Proof.
  induction 1 as [|d l (n & Hn & HP) _ IH]; [constructor|].
  simpl. rewrite Hn. by constructor.
Qed.

Lemma StronglySorted_constant (c : nat) (l : list nat) :
  Forall (λ n, n = c) l → StronglySorted le l.
Proof.
  induction 1 as [|n l -> Hl IH]; constructor; [done|].
  eapply Forall_impl; [exact Hl|]. intros ? ->. done.
Qed.

(** The loop appends its diagnostics in the order of the lines. *)
Lemma loop_errors_sorted (defs : registry) (lines : list string) (i : nat)
    (st st' : state) :
  loop defs i (PyStr <$> lines) st = Returned st' →
  StronglySorted le (omap line_of (st_errors st)) →
  Forall (λ n, n ≤ i) (omap line_of (st_errors st)) →
  StronglySorted le (omap line_of (st_errors st')).
Proof.
  revert i st. induction lines as [|line rest IH]; intros i st; simpl.
  - by intros [= <-].
  - destruct (loop_body defs (i + 1) line st) as [st1|] eqn:E; [|done].
    intros Hl Hsorted Hle. apply evolves_loop_body in E.
    destruct (ev_errors _ _ _ _ E) as (new & Hnew & Hlines).
    apply (Forall_omap_line (λ n, i < n ≤ i + 1)) in Hlines.
    eapply IH; [exact Hl| |]; rewrite Hnew, omap_app.
    + apply StronglySorted_app_2; [|done|].
      * intros x y Hx Hy. rewrite Forall_forall in Hle, Hlines.
        specialize (Hle x Hx). specialize (Hlines y Hy). simpl in *. lia.
      * apply (StronglySorted_constant (i + 1)).
        eapply Forall_impl; [exact Hlines|]. simpl. lia.
    + apply Forall_app. split.
      * eapply Forall_impl; [exact Hle|]. simpl. lia.
      * eapply Forall_impl; [exact Hlines|]. simpl. lia.
Qed.

(** X7. For an input whose lines are text, every diagnostic of the result
    names a line of the input, by its number counted from 1 (blank lines
    counted), and the diagnostics come in the order of the lines they
    name. *)
Theorem diagnostics_in_line_order (content : pyobj) (lines : list string) :
  lines_of content = Some (PyStr <$> lines) →
  ∃ r, parse_ach_file_content RECORD_DEFINITIONS content = Returned r
       ∧ Forall (λ d, ∃ n, line_of d = Some n ∧ 1 ≤ n ≤ length lines) (errors r)
       ∧ StronglySorted le (omap line_of (errors r)).
Proof.
  intros Hl. destruct (parse_final_state _ _ Hl) as (st & Hrun & ->).
  eexists. split; [done|]. simpl. split.
  - destruct (ev_errors _ _ _ _ (evolves_loop _ _ _ _ _ Hrun)) as (new & -> & Hnew).
    simpl. rewrite length_fmap in Hnew. eapply Forall_impl; [exact Hnew|].
    intros d (n & ? & ?). exists n. split; [done|lia].
  - eapply loop_errors_sorted; [exact Hrun|constructor|constructor].
Qed.

Lemma diagnostics_in_line_order_witness :
  ∃ r, parse_ach_file_content RECORD_DEFINITIONS
         (PyList (PyStr <$> ["6 short"; EmptyString; sample_addenda; "X"])) = Returned r
       ∧ Forall (λ d, ∃ n, line_of d = Some n
                          ∧ 1 ≤ n ≤ length ["6 short"; EmptyString; sample_addenda; "X"])
           (errors r)
       ∧ StronglySorted le (omap line_of (errors r)).
Proof.
  apply (diagnostics_in_line_order _ ["6 short"; EmptyString; sample_addenda; "X"]).
  reflexivity.
Defined.

(** ** The layout of a decoded record *)

Lemma dict_set_fresh {V} (d : dict V) (k : string) (v : V) :
  k ∉ d.*1 → dict_set d k v = d ++ [(k, v)].
Proof.
  induction d as [|[k' v'] d IH]; intros Hk; simpl; [done|].
  rewrite fmap_cons in Hk. apply not_elem_of_cons in Hk as [Hne Hk]. simpl in Hne.
  destruct (String.eqb_spec k' k) as [->|_]; [done|]. by rewrite IH.
Qed.

Lemma dict_set_last {V} (d : dict V) (k : string) (v w : V) :
  k ∉ d.*1 → dict_set (d ++ [(k, v)]) k w = d ++ [(k, w)].
Proof.
  induction d as [|[k' v'] d IH]; intros Hk; simpl.
  - by rewrite String.eqb_refl.
  - rewrite fmap_cons in Hk. apply not_elem_of_cons in Hk as [Hne Hk]. simpl in Hne.
    destruct (String.eqb_spec k' k) as [->|_]; [done|]. by rewrite IH.
Qed.

Lemma decode_field_fresh (line : string) (parsed : record) (field_name : string)
    (spec : field_spec) :
  field_name ∉ parsed.*1 →
  decode_field line parsed (field_name, spec)
  = parsed ++ [(field_name, decoded_value line field_name spec)].
Proof.
  intros Hk. destruct spec as [[start end_] descr]. unfold decode_field, decoded_value.
  rewrite dict_set_fresh by done.
  destruct (is_numeric_field field_name); [|done].
  destruct (converted field_name _); simpl; [|done]. by apply dict_set_last.
Qed.

Lemma fold_decode_layout (line : string) (definition : definition) (parsed : record) :
  NoDup (parsed.*1 ++ definition.*1) →
  fold_left (decode_field line) definition parsed
  = parsed ++ ((λ item, (item.1, decoded_value line item.1 item.2)) <$> definition).
Proof.
  revert parsed. induction definition as [|[k spec] l IH]; intros parsed Hnd; cbn [fold_left].
  - by rewrite fmap_nil, app_nil_r.
  - rewrite fmap_cons in Hnd. cbn [fst] in Hnd.
    rewrite decode_field_fresh.
    2:{ apply NoDup_app in Hnd as (_ & Hd & _). intros Hin. apply (Hd _ Hin). left. }
    rewrite IH.
    + by rewrite <- app_assoc.
    + rewrite fmap_app, <- app_assoc. done.
Qed.

(** X9. For a line of a known record type, whatever its length, the
    decoded record holds exactly the field names of the schema, once each
    and in the order of the schema, each with the value decoded from its
    columns. *)
Theorem decoded_record_layout (c : ascii) (rest : string) (definition : definition) :
  dict_get RECORD_DEFINITIONS (String c EmptyString) = Some definition →
  parse_record RECORD_DEFINITIONS (String c rest)
  = (Some (String c EmptyString),
     Some ((λ item, (item.1, decoded_value (String c rest) item.1 item.2))
             <$> definition)).
Proof.
  intros H. rewrite (parse_record_known _ _ _ H). do 2 f_equal.
  unfold decode_fields. rewrite fold_decode_layout; [done|].
  simpl. by eapply registry_fields_distinct.
Qed.

Lemma decoded_record_layout_witness :
  ∃ definition,
    dict_get RECORD_DEFINITIONS "7" = Some definition
    ∧ parse_record RECORD_DEFINITIONS "705 short"
      = (Some "7",
         Some ((λ item, (item.1, decoded_value "705 short" item.1 item.2))
                 <$> definition)).
Proof.
  eexists. split; [reflexivity|].
  apply (decoded_record_layout "7" "05 short"). reflexivity.
Defined.

(** ** Trimming *)

Lemma lstrip_head (s : string) :
  Text.lstrip s = EmptyString
  ∨ ∃ c t, Text.lstrip s = String c t ∧ Text.isspace c = false.
Proof.
  induction s as [|c s IH]; [by left|]. simpl.
  destruct (Text.isspace c) eqn:E; [done|]. right. eauto.
Qed.

Lemma rstrip_rstrip (s : string) : Text.rstrip (Text.rstrip s) = Text.rstrip s.
Proof.
  induction s as [|c s IH]; [done|]. simpl.
  destruct (Text.rstrip s) as [|d r] eqn:E.
  - destruct (Text.isspace c) eqn:Hc; [done|]. simpl. by rewrite Hc.
  - change (Text.rstrip (String c (String d r))) with
      (match Text.rstrip (String d r) with
       | EmptyString => if Text.isspace c then EmptyString else String c EmptyString
       | r' => String c r'
       end).
    by rewrite IH.
Qed.

(** [s.strip().strip() == s.strip()] *)
Lemma strip_strip (s : string) : Text.strip (Text.strip s) = Text.strip s.
Proof.
  unfold Text.strip. destruct (lstrip_head s) as [-> | (c & t & -> & Hc)]; [done|].
  rewrite rstrip_cons_nonspace by done. simpl. rewrite Hc.
  rewrite rstrip_cons_nonspace by done. by rewrite rstrip_rstrip.
Qed.

Lemma substring_nil (a n : nat) : String.substring a n EmptyString = EmptyString.
Proof. by destruct a, n. Qed.

Lemma substring_zero (a : nat) (s : string) : String.substring a 0 s = EmptyString.
Proof.
  revert a. induction s as [|c s IH]; intros a; [apply substring_nil|].
  destruct a; simpl; [done | apply IH].
Qed.

Lemma decoded_value_cases (line k : string) (spec : field_spec) :
  (∃ s, decoded_value line k spec = VStr s ∧ Text.strip s = s)
  ∨ (∃ z, decoded_value line k spec = VInt z ∧ is_numeric_field k = true).
Proof.
  destruct spec as [[start end_] descr]. unfold decoded_value.
  destruct (is_numeric_field k); [|left; eexists; split; [done | apply strip_strip]].
  unfold converted.
  repeat (destruct (Text.contains _ k);
    [destruct (int_or_zero _); simpl;
     [right; eauto | left; eexists; split; [done | apply strip_strip]]|]).
  left. eexists. split; [done | apply strip_strip].
Qed.

Lemma decoded_value_beyond (line k : string) (start end_ : nat) (descr : string) :
  String.length line ≤ start →
  decoded_value line k (start, end_, descr)
  = if is_numeric_field k then VInt 0 else VStr EmptyString.
Proof.
  intros Hlen. unfold decoded_value, Text.slice.
  replace (Nat.min end_ (String.length line) - start) with 0 by lia.
  rewrite substring_zero.
  destruct (is_numeric_field k) eqn:Hk; [|done]. by rewrite converted_numeric.
Qed.

(** X10. In the record decoded from a line of a known type, every value
    is either a text with no white space at either end, or an integer
    stored under one of the numeric field names. *)
Theorem decoded_values_trimmed (c : ascii) (rest : string) (definition : definition) :
  dict_get RECORD_DEFINITIONS (String c EmptyString) = Some definition →
  ∃ parsed,
    parse_record RECORD_DEFINITIONS (String c rest)
    = (Some (String c EmptyString), Some parsed)
    ∧ ∀ k v, dict_get parsed k = Some v →
        match v with
        | VStr s => Text.strip s = s
        | VInt _ => is_numeric_field k = true
        end.
Proof.
  intros Hd. rewrite (parse_record_known _ _ _ Hd). eexists. split; [done|].
  intros k v Hk.
  destruct (decide (k ∈ definition.*1)) as [Hin|Hout].
  - apply list_elem_of_fmap in Hin as ([k' spec] & -> & Hin). simpl in Hk.
    rewrite (decode_fields_lookup _ _ _ _ (registry_fields_distinct _ _ Hd) Hin) in Hk.
    injection Hk as <-.
    by destruct (decoded_value_cases (String c rest) k' spec)
      as [(s & -> & Hs) | (z & -> & Hz)].
  - by rewrite decode_fields_absent in Hk.
Qed.

Lemma decoded_values_trimmed_witness :
  ∃ parsed,
    parse_record RECORD_DEFINITIONS "622  07640125 " = (Some "6", Some parsed)
    ∧ ∀ k v, dict_get parsed k = Some v →
        match v with
        | VStr s => Text.strip s = s
        | VInt _ => is_numeric_field k = true
        end.
Proof.
  apply (decoded_values_trimmed "6" "22  07640125 " (schema "6")). reflexivity.
Defined.

(** X11. A line of a known type that ends before the first column of a
    field is decoded without error: the field is the empty text, or the
    integer 0 when its name is one of the numeric field names. *)
Theorem missing_columns_decode_empty (c : ascii) (rest : string) (definition : definition)
    (field_name : string) (start end_ : nat) (descr : string) :
  dict_get RECORD_DEFINITIONS (String c EmptyString) = Some definition →
  (field_name, (start, end_, descr)) ∈ definition →
  String.length (String c rest) ≤ start →
  ∃ parsed,
    parse_record RECORD_DEFINITIONS (String c rest)
    = (Some (String c EmptyString), Some parsed)
    ∧ dict_get parsed field_name
      = Some (if is_numeric_field field_name then VInt 0 else VStr EmptyString).
Proof.
  intros Hd Hin Hlen. rewrite (parse_record_known _ _ _ Hd).
  eexists. split; [done|].
  rewrite (decode_fields_lookup _ _ _ _ (registry_fields_distinct _ _ Hd) Hin).
  by rewrite decoded_value_beyond.
Qed.

Lemma missing_columns_decode_empty_witness :
  ∃ parsed,
    parse_record RECORD_DEFINITIONS "622" = (Some "6", Some parsed)
    ∧ dict_get parsed "amount" = Some (VInt 0).
Proof.
  apply (missing_columns_decode_empty "6" "22" (schema "6") "amount" 29 39
           "Amount (cents)"); [reflexivity | known_type | simpl; lia].
Defined.

(** ** Trailing white space *)

Lemma all_space_substring (pad : string) (a n : nat) :
  Text.all Text.isspace pad = true →
  Text.all Text.isspace (String.substring a n pad) = true.
Proof.
  revert a n. induction pad as [|c pad IH]; intros a n H.
  - by rewrite substring_nil.
  - simpl in H. apply andb_prop in H as [Hc H].
    destruct a as [|a]; [destruct n as [|n]|]; simpl; [done| |by apply IH].
    rewrite Hc. by apply IH.
Qed.

Lemma substring_app_pad (s pad : string) (a n : nat) :
  Text.all Text.isspace pad = true →
  ∃ q, Text.all Text.isspace q = true
       ∧ String.substring a n (s +:+ pad) = String.substring a n s +:+ q.
Proof.
  intros Hpad. revert a n. induction s as [|c s IH]; intros a n.
  - rewrite substring_nil, append_nil_l. eexists. split; [|by rewrite append_nil_l].
    by apply all_space_substring.
  - rewrite append_cons. destruct a as [|a]; [destruct n as [|n]|]; simpl.
    + by exists EmptyString.
    + destruct (IH 0 n) as (q & Hq & ->). by exists q.
    + apply IH.
Qed.

Lemma rstrip_all_space (q : string) :
  Text.all Text.isspace q = true → Text.rstrip q = EmptyString.
Proof.
  induction q as [|c q IH]; [done|]. simpl. intros [Hc Hq]%andb_prop.
  by rewrite (IH Hq), Hc.
Qed.

Lemma rstrip_app_pad (t q : string) :
  Text.all Text.isspace q = true → Text.rstrip (t +:+ q) = Text.rstrip t.
Proof.
  intros Hq. induction t as [|c t IH].
  - rewrite append_nil_l. by apply rstrip_all_space.
  - rewrite append_cons. simpl. by rewrite IH.
Qed.

Lemma lstrip_all_space (q : string) :
  Text.all Text.isspace q = true → Text.lstrip q = EmptyString.
Proof.
  induction q as [|c q IH]; [done|]. simpl. intros [Hc Hq]%andb_prop.
  rewrite Hc. by apply IH.
Qed.

Lemma lstrip_app_pad (t q : string) :
  Text.all Text.isspace q = true →
  ∃ q', Text.all Text.isspace q' = true
        ∧ Text.lstrip (t +:+ q) = Text.lstrip t +:+ q'.
Proof.
  intros Hq. induction t as [|c t IH].
  - exists EmptyString. split; [done|]. rewrite append_nil_l. simpl.
    by apply lstrip_all_space.
  - rewrite append_cons. simpl. destruct (Text.isspace c); [done|].
    exists q. by rewrite append_cons.
Qed.

(** White space added at the end of a text is trimmed away. *)
Lemma strip_app_pad (t q : string) :
  Text.all Text.isspace q = true → Text.strip (t +:+ q) = Text.strip t.
Proof.
  intros Hq. unfold Text.strip.
  destruct (lstrip_app_pad t q Hq) as (q' & Hq' & ->). by apply rstrip_app_pad.
Qed.

Lemma substring_clamp (s : string) (a n : nat) :
  String.substring a n s = String.substring a (Nat.min n (String.length s - a)) s.
Proof.
  revert a n. induction s as [|c s IH]; intros a n.
  - by rewrite !substring_nil.
  - destruct a as [|a]; [destruct n as [|n]|]; simpl; [done| |apply IH].
    f_equal. rewrite (IH 0 n). by rewrite Nat.sub_0_r.
Qed.

(** The trimmed columns of a field do not see white space added at the
    end of the line. *)
Lemma field_text_pad (line pad : string) (start end_ : nat) :
  Text.all Text.isspace pad = true →
  Text.strip (Text.slice (line +:+ pad) start
                (Nat.min end_ (String.length (line +:+ pad))))
  = Text.strip (Text.slice line start (Nat.min end_ (String.length line))).
Proof.
  intros Hpad. unfold Text.slice.
  destruct (substring_app_pad line pad start
              (Nat.min end_ (String.length (line +:+ pad)) - start) Hpad)
    as (q & Hq & ->).
  rewrite strip_app_pad by done. f_equal.
  rewrite (substring_clamp line start (Nat.min end_ (String.length (line +:+ pad)) - start)).
  rewrite (substring_clamp line start (Nat.min end_ (String.length line) - start)).
  f_equal. rewrite string_length_app. lia.
Qed.

Lemma decode_fields_pad (line pad : string) (definition : definition) :
  Text.all Text.isspace pad = true →
  decode_fields (line +:+ pad) definition = decode_fields line definition.
Proof.
  intros Hpad. unfold decode_fields. generalize ([] : record) as parsed.
  induction definition as [|[k [[start end_] descr]] l IH]; intros parsed; [done|].
  cbn [fold_left]. rewrite IH. f_equal. unfold decode_field.
  by rewrite field_text_pad.
Qed.

(** X12. White space added at the end of a non-empty line does not change
    what the decoder returns for it: a record whose trailing blanks were
    cut off decodes to the same type and fields as the padded one. *)
Theorem trailing_blanks_immaterial (line pad : string) :
  line ≠ EmptyString → Text.all Text.isspace pad = true →
  parse_record RECORD_DEFINITIONS (line +:+ pad) = parse_record RECORD_DEFINITIONS line.
Proof.
  intros Hne Hpad. destruct line as [|c rest]; [done|]. rewrite append_cons.
  destruct (parse_record_shapes c rest) as [[Hin ->] | [Hout ->]];
    destruct (parse_record_shapes c (rest +:+ pad)) as [[Hin' ->] | [Hout' ->]];
    try done; rewrite <- append_cons.
  - by rewrite decode_fields_pad.
  - by rewrite strip_app_pad.
Qed.

Lemma trailing_blanks_immaterial_witness :
  parse_record RECORD_DEFINITIONS ("622076401251" +:+ "   ")
  = parse_record RECORD_DEFINITIONS "622076401251".
Proof. by apply (trailing_blanks_immaterial "622076401251" "   "). Defined.

(** ** The diagnostics, read off the lines *)


Lemma typed_nonblank (c : ascii) (line : string) :
  has_type c line → Text.isspace c = false → is_blank line = false.
Proof.
  intros [rest ->] Hc. unfold is_blank. by rewrite strip_cons_nonspace.
Qed.

Lemma unknown_nonblank (line : string) : is_unknown line = true → is_blank line = false.
Proof. unfold is_unknown. intros [H _]%andb_prop. by apply negb_true_iff. Qed.

(** The length check on a line that is not blank. *)
Lemma check_length_nonblank (n : nat) (line : string) (st : state) :
  is_blank line = false →
  check_length n line st
  = if is_wrong_length line
    then append_error (LengthMismatch n (String.length line) (Text.strip line)) st
    else st.
Proof.
  intros Hb. rewrite check_length_spec.
  2:{ intros ->. done. }
  unfold is_wrong_length. rewrite Hb. simpl.
  by destruct (String.length line =? 94), (Text.startswith line "9" && _).
Qed.

(** A line is blank, in which case the loop skips it, or the state after
    it is built on the length check. *)
Lemma effect_blank_or_not (n : nat) (line : string) (st st' : state) :
  line_effect n line st st' →
  (is_blank line = true ∧ st' = st) ∨ is_blank line = false.
Proof.
  destruct 1; [by left|..]; right;
    try (by apply unknown_nonblank); by eapply typed_nonblank.
Qed.

(** ** One length diagnostic per line of the wrong length *)

Lemma length_count_effect (done : list string) (n : nat) (line : string) (st st' : state) :
  length (filter (λ d, is_length_mismatch d) (st_errors st))
  = length (filter (λ l, is_wrong_length l) done) →
  line_effect n line st st' →
  length (filter (λ d, is_length_mismatch d) (st_errors st'))
  = length (filter (λ l, is_wrong_length l) (done ++ [line])).
Proof.
  intros IH Heff. rewrite filter_snoc_bool, length_app.
  destruct (effect_blank_or_not _ _ _ _ Heff) as [[Hb ->] | Hb].
  { assert (is_wrong_length line = false) as ->
      by (unfold is_wrong_length; by rewrite Hb).
    cbn [length]. lia. }
  pose proof (check_length_nonblank n line st Hb) as Hcl.
  assert (length (filter (λ d, is_length_mismatch d) (st_errors (check_length n line st)))
          = length (filter (λ l, is_wrong_length l) done)
            + length (if is_wrong_length line then [line] else [])) as Hc.
  { rewrite Hcl. destruct (is_wrong_length line); cbn [length]; [|lia].
    cbn [append_error st_errors]. rewrite filter_snoc_if, length_app.
    cbn [is_length_mismatch length]. lia. }
  destruct Heff; try congruence; try destruct (current_batch st);
    cbn [set_file_header set_file_control open_batch open_entry attach_addenda
         close_batch append_error append_other st_errors];
    rewrite ?filter_snoc_if, ?length_app; cbn [is_length_mismatch length]; lia.
Qed.

(** ** Batches cut short by a batch header *)

Lemma cut_short_initial : cut_short initial_state.
Proof. by constructor. Qed.

Lemma cut_short_same (st st' : state) :
  batch_store st' = batch_store st → current_batch st' = current_batch st →
  filter (λ d, is_unexpected_header d) (st_errors st')
  = filter (λ d, is_unexpected_header d) (st_errors st) →
  cut_short st → cut_short st'.
Proof. intros Hs Hb He [? ?]. constructor; by rewrite ?Hs, ?Hb, ?He. Qed.

Lemma cut_short_check_length (n : nat) (line : string) (st : state) :
  cut_short st → cut_short (check_length n line st).
Proof.
  apply cut_short_same.
  - apply check_length_batch_store.
  - apply check_length_current_batch.
  - by apply check_length_filter.
Qed.

Lemma cut_short_append_error (d : diagnostic) (st : state) :
  is_unexpected_header d = false → cut_short st → cut_short (append_error d st).
Proof.
  intros Hd. apply cut_short_same; [done..|]. simpl.
  by rewrite filter_snoc_if, Hd, app_nil_r.
Qed.

Lemma cut_short_effect (n : nat) (line : string) (st st' : state) :
  consistent st → cut_short st → line_effect n line st st' → cut_short st'.
Proof.
  intros Hcons Hcut Heff.
  pose proof (cut_short_check_length n line st Hcut) as H1.
  pose proof (check_length_current_batch n line st) as Hcb.
  pose proof (check_length_batch_store n line st) as Hbs.
  destruct Heff as [Hb | Ht | Ht | b Ht Hcur | Ht Hcur | Ht Hce | e Ht Hce
                   | b e Ht Hce Hcur Hlast | Ht Hce Hnone | b Ht Hcur | Ht Hcur | Ht | Hu];
    try done;
    try (by apply cut_short_append_error);
    try (by apply (cut_short_same (check_length n line st))).
  - (* batch header *)
    destruct H1 as [Hc _]. rewrite Hcb, Hbs in Hc.
    constructor; [|done].
    destruct (current_batch st); simpl;
      rewrite ?Hbs, fmap_app, filter_app, ?filter_snoc_if, !length_app; simpl;
      rewrite Hc; simpl; lia.
  - (* entry detail in a batch *)
    destruct H1 as [Hc _]. rewrite Hcb, Hbs in Hc.
    constructor; simpl.
    + by rewrite Hbs, control_alter_entry, Hcb, Hcur, Hc, Hcur.
    + by rewrite Hcb, Hcur.
  - (* batch control in a batch *)
    destruct H1 as [Hc _]. rewrite Hcb, Hbs, Hcur in Hc.
    pose proof (cons_current_batch _ Hcons b Hcur) as Hb.
    destruct (store_last _ _ Hb) as (init & o & Hs & Hlen).
    assert (bo_control o = None) as Ho.
    { apply (cons_open _ Hcons b o Hcur). rewrite Hs, <- Hlen.
      by apply list_lookup_middle. }
    constructor; simpl; rewrite Hbs, Hs, <- Hlen, alter_last.
    + rewrite Hs in Hc. rewrite !fmap_app, !filter_app, !length_app in *.
      simpl in *. rewrite Ho in Hc. simpl in Hc. lia.
    + intros _ o'. rewrite last_snoc. by intros [= <-].
  - (* unknown type *)
    apply cut_short_append_error; [done|].
    by apply (cut_short_same (check_length n line st)).
Qed.

(** ** Inputs that cause no diagnostic *)

Lemma at_place_same (p : place) (st st' : state) :
  st_errors st' = st_errors st → current_batch st' = current_batch st →
  current_entry st' = current_entry st → batch_store st' = batch_store st →
  at_place p st → at_place p st'.
Proof. intros He Hb Hc Hs [? ? ?]. constructor; by rewrite ?He, ?Hb, ?Hc, ?Hs. Qed.

(** A turn of the loop only adds to the diagnostics. *)
Lemma effect_errors_grow (n : nat) (line : string) (st st' : state) :
  line_effect n line st st' →
  (is_blank line = true ∧ st' = st)
  ∨ ∃ new, st_errors st' = st_errors (check_length n line st) ++ new.
Proof.
  destruct 1; [by left|..]; right; try destruct (current_batch st); try done;
    cbn [set_file_header set_file_control open_batch open_entry attach_addenda
         close_batch append_error append_other st_errors];
    try (by eexists [_]); exists []; by rewrite app_nil_r.
Qed.

Lemma effect_keeps_errors (n : nat) (line : string) (st st' : state) :
  line_effect n line st st' → st_errors st ≠ [] → st_errors st' ≠ [].
Proof.
  intros Heff Hne. destruct (check_length_errors n line st) as (new1 & H1 & _).
  destruct (effect_errors_grow _ _ _ _ Heff) as [[_ ->] | [new H]]; [done|].
  rewrite H, H1. by destruct (st_errors st).
Qed.

Lemma placed_snoc (done : list string) (line : string) :
  placed (done ++ [line]) = placed done ≫= step_place line.
Proof. unfold placed. by rewrite foldl_snoc. Qed.

Lemma place_effect (p : place) (n : nat) (line : string) (st st' : state) :
  consistent st → at_place p st → line_effect n line st st' →
  match step_place line p with
  | Some p' => at_place p' st'
  | None => st_errors st' ≠ []
  end.
Proof.
  intros Hcons Hat Heff. unfold step_place.
  destruct (effect_blank_or_not _ _ _ _ Heff) as [[Hnb ->] | Hnb]; rewrite Hnb; [done|].
  pose proof (check_length_nonblank n line st Hnb) as Hcl.
  destruct (is_wrong_length line).
  { destruct (effect_errors_grow _ _ _ _ Heff) as [[H _] | [new H]]; [congruence|].
    rewrite H, Hcl. simpl. by destruct (st_errors st). }
  pose proof Hat as [Herr Hbatch Hentry].
  assert (current_batch st = None → in_batch p = false) as Hout.
  { intros Hn. destruct (in_batch p); [|done].
    destruct (proj1 Hbatch eq_refl) as [b Hb]. congruence. }
  assert (∀ b, current_batch st = Some b → in_batch p = true) as Hin.
  { intros b Hb. apply Hbatch. by eexists. }
  assert (Hadd : ∀ d, st_errors st ++ [d] ≠ []) by (intros d; by destruct (st_errors st)).
  destruct Heff as [Hb | Ht | Ht | b Ht Hcur | Ht Hcur | Ht Hce | e Ht Hce
                   | b e Ht Hce Hcur Hlast | Ht Hce Hnone | b Ht Hcur | Ht Hcur | Ht | Hu];
    rewrite ?Hcl; try congruence; clear Hcl Hnb; line_facts; simpl.
  - by apply (at_place_same p st).
  - destruct (current_batch st) as [b|] eqn:Hcur.
    + rewrite (Hin b eq_refl). simpl. apply Hadd.
    + rewrite (Hout eq_refl). constructor; simpl; [done|split; eauto|].
      destruct (after_entry p); [|done].
      destruct Hentry as (b & e & Hb & _). congruence.
  - rewrite (Hin b Hcur). constructor; simpl; [done|split; eauto|].
    exists b, (length (entry_store st)). split; [done|]. split; [done|].
    pose proof (cons_current_batch _ Hcons b Hcur) as Hb.
    rewrite list_lookup_total_alter. rewrite decide_True by (split; [done | lia]).
    simpl. by rewrite last_snoc.
  - rewrite (Hout Hcur). apply Hadd.
  - destruct (after_entry p).
    + destruct Hentry as (b & e & _ & He & _). congruence.
    + apply Hadd.
  - destruct (after_entry p) eqn:Ha; [|congruence].
    by apply (at_place_same p st).
  - destruct (after_entry p) eqn:Ha; [|destruct Hce; congruence].
    by apply (at_place_same p st).
  - destruct (after_entry p); [|destruct Hce; congruence].
    destruct Hentry as (b & e & Hb & _ & Hl). rewrite (Hnone b Hb) in Hl. done.
  - rewrite (Hin b Hcur). constructor; simpl; [done| |done].
    split; [done | by intros [? ?]].
  - rewrite (Hout Hcur). apply Hadd.
  - by apply (at_place_same p st).
  - apply Hadd.
Qed.

(** The invariants of the diagnostics hold at the end of the loop. *)
Lemma diagnostics_loop (lines : list string) (st' : state) :
  loop RECORD_DEFINITIONS 0 (PyStr <$> lines) initial_state = Returned st' →
  consistent st'
  ∧ cut_short st'
  ∧ length (filter (λ d, is_length_mismatch d) (st_errors st'))
    = length (filter (λ l, is_wrong_length l) lines)
  ∧ match placed lines with
    | Some p => at_place p st'
    | None => st_errors st' ≠ []
    end.
Proof.
  intros Hl.
  apply (loop_effect_ind
           (λ done s,
              consistent s ∧ cut_short s
              ∧ length (filter (λ d, is_length_mismatch d) (st_errors s))
                = length (filter (λ l, is_wrong_length l) done)
              ∧ match placed done with
                | Some p => at_place p s
                | None => st_errors s ≠ []
                end) lines)
    with (done := []) (i := 0) (st := initial_state); [| |done].
  - intros done line n s s' (Hc & Hcut & Hlen & Hp) Heff.
    split; [by eapply consistent_effect|].
    split; [by eapply cut_short_effect|].
    split; [by eapply length_count_effect|].
    rewrite placed_snoc. destruct (placed done) as [p|]; simpl.
    + by eapply place_effect.
    + by eapply effect_keeps_errors.
  - split; [apply consistent_initial|]. split; [apply cut_short_initial|].
    split; [done|]. simpl. constructor; simpl; [done| |done].
    split; [done | by intros [? ?]].
Qed.

Lemma fmap_removelast {A B} (f : A → B) (l : list A) :
  f <$> removelast l = removelast (f <$> l).
Proof.
  destruct (decide (l = [])) as [->|Hne]; [done|].
  destruct (exists_last Hne) as (init & x & ->).
  rewrite removelast_last, fmap_app. simpl. by rewrite removelast_last.
Qed.

(** X13. For an input whose lines are text, the result holds one length
    diagnostic for each line that is not blank, is not 94 characters long
    and is not excused as a line of nines, and no other length
    diagnostic. *)
Theorem length_diagnostics_count (content : pyobj) (lines : list string) :
  lines_of content = Some (PyStr <$> lines) →
  ∃ r, parse_ach_file_content RECORD_DEFINITIONS content = Returned r
       ∧ length (filter (λ d, is_length_mismatch d) (errors r))
         = length (filter (λ l, is_wrong_length l) lines).
Proof.
  intros Hl. destruct (parse_final_state _ _ Hl) as (st & Hrun & ->).
  eexists. split; [done|]. by destruct (diagnostics_loop _ _ Hrun) as (_ & _ & H & _).
Qed.

Lemma length_diagnostics_count_witness :
  ∃ r, parse_ach_file_content RECORD_DEFINITIONS
         (PyList (PyStr <$> ["6 short"; EmptyString; sample_addenda; " 9"; "999"]))
       = Returned r
       ∧ length (filter (λ d, is_length_mismatch d) (errors r))
         = length (filter (λ l, is_wrong_length l)
                     ["6 short"; EmptyString; sample_addenda; " 9"; "999"]).
Proof.
  apply (length_diagnostics_count _
           ["6 short"; EmptyString; sample_addenda; " 9"; "999"]).
  reflexivity.
Defined.

(** X14. For an input whose lines are text, a batch other than the last
    one of the result lacks its batch control exactly when the batch header
    that follows it was reported as unexpected: the batches without a batch
    control, the last batch apart, are as many as the diagnostics of an
    unexpected batch header. *)
Theorem batches_cut_short (content : pyobj) (lines : list string) :
  lines_of content = Some (PyStr <$> lines) →
  ∃ r, parse_ach_file_content RECORD_DEFINITIONS content = Returned r
       ∧ length (filter (λ c, is_uncontrolled c)
                   (batch_control <$> removelast (batches r)))
         = length (filter (λ d, is_unexpected_header d) (errors r)).
Proof.
  intros Hl. destruct (parse_final_state _ _ Hl) as (st & Hrun & ->).
  eexists. split; [done|].
  destruct (diagnostics_loop _ _ Hrun) as (Hc & [Hcount Hclosed] & _).
  rewrite fmap_removelast, (result_batch_controls _ Hc).
  change (errors (result_of st)) with (st_errors st).
  destruct (decide (batch_store st = [])) as [Hnil|Hne].
  { rewrite Hnil in *. simpl in *. lia. }
  destruct (exists_last Hne) as (init & o & Hs).
  rewrite Hs, fmap_app, filter_app, length_app in Hcount.
  rewrite Hs, fmap_app. simpl. rewrite removelast_last.
  simpl in Hcount. rewrite filter_cons, filter_nil in Hcount.
  destruct (current_batch st) as [b|] eqn:Hcur.
  - pose proof (cons_current_batch _ Hc b Hcur) as Hb.
    assert (bo_control o = None) as Ho.
    { apply (cons_open _ Hc b o Hcur). rewrite Hs.
      rewrite Hs, length_app in Hb. simpl in Hb.
      replace b with (length init) by lia. by apply list_lookup_middle. }
    rewrite Ho in Hcount. simpl in Hcount. lia.
  - assert (is_uncontrolled (bo_control o) = false) as Ho.
    { apply Hclosed; [done|]. by rewrite Hs, last_snoc. }
    rewrite Ho in Hcount. simpl in Hcount. lia.
Qed.

Lemma batches_cut_short_witness :
  ∃ r, parse_ach_file_content RECORD_DEFINITIONS
         (PyList (PyStr <$> sample_reopened ++ sample_file)) = Returned r
       ∧ length (filter (λ c, is_uncontrolled c)
                   (batch_control <$> removelast (batches r)))
         = length (filter (λ d, is_unexpected_header d) (errors r)).
Proof.
  apply (batches_cut_short _ (sample_reopened ++ sample_file)). reflexivity.
Defined.

(** X15. For an input whose lines are text, the result has no diagnostic
    exactly when the lines are well placed: every line that is not blank is
    94 characters long or an excused line of nines and starts with one of
    1, 5, 6, 7, 8, 9; a batch header comes only while no batch is open, an
    entry detail and a batch control only while one is open, an addenda
    only after an entry detail of the open batch. File headers, file
    controls and blank lines may come anywhere. *)
Theorem no_diagnostic_iff (content : pyobj) (lines : list string) :
  lines_of content = Some (PyStr <$> lines) →
  ∃ r, parse_ach_file_content RECORD_DEFINITIONS content = Returned r
       ∧ (errors r = [] ↔ is_Some (placed lines)).
Proof.
  intros Hl. destruct (parse_final_state _ _ Hl) as (st & Hrun & ->).
  eexists. split; [done|].
  destruct (diagnostics_loop _ _ Hrun) as (_ & _ & _ & Hp).
  change (errors (result_of st)) with (st_errors st).
  destruct (placed lines) as [p|].
  - split; [eauto | intros _; apply Hp].
  - split; [done | by intros [? ?]].
Qed.

Lemma no_diagnostic_iff_witness :
  ∃ r, parse_ach_file_content RECORD_DEFINITIONS (PyList (PyStr <$> sample_file))
       = Returned r
       ∧ (errors r = [] ↔ is_Some (placed sample_file)).
Proof. apply (no_diagnostic_iff _ sample_file). reflexivity. Defined.

(** ** The forms of the input *)


Lemma append_assoc (s t u : string) : (s +:+ t) +:+ u = s +:+ (t +:+ u).
Proof. induction s as [|c s IH]; [done|]. by rewrite !append_cons, IH. Qed.

(** [splitlines] cuts a line that holds no boundary at the newline that
    ends it. *)
Lemma splitlines_from_line (l cur rest : string) :
  one_line l = true →
  Text.splitlines_from cur (l +:+ String "010" rest)
  = (cur +:+ l) :: Text.splitlines_from EmptyString rest.
Proof.
  revert cur. induction l as [|c l IH]; intros cur Hl.
  - rewrite append_nil_l, append_nil_r. reflexivity.
  - unfold one_line in Hl. simpl in Hl. apply andb_prop in Hl as [Hc Hl].
    apply negb_true_iff in Hc. rewrite append_cons. cbn [Text.splitlines_from].
    destruct (Ascii.eqb_spec c "013") as [->|_]; [done|].
    rewrite Hc, IH by done. by rewrite append_assoc.
Qed.

Lemma splitlines_unlines (lines : list string) :
  Forall (λ l, one_line l = true) lines → Text.splitlines (unlines lines) = lines.
Proof.
  unfold Text.splitlines. induction 1 as [|l lines Hl _ IH]; [done|].
  cbn [unlines foldr]. rewrite splitlines_from_line by done.
  rewrite append_nil_l. f_equal. apply IH.
Qed.

Lemma has_newline_cons (c : ascii) (s : string) :
  has_newline (String c s) = Ascii.eqb c "010" || has_newline s.
Proof.
  unfold has_newline, Text.contains. cbn [String.index String.prefix].
  destruct (Ascii.ascii_dec "010" c) as [<-|Hne].
  - by destruct s.
  - destruct (Ascii.eqb_spec c "010") as [->|_]; [done|]. simpl.
    by destruct (String.index 0 _ s).
Qed.

Lemma has_newline_app (s t : string) :
  has_newline (s +:+ t) = has_newline s || has_newline t.
Proof.
  induction s as [|c s IH]; [done|].
  by rewrite append_cons, !has_newline_cons, IH, orb_assoc.
Qed.

Lemma has_newline_unlines (lines : list string) :
  lines ≠ [] → has_newline (unlines lines) = true.
Proof.
  destruct lines as [|l lines]; [done|]. intros _. cbn [unlines foldr].
  rewrite has_newline_app, has_newline_cons. simpl. apply orb_true_r.
Qed.

(** X16. A text made of one or more lines, each ended by a newline and
    holding no line boundary of its own, is parsed exactly as the list of
    those lines: the two forms of input give the same value. *)
Theorem text_read_as_its_lines (defs : registry) (lines : list string) :
  lines ≠ [] → Forall (λ l, one_line l = true) lines →
  parse_ach_file_content defs (PyStr (unlines lines))
  = parse_ach_file_content defs (PyList (PyStr <$> lines)).
Proof.
  intros Hne Hl. unfold parse_ach_file_content, run, lines_of.
  by rewrite has_newline_unlines, splitlines_unlines.
Qed.

Lemma text_read_as_its_lines_witness :
  parse_ach_file_content RECORD_DEFINITIONS (PyStr (unlines sample_file))
  = parse_ach_file_content RECORD_DEFINITIONS (PyList (PyStr <$> sample_file)).
Proof.
  apply (text_read_as_its_lines RECORD_DEFINITIONS sample_file); [done|].
  known_type.
Defined.

(** ** A continuous block of records *)

Lemma substring_app_l (l s : string) :
  String.substring 0 (String.length l) (l +:+ s) = l.
Proof.
  induction l as [|c l IH]; [by destruct s|]. rewrite append_cons. simpl. by rewrite IH.
Qed.

Lemma substring_app_skip (l s : string) (a n : nat) :
  String.substring (String.length l + a) n (l +:+ s) = String.substring a n s.
Proof. induction l as [|c l IH]; [done|]. rewrite append_cons. simpl. apply IH. Qed.

(** The first chunk of a block that starts with a full record is that
    record. *)
Lemma chunks_app (width : nat) (l s : string) :
  0 < width → String.length l = width →
  Text.chunks width (l +:+ s) = l :: Text.chunks width s.
Proof.
  intros Hw Hl. unfold Text.chunks. rewrite string_length_app, Hl.
  replace (width + String.length s + (width - 1))
    with (1 * width + (String.length s + (width - 1))) by lia.
  rewrite Nat.div_add_l by lia.
  change (1 + ?n) with (S n). rewrite <- cons_seq, fmap_cons. f_equal.
  - unfold Text.slice. rewrite Nat.mul_0_r. simpl.
    rewrite Nat.sub_0_r, <- Hl. apply substring_app_l.
  - rewrite <- fmap_S_seq, <- list_fmap_compose. apply list_fmap_ext.
    intros _ k _. simpl. unfold Text.slice.
    replace (width * S k + width - width * S k) with width by lia.
    replace (width * k + width - width * k) with width by lia.
    replace (width * S k) with (String.length l + width * k) by lia.
    apply substring_app_skip.
Qed.

Lemma chunks_joined (lines : list string) :
  Forall (λ l, String.length l = 94) lines → Text.chunks 94 (joined lines) = lines.
Proof.
  induction 1 as [|l lines Hl _ IH]; [done|].
  cbn [joined foldr]. rewrite chunks_app by (done || lia). f_equal. apply IH.
Qed.

Lemma has_newline_joined (lines : list string) :
  Forall (λ l, has_newline l = false) lines → has_newline (joined lines) = false.
Proof.
  induction 1 as [|l lines Hl _ IH]; [done|].
  cbn [joined foldr]. rewrite has_newline_app, Hl. apply IH.
Qed.

(** X17. A text with no newline, made of records of 94 characters put end
    to end, is parsed exactly as the list of those records. *)
Theorem block_read_as_its_records (defs : registry) (lines : list string) :
  Forall (λ l, String.length l = 94 ∧ has_newline l = false) lines →
  parse_ach_file_content defs (PyStr (joined lines))
  = parse_ach_file_content defs (PyList (PyStr <$> lines)).
Proof.
  intros Hl. unfold parse_ach_file_content, run, lines_of.
  rewrite has_newline_joined, chunks_joined; [done|..];
    eapply Forall_impl; try exact Hl; by intros ? [? ?].
Qed.

Lemma block_read_as_its_records_witness :
  parse_ach_file_content RECORD_DEFINITIONS (PyStr (joined sample_file))
  = parse_ach_file_content RECORD_DEFINITIONS (PyList (PyStr <$> sample_file)).
Proof.
  apply (block_read_as_its_records RECORD_DEFINITIONS sample_file).
  known_type.
Defined.

(** ** The file wrapper *)

(** X18. Whatever reading the file gives, the file wrapper returns: either
    a value with one diagnostic about the file and nothing else, or the
    value the parser returns for the text read, all of whose diagnostics
    name a line. *)
Theorem lob_file_never_raises (read : string → read_outcome) (file_path : string) :
  (∃ d, parse_ach_lob_file RECORD_DEFINITIONS read file_path = ErrorsOnly [d]
        ∧ category_of d = ReadError)
  ∨ (∃ content r,
       read file_path = ReadText content
       ∧ parse_ach_file_content RECORD_DEFINITIONS (PyStr content) = Returned r
       ∧ parse_ach_lob_file RECORD_DEFINITIONS read file_path = Parsed (Returned r)
       ∧ Forall (λ d, is_Some (line_of d)) (errors r)).
Proof.
  unfold parse_ach_lob_file. destruct (read file_path) as [content| |e].
  - destruct (Text.strip content) eqn:Hs; [left; by eexists|]. right.
    destruct (lines_of_text (PyStr content)) as [lines Hl]; [by left|].
    destruct (parse_final_state _ _ Hl) as (st & Hrun & Hp).
    exists content, (result_of st). rewrite Hp. split; [done|]. split; [done|].
    split; [done|]. simpl.
    destruct (ev_errors _ _ _ _ (evolves_loop _ _ _ _ _ Hrun)) as (new & -> & Hnew).
    simpl. eapply Forall_impl; [exact Hnew|].
    intros d (n & -> & _). by eexists.
  - left. by eexists.
  - left. by eexists.
Qed.

(** ** Blank lines *)


Lemma forget_append (d : diagnostic) (st : state) :
  forget (append_error d st) = append_error (unnumbered d) (forget st).
Proof. unfold forget, append_error. simpl. by rewrite fmap_app. Qed.

(** The two sides build the same state once the line numbers are left
    out. *)
Ltac forget_leaf :=
  cbn [outcome_map]; try f_equal;
  unfold forget, append_error, append_other, set_file_header, set_file_control,
    open_batch, open_entry, attach_addenda, close_batch;
  simpl; by rewrite ?fmap_app.

Lemma forget_check_length (n : nat) (line : string) (st : state) :
  check_length 0 line (forget st) = forget (check_length n line st).
Proof.
  unfold check_length. destruct (_ && _); [|done]. simpl.
  destruct (negb _); [|done]. by rewrite forget_append.
Qed.

Lemma forget_addenda_fallback (n : nat) (p : record) (st : state) :
  addenda_fallback 0 p (forget st) = forget (addenda_fallback n p st).
Proof.
  unfold addenda_fallback. change (current_batch (forget st)) with (current_batch st).
  change (batch_store (forget st)) with (batch_store st).
  destruct (current_batch st) as [b|]; [|by rewrite forget_append].
  destruct (last _); [done | by rewrite forget_append].
Qed.

Lemma forget_on_addenda (n : nat) (p : record) (st : state) :
  on_addenda 0 p (forget st) = outcome_map forget (on_addenda n p st).
Proof.
  unfold on_addenda. change (current_entry (forget st)) with (current_entry st).
  change (entry_store (forget st)) with (entry_store st).
  destruct (current_entry st) as [e|]; [|simpl; by rewrite forget_append].
  destruct (dict_get p _) as [seq|]; [|simpl; by rewrite <- forget_addenda_fallback].
  destruct (truthy seq); [|simpl; by rewrite <- forget_addenda_fallback].
  destruct (default _ _) as [t|]; [destruct seq as [s|]|]; try done.
  destruct (Text.endswith t s); [done|]. simpl. by rewrite <- forget_addenda_fallback.
Qed.

Lemma forget_on_file_control (p : record) (st : state) :
  on_file_control p (forget st) = outcome_map forget (on_file_control p st).
Proof.
  unfold on_file_control. destruct (dict_get p "raw_line") as [[raw|]|]; [|done|].
  - destruct (Text.all_nines raw); [done|]. by destruct (dict_has _ _).
  - by destruct (dict_has _ _).
Qed.

Lemma forget_dispatch (n : nat) (record_type : option string) (p : record) (st : state) :
  dispatch 0 record_type p (forget st) = outcome_map forget (dispatch n record_type p st).
Proof.
  unfold dispatch. change (current_batch (forget st)) with (current_batch st).
  destruct (is_type record_type "1"); [done|].
  destruct (is_type record_type "5"); [destruct (current_batch st); forget_leaf|].
  destruct (is_type record_type "6"); [destruct (current_batch st); forget_leaf|].
  destruct (is_type record_type "7"); [apply forget_on_addenda|].
  destruct (is_type record_type "8"); [destruct (current_batch st); forget_leaf|].
  destruct (is_type record_type "9"); [apply forget_on_file_control|].
  destruct (is_type record_type "filler"); [done|].
  destruct (is_type record_type "unknown"); [forget_leaf | done].
Qed.

(** A turn of the loop, its line number left out, is the turn numbered 0
    on the state with the line numbers left out. *)
Lemma forget_loop_body (defs : registry) (n : nat) (line : string) (st : state) :
  loop_body defs 0 line (forget st) = outcome_map forget (loop_body defs n line st).
Proof.
  unfold loop_body. destruct (_ =? 0); [done|].
  rewrite (forget_check_length n).
  destruct (parse_record defs line) as [rt [[|item p]|]]; try forget_leaf.
  apply forget_dispatch.
Qed.

Lemma forget_result_of (st : state) :
  result_of (forget st)
  = {| file_header := file_header (result_of st);
       batches := batches (result_of st);
       file_control := file_control (result_of st);
       errors := unnumbered <$> errors (result_of st);
       other_records := other_records (result_of st) |}.
Proof. reflexivity. Qed.

(** Blank lines move the line numbers and nothing else. *)
Lemma loop_without_blanks (defs : registry) (lines : list string) (i j : nat)
    (st st' : state) :
  forget st = forget st' →
  outcome_map forget (loop defs i (PyStr <$> lines) st)
  = outcome_map forget
      (loop defs j (PyStr <$> filter (λ l, is_blank l = false) lines) st').
Proof.
  revert i j st st'. induction lines as [|line rest IH]; intros i j st st' Hst.
  - simpl. by rewrite Hst.
  - rewrite filter_cons. destruct (is_blank line) eqn:Hb.
    + rewrite decide_False by done. rewrite fmap_cons. cbn [loop].
      rewrite loop_body_blank by (by apply Nat.eqb_eq). by apply IH.
    + rewrite decide_True by done. rewrite !fmap_cons. cbn [loop].
      pose proof (forget_loop_body defs (i + 1) line st) as H1.
      pose proof (forget_loop_body defs (j + 1) line st') as H2.
      rewrite Hst, H2 in H1.
      destruct (loop_body defs (i + 1) line st) as [s1|e1],
               (loop_body defs (j + 1) line st') as [s2|e2];
        cbn [outcome_map] in H1; try done.
      apply IH. congruence.
Qed.

(** X19. Blank lines only move the line numbers: for an input whose lines
    are text, parsing the lines with the blank ones taken out gives the same
    file header, batches, file control and other records, and the same
    diagnostics up to the line numbers they name. *)
Theorem blank_lines_shift_numbers (content : pyobj) (lines : list string) :
  lines_of content = Some (PyStr <$> lines) →
  ∃ r r',
    parse_ach_file_content RECORD_DEFINITIONS content = Returned r
    ∧ parse_ach_file_content RECORD_DEFINITIONS
        (PyList (PyStr <$> filter (λ l, is_blank l = false) lines)) = Returned r'
    ∧ file_header r' = file_header r
    ∧ batches r' = batches r
    ∧ file_control r' = file_control r
    ∧ other_records r' = other_records r
    ∧ unnumbered <$> errors r' = unnumbered <$> errors r.
Proof.
  intros Hl. destruct (parse_final_state _ _ Hl) as (st & Hrun & ->).
  destruct (parse_final_state
              (PyList (PyStr <$> filter (λ l, is_blank l = false) lines)) _ eq_refl)
    as (st' & Hrun' & ->).
  exists (result_of st), (result_of st'). split; [done|]. split; [done|].
  pose proof (loop_without_blanks RECORD_DEFINITIONS lines 0 0
                initial_state initial_state eq_refl) as H.
  rewrite Hrun, Hrun' in H. cbn [outcome_map] in H.
  assert (result_of (forget st) = result_of (forget st')) as Hr by congruence.
  rewrite !forget_result_of in Hr.
  injection Hr as H1 H2 H3 H4 H5. repeat split; by symmetry.
Qed.

Lemma blank_lines_shift_numbers_witness :
  ∃ r r',
    parse_ach_file_content RECORD_DEFINITIONS
      (PyList (PyStr <$> ["   "; sample_batch_header; EmptyString; "6 short"; "X"]))
    = Returned r
    ∧ parse_ach_file_content RECORD_DEFINITIONS
        (PyList (PyStr <$> filter (λ l, is_blank l = false)
                             ["   "; sample_batch_header; EmptyString; "6 short"; "X"]))
      = Returned r'
    ∧ file_header r' = file_header r
    ∧ batches r' = batches r
    ∧ file_control r' = file_control r
    ∧ other_records r' = other_records r
    ∧ unnumbered <$> errors r' = unnumbered <$> errors r.
Proof.
  apply (blank_lines_shift_numbers _
           ["   "; sample_batch_header; EmptyString; "6 short"; "X"]).
  reflexivity.
Defined.

(** ** Where records are stored *)


Lemma loop_cons_inv (i : nat) (line : string) (rest : list string) (st st' : state) :
  loop RECORD_DEFINITIONS i (PyStr <$> line :: rest) st = Returned st' →
  ∃ s1, line_effect (i + 1) line st s1
        ∧ loop RECORD_DEFINITIONS (S i) (PyStr <$> rest) s1 = Returned st'.
Proof.
  rewrite fmap_cons. cbn [loop].
  destruct (loop_body RECORD_DEFINITIONS (i + 1) line st) as [s1|] eqn:E; [|done].
  intros Hl. exists s1. split; [by apply loop_body_effect | done].
Qed.

Lemma loop_app_inv (i : nat) (l1 l2 : list string) (st st' : state) :
  loop RECORD_DEFINITIONS i (PyStr <$> l1 ++ l2) st = Returned st' →
  ∃ s1, loop RECORD_DEFINITIONS i (PyStr <$> l1) st = Returned s1
        ∧ loop RECORD_DEFINITIONS (i + length l1) (PyStr <$> l2) s1 = Returned st'.
Proof.
  rewrite fmap_app, loop_app, length_fmap.
  destruct (loop RECORD_DEFINITIONS i (PyStr <$> l1) st) as [s1|]; [|done].
  intros Hl. by exists s1.
Qed.

(** An invariant of the lines read so far, for lines of a given kind. *)
Lemma loop_effect_ind_on (Q : string → Prop) (P : list string → state → Prop)
    (lines : list string) :
  (∀ done line n st st',
     Q line → P done st → line_effect n line st st' → P (done ++ [line]) st') →
  Forall Q lines →
  ∀ done i st st',
    P done st →
    loop RECORD_DEFINITIONS i (PyStr <$> lines) st = Returned st' →
    P (done ++ lines) st'.
Proof.
  intros Hstep HQ. induction HQ as [|line rest Hq _ IH]; intros done i st st' HP.
  - simpl. intros [= <-]. by rewrite app_nil_r.
  - intros (s1 & Heff & Hl)%loop_cons_inv.
    replace (done ++ line :: rest) with ((done ++ [line]) ++ rest)
      by by rewrite <- app_assoc.
    eapply IH; [|exact Hl]. by eapply Hstep.
Qed.

Lemma not_of_type (c : ascii) (line : string) :
  is_of_type c line = false → has_type c line → False.
Proof. intros Hf Ht%is_of_type_spec. congruence. Qed.

(** The entries of a batch dictionary are entry dictionaries of the
    store. *)
Lemma batch_entries_valid (st : state) (b e : loc) (o : batch_obj) :
  consistent st → batch_store st !! b = Some o → e ∈ bo_entries o →
  e < length (entry_store st).
Proof.
  intros Hc Hb He.
  assert (e ∈ seq 0 (length (entry_store st))) as Hin.
  { rewrite <- (cons_entries _ Hc). apply list_elem_of_In, in_concat.
    exists (bo_entries o). split; [|by apply list_elem_of_In].
    apply list_elem_of_In, list_elem_of_fmap. exists o. split; [done|].
    by eapply list_elem_of_lookup_2. }
  apply elem_of_seq in Hin. lia.
Qed.

(** ** Entry details join the open batch *)

Lemma in_open_batch_same (b : loc) (header : string) (done : list string)
    (st st' : state) :
  consistent st' → current_batch st' = current_batch st →
  batch_store st' = batch_store st →
  eo_fields <$> entry_store st' = eo_fields <$> entry_store st →
  in_open_batch b header done st → in_open_batch b header done st'.
Proof. intros Hc Hb Hs He [_ ? ?]. constructor; by rewrite ?Hb, ?Hs, ?He. Qed.

Lemma in_open_batch_effect (b : loc) (header : string) (done : list string)
    (n : nat) (line : string) (st st' : state) :
  is_of_type "5" line = false ∧ is_of_type "8" line = false →
  in_open_batch b header done st → line_effect n line st st' →
  in_open_batch b header (done ++ [line]) st'.
Proof.
  intros [H5 H8] Hin Heff.
  pose proof (consistent_effect _ _ _ _ (ob_consistent _ _ _ _ Hin) Heff) as Hc'.
  pose proof (check_length_current_batch n line st) as Hcb.
  pose proof (check_length_batch_store n line st) as Hbs.
  pose proof (check_length_entry_store n line st) as Hes.
  pose proof (ob_current _ _ _ _ Hin) as Hopen.
  assert (is_of_type "6" line = false → in_open_batch b header done st' →
          in_open_batch b header (done ++ [line]) st') as Hskip.
  { intros H6 [? ? ?]. constructor; [done..|].
    by rewrite filter_snoc_bool, H6, app_nil_r. }
  destruct Heff as [Hb | Ht | Ht | b' Ht Hcur | Ht Hcur | Ht Hce | e Ht Hce
                   | b' e Ht Hce Hcur Hlast | Ht Hce Hnone | b' Ht Hcur | Ht Hcur | Ht | Hu];
    try (by destruct (not_of_type _ _ H5 Ht));
    try (by destruct (not_of_type _ _ H8 Ht));
    try congruence.
  - apply Hskip; [|done]. by apply blank_line_facts.
  - apply Hskip; [by rewrite (proj2 (typed_line_facts _ _ Ht ltac:(known_type)))|].
    apply (in_open_batch_same _ _ _ st);
      [done | exact Hcb | exact Hbs | by simpl; rewrite Hes | done].
  - (* an entry detail *)
    assert (b' = b) as -> by congruence.
    destruct Hin as [Hc _ (o & Ho & Hf & He)].
    constructor; [done | by rewrite <- Hopen|].
    exists (push_entry (length (entry_store st)) o).
    cbn [open_entry batch_store entry_store]. rewrite Hbs, Hes.
    split; [by rewrite list_lookup_alter_eq, Ho|]. split; [done|].
    rewrite filter_snoc_bool, (proj2 (typed_line_facts _ _ Ht ltac:(known_type))).
    simpl. rewrite !fmap_app. simpl. f_equal.
    + rewrite <- He. apply list_fmap_ext. intros i e Hi.
      apply lookup_total_app_l. rewrite length_fmap.
      eapply batch_entries_valid; [exact Hc | exact Ho |].
      by eapply list_elem_of_lookup_2.
    + f_equal. rewrite <- (length_fmap eo_fields).
      by rewrite list_lookup_total_middle.
  - apply Hskip; [by rewrite (proj2 (typed_line_facts _ _ Ht ltac:(known_type)))|].
    apply (in_open_batch_same _ _ _ st);
      [done | exact Hcb | exact Hbs | by simpl; rewrite Hes | done].
  - apply Hskip; [by rewrite (proj2 (typed_line_facts _ _ Ht ltac:(known_type)))|].
    apply (in_open_batch_same _ _ _ st); [done | exact Hcb | exact Hbs | | done].
    cbn [attach_addenda entry_store]. by rewrite Hes, fields_alter_addenda.
  - apply Hskip; [by rewrite (proj2 (typed_line_facts _ _ Ht ltac:(known_type)))|].
    apply (in_open_batch_same _ _ _ st); [done | exact Hcb | exact Hbs | | done].
    cbn [attach_addenda entry_store]. by rewrite Hes, fields_alter_addenda.
  - apply Hskip; [by rewrite (proj2 (typed_line_facts _ _ Ht ltac:(known_type)))|].
    apply (in_open_batch_same _ _ _ st);
      [done | exact Hcb | exact Hbs | by simpl; rewrite Hes | done].
  - apply Hskip; [by rewrite (proj2 (typed_line_facts _ _ Ht ltac:(known_type)))|].
    apply (in_open_batch_same _ _ _ st);
      [done | exact Hcb | exact Hbs | by simpl; rewrite Hes | done].
  - apply Hskip; [by apply unknown_line_facts; [|known_type]|].
    apply (in_open_batch_same _ _ _ st);
      [done | exact Hcb | exact Hbs | by simpl; rewrite Hes | done].
Qed.

(** A batch header opens a batch with no entry. *)
Lemma header_opens_batch (n : nat) (line : string) (st st' : state) :
  consistent st → is_of_type "5" line = true → line_effect n line st st' →
  in_open_batch (length (batch_store st)) line [] st'.
Proof.
  intros Hc H5 Heff. pose proof (consistent_effect _ _ _ _ Hc Heff) as Hc'.
  pose proof (check_length_batch_store n line st) as Hbs.
  revert H5. destruct Heff; line_facts; simpl; intros H5; try done.
  assert (batch_store
            match current_batch st with
            | Some _ => append_error (UnexpectedBatchHeader n) (check_length n line st)
            | None => check_length n line st
            end = batch_store st) as Hs by (by destruct (current_batch st)).
  constructor; [done|..]; cbn [open_batch current_batch batch_store]; rewrite Hs.
  - done.
  - eexists. split; [by apply list_lookup_middle|]. done.
Qed.

Lemma open_batch_loop (b : loc) (header : string) (body : list string)
    (i : nat) (st st' : state) :
  Forall (λ l, is_of_type "5" l = false ∧ is_of_type "8" l = false) body →
  in_open_batch b header [] st →
  loop RECORD_DEFINITIONS i (PyStr <$> body) st = Returned st' →
  in_open_batch b header body st'.
Proof.
  intros Hbody Hin Hl.
  apply (loop_effect_ind_on
           (λ l, is_of_type "5" l = false ∧ is_of_type "8" l = false)
           (in_open_batch b header) body) with
    (done := []) (i := i) (st := st); try done.
  intros done line n s s' Hq HP Heff. by eapply in_open_batch_effect.
Qed.

(** The open batch is the last batch of the result. *)
Lemma open_batch_result (b : loc) (header : string) (done : list string) (st : state) :
  in_open_batch b header done st →
  last (batches (result_of st)) = Some (batch_at st b)
  ∧ batch_record (batch_at st b) = decode_fields header (schema "5")
  ∧ entry_record <$> entries (batch_at st b)
    = (λ l, decode_fields l (schema "6")) <$> filter (λ l, is_of_type "6" l) done
  ∧ batch_control (batch_at st b) = None.
Proof.
  intros [Hc Hcur (o & Ho & Hf & He)].
  pose proof (cons_current_batch _ Hc b Hcur) as Hb.
  assert (batch_store st !!! b = o) as Hob by by apply list_lookup_total_correct.
  split; [|split; [|split]].
  - simpl. rewrite (cons_batches _ Hc), <- Hb, seq_S, fmap_app. simpl.
    by rewrite last_snoc.
  - unfold batch_at. simpl. by rewrite Hob.
  - unfold batch_at. simpl. rewrite Hob, <- He, <- list_fmap_compose.
    apply list_fmap_ext. intros i e Hi. simpl.
    symmetry. apply list_lookup_total_fmap.
    eapply batch_entries_valid; [exact Hc | exact Ho |]. by eapply list_elem_of_lookup_2.
  - unfold batch_at. simpl. rewrite Hob. by apply (cons_open _ Hc b o).
Qed.

(** X20. Entry details belong to the batch whose header they follow: when
    the lines after a batch header hold no further batch header and no
    batch control, the last batch of the result is the one decoded from
    that header, its entries are exactly the lines after it that start with
    '6', in order, and it has no batch control. *)
Theorem entries_join_open_batch (content : pyobj) (pre body : list string)
    (header : string) :
  lines_of content = Some (PyStr <$> pre ++ header :: body) →
  is_of_type "5" header = true →
  Forall (λ l, is_of_type "5" l = false ∧ is_of_type "8" l = false) body →
  ∃ r b,
    parse_ach_file_content RECORD_DEFINITIONS content = Returned r
    ∧ last (batches r) = Some b
    ∧ batch_record b = decode_fields header (schema "5")
    ∧ entry_record <$> entries b
      = (λ l, decode_fields l (schema "6")) <$> filter (λ l, is_of_type "6" l) body
    ∧ batch_control b = None.
Proof.
  intros Hl H5 Hbody. destruct (parse_final_state _ _ Hl) as (st & Hrun & ->).
  apply loop_app_inv in Hrun as (s0 & Hpre & Hrun).
  apply loop_cons_inv in Hrun as (s1 & Hh & Hrun).
  pose proof (consistent_loop _ _ _ _ consistent_initial Hpre) as Hc0.
  pose proof (header_opens_batch _ _ _ _ Hc0 H5 Hh) as H1.
  pose proof (open_batch_loop _ _ _ _ _ _ Hbody H1 Hrun) as H2.
  exists (result_of st), (batch_at st (length (batch_store s0))).
  split; [done|]. by apply (open_batch_result _ _ body).
Qed.

Lemma entries_join_open_batch_witness :
  ∃ r b,
    parse_ach_file_content RECORD_DEFINITIONS
      (PyList (PyStr <$> sample_file
                 ++ sample_batch_header
                    :: [sample_entry_detail; sample_addenda; "6 short"; "X"]))
    = Returned r
    ∧ last (batches r) = Some b
    ∧ batch_record b = decode_fields sample_batch_header (schema "5")
    ∧ entry_record <$> entries b
      = (λ l, decode_fields l (schema "6"))
          <$> filter (λ l, is_of_type "6" l)
                [sample_entry_detail; sample_addenda; "6 short"; "X"]
    ∧ batch_control b = None.
Proof.
  apply (entries_join_open_batch _ sample_file
           [sample_entry_detail; sample_addenda; "6 short"; "X"] sample_batch_header).
  - reflexivity.
  - reflexivity.
  - known_type.
Defined.

(** ** Addenda join the entry detail they follow *)

(** An entry detail read in an open batch becomes the current entry and
    the last entry of the batch, with no addenda. *)
Lemma entry_detail_opens (b : loc) (header : string) (done : list string)
    (n : nat) (line : string) (st st' : state) :
  in_open_batch b header done st → is_of_type "6" line = true →
  line_effect n line st st' →
  after_entry_detail b (length (entry_store st)) line [] st'.
Proof.
  intros [Hc Hcur (o & Ho & _)] H6 Heff.
  pose proof (consistent_effect _ _ _ _ Hc Heff) as Hc'.
  pose proof (check_length_current_batch n line st) as Hcb.
  pose proof (check_length_batch_store n line st) as Hbs.
  pose proof (check_length_entry_store n line st) as Hes.
  revert H6.
  destruct Heff as [Hb | Ht | Ht | b' Ht Hcur' | Ht Hcur' | Ht Hce | e Ht Hce
                   | b' e Ht Hce Hcur' Hlast | Ht Hce Hnone | b' Ht Hcur' | Ht Hcur' | Ht | Hu];
    line_facts; simpl; intros H6; try done; [|congruence].
  assert (b' = b) as -> by congruence.
  constructor; [done|..]; cbn [open_entry current_batch current_entry batch_store
                                 entry_store]; rewrite ?Hcb, ?Hbs, ?Hes; try done.
  - exists (push_entry (length (entry_store st)) o).
    split; [by rewrite list_lookup_alter_eq, Ho|]. simpl. by rewrite last_snoc.
  - eexists. split; [by apply list_lookup_middle|]. done.
Qed.

Lemma after_entry_effect (b e : loc) (detail : string) (done : list string)
    (n : nat) (line : string) (st st' : state) :
  is_blank line || is_of_type "7" line = true →
  after_entry_detail b e detail done st → line_effect n line st st' →
  after_entry_detail b e detail (done ++ [line]) st'.
Proof.
  intros Hq [Hc Hcur Hce (ob & Hob & Hlast) (oe & Hoe & Hf & Ha)] Heff.
  pose proof (consistent_effect _ _ _ _ Hc Heff) as Hc'.
  pose proof (check_length_current_batch n line st) as Hcb.
  pose proof (check_length_current_entry n line st) as Hcen.
  pose proof (check_length_batch_store n line st) as Hbs.
  pose proof (check_length_entry_store n line st) as Hes.
  destruct (effect_blank_or_not _ _ _ _ Heff) as [[Hb ->] | Hnb].
  { constructor; try done; [by exists ob|]. exists oe. split; [done|]. split; [done|].
    by rewrite filter_snoc_bool, (proj2 (blank_line_facts _ Hb)), app_nil_r. }
  rewrite Hnb in Hq. simpl in Hq.
  assert (∀ e' p,
            e' = e → p = decode_fields line (schema "7") →
            consistent (attach_addenda e' p (check_length n line st)) →
            after_entry_detail b e detail (done ++ [line])
              (attach_addenda e' p (check_length n line st))) as Hattach.
  { intros e' p -> -> Hcons.
    constructor; [done|..];
      cbn [attach_addenda current_batch current_entry batch_store entry_store];
      rewrite ?Hcb, ?Hcen, ?Hbs, ?Hes; try done; [by exists ob|].
    exists (push_addenda (decode_fields line (schema "7")) oe).
    split; [by rewrite list_lookup_alter_eq, Hoe|]. split; [done|].
    rewrite filter_snoc_bool, Hq, fmap_app. simpl. by rewrite Ha. }
  revert Hq.
  destruct Heff as [Hb | Ht | Ht | b' Ht Hcur' | Ht Hcur' | Ht Hce' | e' Ht Hce'
                   | b' e' Ht Hce' Hcur' Hlast' | Ht Hce' Hnone | b' Ht Hcur' | Ht Hcur'
                   | Ht | Hu];
    line_facts; simpl; intros Hq; try done; try congruence.
  - apply Hattach; [congruence | done | done].
  - apply Hattach; [|done|done].
    assert (b' = b) as -> by congruence.
    rewrite (list_lookup_total_correct _ _ _ Hob) in Hlast'. congruence.
  - pose proof (Hnone b Hcur) as Hn.
    rewrite (list_lookup_total_correct _ _ _ Hob) in Hn. congruence.
Qed.

(** The current entry is the last entry of the last batch of the
    result. *)
Lemma after_entry_result (b e : loc) (detail : string) (done : list string)
    (st : state) :
  after_entry_detail b e detail done st →
  last (batches (result_of st)) = Some (batch_at st b)
  ∧ last (entries (batch_at st b)) = Some (entry_at st e)
  ∧ entry_record (entry_at st e) = decode_fields detail (schema "6")
  ∧ addenda (entry_at st e)
    = (λ l, decode_fields l (schema "7")) <$> filter (λ l, is_of_type "7" l) done.
Proof.
  intros [Hc Hcur Hce (ob & Hob & Hlast) (oe & Hoe & Hf & Ha)].
  pose proof (cons_current_batch _ Hc b Hcur) as Hb.
  split; [|split; [|split]].
  - simpl. rewrite (cons_batches _ Hc), <- Hb, seq_S, fmap_app. simpl.
    by rewrite last_snoc.
  - unfold batch_at. simpl.
    by rewrite (list_lookup_total_correct _ _ _ Hob), fmap_last, Hlast.
  - unfold entry_at. simpl. by rewrite (list_lookup_total_correct _ _ _ Hoe).
  - unfold entry_at. simpl. by rewrite (list_lookup_total_correct _ _ _ Hoe).
Qed.

(** X21. Addenda belong to the entry detail they follow: when an entry
    detail is read while a batch is open and only addenda and blank lines
    come after it, the last entry of the last batch of the result is the one
    decoded from that entry detail, and its addenda are exactly the lines
    after it that start with '7', in order, whatever sequence numbers they
    bear. *)
Theorem addenda_join_entry_detail (content : pyobj) (pre mid adds : list string)
    (header detail : string) :
  lines_of content = Some (PyStr <$> pre ++ header :: mid ++ detail :: adds) →
  is_of_type "5" header = true →
  Forall (λ l, is_of_type "5" l = false ∧ is_of_type "8" l = false) mid →
  is_of_type "6" detail = true →
  Forall (λ l, is_blank l || is_of_type "7" l = true) adds →
  ∃ r b e,
    parse_ach_file_content RECORD_DEFINITIONS content = Returned r
    ∧ last (batches r) = Some b
    ∧ last (entries b) = Some e
    ∧ entry_record e = decode_fields detail (schema "6")
    ∧ addenda e
      = (λ l, decode_fields l (schema "7")) <$> filter (λ l, is_of_type "7" l) adds.
Proof.
  intros Hl H5 Hmid H6 Hadds. destruct (parse_final_state _ _ Hl) as (st & Hrun & ->).
  apply loop_app_inv in Hrun as (s0 & Hpre & Hrun).
  apply loop_cons_inv in Hrun as (s1 & Hh & Hrun).
  apply loop_app_inv in Hrun as (s2 & Hm & Hrun).
  apply loop_cons_inv in Hrun as (s3 & Hd & Hrun).
  pose proof (consistent_loop _ _ _ _ consistent_initial Hpre) as Hc0.
  pose proof (header_opens_batch _ _ _ _ Hc0 H5 Hh) as H1.
  pose proof (open_batch_loop _ _ _ _ _ _ Hmid H1 Hm) as H2.
  pose proof (entry_detail_opens _ _ _ _ _ _ _ H2 H6 Hd) as H3.
  assert (after_entry_detail (length (batch_store s0)) (length (entry_store s2))
            detail adds st) as H4.
  { apply (loop_effect_ind_on
             (λ l, is_blank l || is_of_type "7" l = true)
             (after_entry_detail (length (batch_store s0)) (length (entry_store s2))
                detail) adds) with
      (done := []) (i := S (S (0 + length pre) + length mid)) (st := s3); try done.
    intros done line n s s' Hq HP Heff. by eapply after_entry_effect. }
  eexists _, _, _. split; [done|]. exact (after_entry_result _ _ detail adds _ H4).
Qed.

Lemma addenda_join_entry_detail_witness :
  ∃ r b e,
    parse_ach_file_content RECORD_DEFINITIONS
      (PyList (PyStr <$> [sample_file_header]
                 ++ sample_batch_header
                    :: [sample_entry_detail; sample_addenda]
                       ++ sample_entry_detail
                          :: [sample_addenda_blank; EmptyString; sample_addenda]))
    = Returned r
    ∧ last (batches r) = Some b
    ∧ last (entries b) = Some e
    ∧ entry_record e = decode_fields sample_entry_detail (schema "6")
    ∧ addenda e
      = (λ l, decode_fields l (schema "7"))
          <$> filter (λ l, is_of_type "7" l)
                [sample_addenda_blank; EmptyString; sample_addenda].
Proof.
  apply (addenda_join_entry_detail _ [sample_file_header]
           [sample_entry_detail; sample_addenda]
           [sample_addenda_blank; EmptyString; sample_addenda]
           sample_batch_header sample_entry_detail).
  - reflexivity.
  - reflexivity.
  - known_type.
  - reflexivity.
  - known_type.
Defined.

Import Heap.

(** ** Calls on a heap *)

(** *** What a call may write to *)

Section Frame.
Variable n0 : nat.

Lemma frames_ret {A} (P : A → Prop) (a : A) : P a → frames n0 P (ret a).
Proof. intros Ha h Hh. unfold ret. simpl. done. Qed.

Lemma frames_raise {A} (P : A → Prop) (e : exception) : frames n0 P (raise e).
Proof. intros h Hh. unfold raise. simpl. done. Qed.

Lemma frames_bind {A B} (P : A → Prop) (Q : B → Prop) (m : M A) (f : A → M B) :
  frames n0 P m → (∀ a, P a → frames n0 Q (f a)) → frames n0 Q (bind m f).
Proof.
  intros Hm Hf h Hh. unfold bind. destruct (Hm h Hh) as (Ht & Hh1 & Ha).
  destruct (m h) as [h1 [a|e]]; simpl in *.
  - destruct (Hf a Ha h1 Hh1) as (Ht2 & Hh2 & Hb). by rewrite Ht2.
  - done.
Qed.

Lemma frames_weaken {A} (P Q : A → Prop) (m : M A) :
  (∀ a, P a → Q a) → frames n0 P m → frames n0 Q m.
Proof.
  intros HPQ Hm h Hh. destruct (Hm h Hh) as (Ht & Hh1 & Ha).
  split; [done|]. split; [done|]. destruct ((m h).2); simpl in *; auto.
Qed.

Lemma frames_alloc (o : hobj) : fresh_obj n0 o → frames n0 (λ l, n0 ≤ l) (alloc o).
Proof.
  intros Ho h [Hlen Hh]. unfold alloc. simpl. split; [|split].
  - by rewrite take_app_le.
  - split; [rewrite length_app; lia|]. intros l o' Hl Hlook.
    apply lookup_app_Some in Hlook as [Hlook | [_ Hlook]]; [by eapply Hh|].
    apply list_lookup_singleton_Some in Hlook as [_ <-]. done.
  - done.
Qed.

Lemma frames_load (l : loc) : frames n0 (λ _, True) (load l).
Proof. intros h Hh. unfold load. simpl. repeat split; try apply Hh. by destruct (h !! l). Qed.

Lemma frames_load_fresh (l : loc) : n0 ≤ l → frames n0 (fresh_obj n0) (load l).
Proof.
  intros Hl h Hh. unfold load. simpl. repeat split; try apply Hh.
  destruct (h !! l) as [o|] eqn:E; simpl; [|done]. by eapply (proj2 Hh).
Qed.

Lemma frames_store (l : loc) (o : hobj) :
  n0 ≤ l → fresh_obj n0 o → frames n0 (λ _, True) (store l o).
Proof.
  intros Hl Ho h [Hlen Hh]. unfold store. simpl. split; [|split; [|done]].
  - by rewrite take_insert_ge.
  - split; [by rewrite length_insert|]. intros l' o' Hl' Hlook.
    destruct (decide (l' = l)) as [->|Hne].
    + apply list_lookup_insert_Some in Hlook as [(_ & <- & _) | [? _]]; done.
    + rewrite list_lookup_insert_ne in Hlook by done. by eapply Hh.
Qed.

Lemma frames_deref (e : exception) (v : hval) :
  fresh_val n0 v → frames n0 (λ lo, n0 ≤ lo.1 ∧ fresh_obj n0 lo.2) (deref e v).
Proof.
  intros Hv. destruct v; try apply frames_raise. simpl in Hv. unfold deref.
  eapply frames_bind; [by apply frames_load_fresh|].
  intros o Ho. by apply frames_ret.
Qed.

Lemma frames_deref_any (e : exception) (v : hval) : frames n0 (λ _, True) (deref e v).
Proof.
  destruct v; try apply frames_raise. unfold deref.
  eapply frames_bind; [apply frames_load|]. intros o _. by apply frames_ret.
Qed.

Lemma fresh_dict_get (its : dict hval) (k : string) (v : hval) :
  Forall (λ kv, fresh_val n0 kv.2) its → dict_get its k = Some v → fresh_val n0 v.
Proof.
  intros Hits Hk. apply dict_get_elem_of in Hk.
  by apply (proj1 (Forall_forall _ _) Hits (k, v)).
Qed.

Lemma fresh_dict_set (its : dict hval) (k : string) (v : hval) :
  Forall (λ kv, fresh_val n0 kv.2) its → fresh_val n0 v →
  Forall (λ kv, fresh_val n0 kv.2) (dict_set its k v).
Proof.
  intros Hits Hv. induction Hits as [|[k' v'] its Hkv Hits IH]; simpl.
  - by repeat constructor.
  - destruct (String.eqb k' k); constructor; done.
Qed.

Lemma frames_get (d : hval) (k : string) :
  fresh_val n0 d → frames n0 (λ v, fresh_val n0 (default HNone v)) (get d k).
Proof.
  intros Hd. unfold get. eapply frames_bind; [by apply (frames_deref _ d)|].
  intros [l o] [Hl Ho]. destruct o as [its|its]; [|apply frames_raise].
  apply frames_ret. simpl in *. destruct (dict_get its k) as [v|] eqn:E; [|done].
  by eapply fresh_dict_get.
Qed.

Lemma frames_get_any (d : hval) (k : string) : frames n0 (λ _, True) (get d k).
Proof.
  unfold get. eapply frames_bind; [apply frames_deref_any|].
  intros [l o] _. destruct o; [by apply frames_ret | apply frames_raise].
Qed.

Lemma frames_get_item (d : hval) (k : string) :
  fresh_val n0 d → frames n0 (fresh_val n0) (get_item d k).
Proof.
  intros Hd. unfold get_item. eapply frames_bind; [by apply (frames_deref _ d)|].
  intros [l o] [Hl Ho]. destruct o as [its|its]; [|apply frames_raise].
  simpl in *. destruct (dict_get its k) as [v|] eqn:E; [|apply frames_raise].
  apply frames_ret. by eapply fresh_dict_get.
Qed.

Lemma frames_set_item (d : hval) (k : string) (v : hval) :
  fresh_val n0 d → fresh_val n0 v → frames n0 (λ _, True) (set_item d k v).
Proof.
  intros Hd Hv. unfold set_item. eapply frames_bind; [by apply (frames_deref _ d)|].
  intros [l o] [Hl Ho]. destruct o as [its|its]; [|apply frames_raise].
  apply frames_store; [done|]. by apply fresh_dict_set.
Qed.

Lemma frames_append (xs v : hval) :
  fresh_val n0 xs → fresh_val n0 v → frames n0 (λ _, True) (append xs v).
Proof.
  intros Hd Hv. unfold append. eapply frames_bind; [by apply (frames_deref _ xs)|].
  intros [l o] [Hl Ho]. destruct o as [its|its]; [apply frames_raise|].
  apply frames_store; [done|]. simpl in *. apply Forall_app. split; [done|].
  by apply Forall_singleton.
Qed.

Lemma frames_items (d : hval) :
  fresh_val n0 d → frames n0 (Forall (λ kv, fresh_val n0 kv.2)) (items d).
Proof.
  intros Hd. unfold items. eapply frames_bind; [by apply (frames_deref _ d)|].
  intros [l o] [Hl Ho]. destruct o as [its|its]; [by apply frames_ret | apply frames_raise].
Qed.

Lemma frames_items_any (d : hval) : frames n0 (λ _, True) (items d).
Proof.
  unfold items. eapply frames_bind; [apply frames_deref_any|].
  intros [l o] _. destruct o; [by apply frames_ret | apply frames_raise].
Qed.

Lemma frames_last_item (xs : hval) :
  fresh_val n0 xs → frames n0 (fresh_val n0) (last_item xs).
Proof.
  intros Hd. unfold last_item. eapply frames_bind; [by apply (frames_deref _ xs)|].
  intros [l o] [Hl Ho]. destruct o as [its|its]; [apply frames_raise|].
  simpl in *. destruct (last its) as [v|] eqn:E; [|apply frames_raise].
  apply frames_ret. apply last_Some in E as [its' ->].
  apply Forall_app in Ho as [_ Ho]. by apply Forall_inv in Ho.
Qed.

Lemma frames_truthy (v : hval) : frames n0 (λ _, True) (truthy v).
Proof.
  destruct v; try (by apply frames_ret). unfold truthy.
  eapply frames_bind; [apply frames_load|]. intros o _. by apply frames_ret.
Qed.

Lemma frames_for_each {A} (xs : list A) (body : A → M unit) :
  (∀ x, frames n0 (λ _, True) (body x)) → frames n0 (λ _, True) (for_each xs body).
Proof.
  intros Hbody. induction xs as [|x xs IH]; simpl; [by apply frames_ret|].
  eapply frames_bind; [apply Hbody|]. intros _ _. apply IH.
Qed.

Lemma frames_decode_field (line : string) (parsed : hval) (item : string * hval) :
  fresh_val n0 parsed → frames n0 (λ _, True) (Heap.decode_field line parsed item).
Proof.
  intros Hp. destruct item as [field_name spec]. unfold Heap.decode_field.
  destruct spec as [| | |[[start end_] descr]| |]; try apply frames_raise.
  eapply frames_bind; [by apply frames_set_item|]. intros _ _.
  destruct (is_numeric_field field_name); [|by apply frames_ret].
  destruct (converted field_name _) as [[|z]|]; try (by apply frames_ret).
  by apply frames_set_item.
Qed.

(** [parse_record] reads the registry and writes to the dictionary it
    returns, a new one. *)
Lemma frames_parse_record (registry : loc) (line : string) :
  frames n0 (λ r, fresh_val n0 r.1 ∧ fresh_val n0 r.2) (Heap.parse_record registry line).
Proof.
  unfold Heap.parse_record. destruct line as [|c rest]; [by apply frames_ret|].
  eapply frames_bind; [apply frames_get_any|]. intros definition _.
  eapply frames_bind; [apply frames_truthy|]. intros known _.
  destruct known; simpl.
  - eapply frames_bind; [apply frames_alloc; constructor|]. intros p Hp.
    eapply frames_bind; [apply frames_items_any|]. intros fields _.
    eapply frames_bind.
    { apply frames_for_each. intros item. by apply frames_decode_field. }
    intros _ _. by apply frames_ret.
  - destruct (_ && _).
    + eapply frames_bind; [apply frames_alloc; by repeat constructor|].
      intros p Hp. by apply frames_ret.
    + eapply frames_bind; [apply frames_alloc; by repeat constructor|].
      intros p Hp. by apply frames_ret.
Qed.

(** A step of a computation whose value is read off the heap allocated
    since. *)
Ltac frame_prim :=
  first
    [ apply frames_raise
    | apply frames_truthy
    | apply frames_get_item; done
    | apply frames_set_item; done
    | apply frames_append; done
    | apply frames_get; done
    | apply frames_items; done
    | apply frames_last_item; done
    | apply frames_alloc; repeat constructor; done
    | apply frames_ret; done ].

Ltac frame :=
  repeat first
    [ frame_prim
    | eapply frames_bind; [frame_prim | intros; simpl in *]
    | match goal with
      | |- frames _ _ (if ?b then _ else _) => destruct b
      | |- frames _ _ (match ?x with _ => _ end) => destruct x
      end ].

Lemma frames_append_error (ach_data : hval) (d : diagnostic) :
  fresh_val n0 ach_data → frames n0 (λ _, True) (Heap.append_error ach_data d).
Proof. intros Ha. unfold Heap.append_error. frame. Qed.

Lemma frames_append_error_about (ach_data : hval) (d : record → diagnostic)
    (parsed_record : hval) :
  fresh_val n0 ach_data → fresh_val n0 parsed_record →
  frames n0 (λ _, True) (append_error_about ach_data d parsed_record).
Proof. intros Ha Hp. unfold append_error_about. frame. Qed.

Lemma frames_append_other (ach_data : hval) (t : string) (parsed_record : hval) :
  fresh_val n0 ach_data → fresh_val n0 parsed_record →
  frames n0 (λ _, True) (Heap.append_other ach_data t parsed_record).
Proof. intros Ha Hp. unfold Heap.append_other. frame. Qed.

Lemma frames_check_length (ach_data : hval) (n : nat) (line : string) :
  fresh_val n0 ach_data → frames n0 (λ _, True) (Heap.check_length ach_data n line).
Proof.
  intros Ha. unfold Heap.check_length.
  destruct (_ && _); [|by apply frames_ret].
  destruct (negb _); [by apply frames_append_error | by apply frames_ret].
Qed.

Lemma frames_endswith (trace seq : hval) : frames n0 (λ _, True) (endswith trace seq).
Proof. unfold endswith. destruct trace, seq; frame. Qed.

Lemma frames_all_nines (v : hval) : frames n0 (λ _, True) (all_nines v).
Proof. unfold all_nines. destruct v; frame. Qed.

Lemma frames_on_addenda (ach_data : hval) (n : nat) (parsed_record : hval)
    (current_batch current_entry : hval) :
  fresh_val n0 ach_data → fresh_val n0 parsed_record →
  fresh_val n0 current_batch → fresh_val n0 current_entry →
  frames n0 (λ _, True)
    (Heap.on_addenda ach_data n parsed_record current_batch current_entry).
Proof.
  intros Ha Hp Hb He. unfold Heap.on_addenda.
  eapply frames_bind; [by apply frames_get|]. intros seq Hseq.
  eapply frames_bind; [apply frames_truthy|]. intros given _.
  eapply (frames_bind (λ _, True)).
  { destruct given; [|by apply frames_ret].
    eapply frames_bind; [by apply frames_get|]. intros trace _. apply frames_endswith. }
  intros matched _. destruct matched; [frame|].
  eapply frames_bind; [apply frames_truthy|]. intros open _.
  eapply (frames_bind (λ _, True)).
  { destruct open; [frame | by apply frames_ret]. }
  intros has_entries _. destruct has_entries; [frame|].
  by apply frames_append_error_about.
Qed.

Lemma frames_on_file_control (ach_data parsed_record : hval) :
  fresh_val n0 ach_data → fresh_val n0 parsed_record →
  frames n0 (λ _, True) (Heap.on_file_control ach_data parsed_record).
Proof.
  intros Ha Hp. unfold Heap.on_file_control.
  eapply frames_bind; [by apply frames_get|]. intros raw _.
  eapply (frames_bind (λ _, True)).
  { destruct raw; [apply frames_all_nines | by apply frames_ret]. }
  intros filler _. destruct filler; [by apply frames_append_other|]. frame.
Qed.

Lemma frames_dispatch (ach_data : hval) (n : nat) (record_type parsed_record : hval)
    (current_batch current_entry : hval) :
  fresh_val n0 ach_data → fresh_val n0 parsed_record →
  fresh_val n0 current_batch → fresh_val n0 current_entry →
  frames n0 (λ vars, fresh_val n0 vars.1 ∧ fresh_val n0 vars.2)
    (Heap.dispatch ach_data n record_type parsed_record current_batch current_entry).
Proof.
  intros Ha Hp Hb He. unfold Heap.dispatch.
  destruct (Heap.is_type record_type "1"); [frame|].
  destruct (Heap.is_type record_type "5").
  { eapply frames_bind; [apply frames_truthy|]. intros open _.
    eapply (frames_bind (λ _, True)).
    { destruct open; [by apply frames_append_error | by apply frames_ret]. }
    intros _ _. frame. }
  destruct (Heap.is_type record_type "6").
  { eapply frames_bind; [apply frames_truthy|]. intros open _. destruct open; simpl.
    - frame.
    - eapply frames_bind; [by apply frames_append_error|]. intros. frame. }
  destruct (Heap.is_type record_type "7").
  { eapply frames_bind; [apply frames_truthy|]. intros entry _. destruct entry; simpl.
    - eapply frames_bind; [by apply frames_on_addenda|]. intros. frame.
    - eapply frames_bind; [by apply frames_append_error|]. intros. frame. }
  destruct (Heap.is_type record_type "8").
  { eapply frames_bind; [apply frames_truthy|]. intros open _. destruct open; simpl.
    - frame.
    - eapply frames_bind; [by apply frames_append_error|]. intros. frame. }
  destruct (Heap.is_type record_type "9").
  { eapply frames_bind; [by apply frames_on_file_control|]. intros. frame. }
  destruct (Heap.is_type record_type "filler").
  { eapply frames_bind; [by apply frames_append_other|]. intros. frame. }
  destruct (Heap.is_type record_type "unknown"); [|frame].
  eapply frames_bind; [by apply frames_append_other|]. intros.
  eapply frames_bind; [by apply frames_append_error_about|]. intros. frame.
Qed.

Lemma frames_loop_body (registry : loc) (ach_data : hval) (n : nat) (line : string)
    (current_batch current_entry : hval) :
  fresh_val n0 ach_data → fresh_val n0 current_batch → fresh_val n0 current_entry →
  frames n0 (λ vars, fresh_val n0 vars.1 ∧ fresh_val n0 vars.2)
    (Heap.loop_body registry ach_data n line current_batch current_entry).
Proof.
  intros Ha Hb He. unfold Heap.loop_body. destruct (_ =? 0); [frame|].
  eapply frames_bind; [by apply frames_check_length|]. intros _ _.
  eapply frames_bind; [apply frames_parse_record|]. intros [rt p] [Hrt Hp].
  eapply frames_bind; [apply frames_truthy|]. intros parsed _.
  destruct parsed; simpl.
  - by apply frames_dispatch.
  - eapply frames_bind; [by apply frames_append_error|]. intros. frame.
Qed.

Lemma frames_loop (registry : loc) (ach_data : hval) (lines : list pyobj) (i : nat)
    (current_batch current_entry : hval) :
  fresh_val n0 ach_data → fresh_val n0 current_batch → fresh_val n0 current_entry →
  frames n0 (λ _, True)
    (Heap.loop registry ach_data i lines current_batch current_entry).
Proof.
  intros Ha. revert i current_batch current_entry.
  induction lines as [|line rest IH]; intros i cb ce Hb He; simpl; [frame|].
  destruct line; try apply frames_raise.
  eapply frames_bind; [by apply frames_loop_body|].
  intros [cb' ce'] [Hb' He']. by apply IH.
Qed.

(** A call writes to the objects it allocates and to no other. *)
Lemma frames_parse_ach_file_content (registry : loc) (content : pyobj) :
  frames n0 (fresh_val n0) (Heap.parse_ach_file_content registry content).
Proof.
  unfold Heap.parse_ach_file_content.
  eapply frames_bind; [apply frames_alloc; constructor|]. intros batches Hb.
  eapply frames_bind; [apply frames_alloc; constructor|]. intros errors He.
  eapply frames_bind; [apply frames_alloc; constructor|]. intros others Ho.
  eapply frames_bind; [apply frames_alloc; by repeat constructor|]. intros ach_data Ha.
  destruct (lines_of content) as [lines|].
  - eapply frames_bind; [by apply frames_loop|]. intros. by apply frames_ret.
  - eapply frames_bind; [by apply frames_append_error|]. intros. by apply frames_ret.
Qed.

End Frame.

Lemma call_extends (registry : loc) (content : pyobj) (h : heap) :
  extends h (Heap.parse_ach_file_content registry content h).1.
Proof.
  destruct (frames_parse_ach_file_content (length h) registry content h)
    as (Ht & [Hlen _] & _).
  { split; [done|]. intros l o Hl Hlook. apply lookup_lt_Some in Hlook. lia. }
  rewrite firstn_all in Ht.
  set (h1 := (Heap.parse_ach_file_content registry content h).1) in *.
  exists (drop (length h) h1).
  transitivity (take (length h) h1 ++ drop (length h) h1);
    [by rewrite take_drop | by rewrite Ht].
Qed.

(** *** The same call on a larger heap *)

Section Reloc.
Variables (n0 : nat) (ext : heap).

Lemma shift_loc_lt (l : loc) : l < n0 → shift_loc n0 (length ext) l = l.
Proof. intros Hl. unfold shift_loc. by rewrite decide_True. Qed.

Lemma shift_loc_ge (l : loc) : n0 ≤ l → shift_loc n0 (length ext) l = l + length ext.
Proof. intros Hl. unfold shift_loc. rewrite decide_False; [done | lia]. Qed.

Lemma length_reloc (h : heap) :
  n0 ≤ length h → length (reloc n0 ext h) = length h + length ext.
Proof.
  intros Hlen. unfold reloc.
  rewrite !length_app, !length_fmap, length_take, length_drop. lia.
Qed.

(** The object at a moved address is the object moved. *)
Lemma reloc_lookup (h : heap) (l : loc) :
  n0 ≤ length h →
  reloc n0 ext h !! shift_loc n0 (length ext) l = shift_obj n0 (length ext) <$> h !! l.
Proof.
  intros Hlen. unfold reloc.
  assert (length (shift_obj n0 (length ext) <$> take n0 h) = n0) as Htake
    by (rewrite length_fmap, length_take; lia).
  destruct (decide (l < n0)) as [Hl|Hl].
  - rewrite shift_loc_lt by done.
    rewrite lookup_app_l by lia. by rewrite list_lookup_fmap, lookup_take_lt.
  - rewrite shift_loc_ge by lia.
    rewrite lookup_app_r by lia. rewrite lookup_app_r by lia.
    rewrite list_lookup_fmap, lookup_drop. do 2 f_equal. lia.
Qed.

Lemma reloc_app (h : heap) (o : hobj) :
  n0 ≤ length h →
  reloc n0 ext (h ++ [o]) = reloc n0 ext h ++ [shift_obj n0 (length ext) o].
Proof.
  intros Hlen. unfold reloc.
  rewrite take_app_le, drop_app_le by done.
  by rewrite fmap_app, <- !app_assoc.
Qed.

Lemma reloc_insert (h : heap) (l : loc) (o : hobj) :
  n0 ≤ length h →
  reloc n0 ext (<[l := o]> h)
  = <[shift_loc n0 (length ext) l := shift_obj n0 (length ext) o]> (reloc n0 ext h).
Proof.
  intros Hlen. unfold reloc.
  assert (length (shift_obj n0 (length ext) <$> take n0 h) = n0) as Htake
    by (rewrite length_fmap, length_take; lia).
  destruct (decide (l < n0)) as [Hl|Hl].
  - rewrite shift_loc_lt by done.
    rewrite take_insert_lt, drop_insert_lt by lia.
    rewrite list_fmap_insert. by rewrite insert_app_l by lia.
  - rewrite shift_loc_ge by lia.
    rewrite take_insert_ge, drop_insert_ge by lia.
    rewrite list_fmap_insert.
    rewrite insert_app_r_alt by lia. rewrite insert_app_r_alt by lia.
    do 3 f_equal. lia.
Qed.

Lemma sim_ret {A} (sh : A → A) (a a' : A) :
  a' = sh a → simulates n0 ext sh (ret a) (ret a').
Proof. intros -> h Hlen. by split. Qed.

Lemma sim_raise {A} (sh : A → A) (e : exception) :
  simulates n0 ext sh (raise e) (raise e).
Proof. intros h Hlen. by split. Qed.

Lemma sim_bind {A B} (sh : A → A) (sh' : B → B) (m m' : M A) (f f' : A → M B) :
  simulates n0 ext sh m m' →
  (∀ a, simulates n0 ext sh' (f a) (f' (sh a))) →
  simulates n0 ext sh' (bind m f) (bind m' f').
Proof.
  intros Hm Hf h Hlen. unfold bind. destruct (Hm h Hlen) as [-> Hlen1].
  destruct (m h) as [h1 [a|e]]; simpl in *; [|done]. by apply Hf.
Qed.

Lemma sim_alloc (o o' : hobj) :
  o' = shift_obj n0 (length ext) o →
  simulates n0 ext (shift_loc n0 (length ext)) (alloc o) (alloc o').
Proof.
  intros -> h Hlen. unfold alloc. simpl. split; [|rewrite length_app; lia].
  by rewrite reloc_app, length_reloc, shift_loc_ge.
Qed.

Lemma sim_load (l l' : loc) :
  l' = shift_loc n0 (length ext) l →
  simulates n0 ext (shift_obj n0 (length ext)) (load l) (load l').
Proof.
  intros -> h Hlen. unfold load. simpl. split; [|done].
  rewrite reloc_lookup by done. by destruct (h !! l).
Qed.

Lemma sim_store (l l' : loc) (o o' : hobj) :
  l' = shift_loc n0 (length ext) l → o' = shift_obj n0 (length ext) o →
  simulates n0 ext id (store l o) (store l' o').
Proof.
  intros -> -> h Hlen. unfold store. simpl. split; [|by rewrite length_insert].
  by rewrite reloc_insert.
Qed.

Lemma dict_get_shift (its : dict hval) (k : string) :
  dict_get (shift_items n0 (length ext) its) k
  = shift_val n0 (length ext) <$> dict_get its k.
Proof.
  induction its as [|[k' v] its IH]; [done|]. unfold shift_items in *.
  rewrite fmap_cons. simpl. by destruct (String.eqb k' k).
Qed.

Lemma dict_set_shift (its : dict hval) (k : string) (v : hval) :
  dict_set (shift_items n0 (length ext) its) k (shift_val n0 (length ext) v)
  = shift_items n0 (length ext) (dict_set its k v).
Proof.
  induction its as [|[k' v'] its IH]; [done|]. unfold shift_items in *.
  rewrite fmap_cons. simpl. destruct (String.eqb k' k); [done|].
  rewrite fmap_cons. simpl. by rewrite IH.
Qed.

Lemma as_record_shift (its : dict hval) :
  as_record (shift_items n0 (length ext) its) = as_record its.
Proof.
  induction its as [|[k v] its IH]; [done|]. unfold shift_items, as_record in *.
  rewrite fmap_cons. destruct v; simpl; first [apply IH | f_equal; apply IH].
Qed.

Lemma sim_deref (e : exception) (v v' : hval) :
  v' = shift_val n0 (length ext) v →
  simulates n0 ext (prod_map (shift_loc n0 (length ext)) (shift_obj n0 (length ext)))
    (deref e v) (deref e v').
Proof.
  intros ->. destruct v; try apply sim_raise. simpl.
  eapply sim_bind; [by apply sim_load|]. intros o. by apply sim_ret.
Qed.

Lemma sim_get (d d' : hval) (k : string) :
  d' = shift_val n0 (length ext) d →
  simulates n0 ext (fmap (shift_val n0 (length ext))) (get d k) (get d' k).
Proof.
  intros ->. unfold get. eapply sim_bind; [by apply sim_deref|].
  intros [l [its|its]]; simpl; [|apply sim_raise].
  apply sim_ret. apply dict_get_shift.
Qed.

Lemma sim_get_item (d d' : hval) (k : string) :
  d' = shift_val n0 (length ext) d →
  simulates n0 ext (shift_val n0 (length ext)) (get_item d k) (get_item d' k).
Proof.
  intros ->. unfold get_item. eapply sim_bind; [by apply sim_deref|].
  intros [l [its|its]]; simpl; [|apply sim_raise].
  rewrite dict_get_shift. destruct (dict_get its k); simpl;
    [by apply sim_ret | apply sim_raise].
Qed.

Lemma sim_set_item (d d' : hval) (k : string) (v v' : hval) :
  d' = shift_val n0 (length ext) d → v' = shift_val n0 (length ext) v →
  simulates n0 ext id (set_item d k v) (set_item d' k v').
Proof.
  intros -> ->. unfold set_item. eapply sim_bind; [by apply sim_deref|].
  intros [l [its|its]]; simpl; [|apply sim_raise].
  apply sim_store; [done|]. simpl. by rewrite dict_set_shift.
Qed.

Lemma sim_append (xs xs' v v' : hval) :
  xs' = shift_val n0 (length ext) xs → v' = shift_val n0 (length ext) v →
  simulates n0 ext id (append xs v) (append xs' v').
Proof.
  intros -> ->. unfold append. eapply sim_bind; [by apply sim_deref|].
  intros [l [its|its]]; simpl; [apply sim_raise|].
  apply sim_store; [done|]. simpl. by rewrite fmap_app.
Qed.

Lemma sim_items (d d' : hval) :
  d' = shift_val n0 (length ext) d →
  simulates n0 ext (shift_items n0 (length ext)) (items d) (items d').
Proof.
  intros ->. unfold items. eapply sim_bind; [by apply sim_deref|].
  intros [l [its|its]]; simpl; [by apply sim_ret | apply sim_raise].
Qed.

Lemma sim_last_item (xs xs' : hval) :
  xs' = shift_val n0 (length ext) xs →
  simulates n0 ext (shift_val n0 (length ext)) (last_item xs) (last_item xs').
Proof.
  intros ->. unfold last_item. eapply sim_bind; [by apply sim_deref|].
  intros [l [its|its]]; simpl; [apply sim_raise|].
  rewrite fmap_last. destruct (last its); simpl; [by apply sim_ret | apply sim_raise].
Qed.

Lemma sim_truthy (v v' : hval) :
  v' = shift_val n0 (length ext) v → simulates n0 ext id (truthy v) (truthy v').
Proof.
  intros ->. destruct v; try (by apply sim_ret). simpl.
  eapply sim_bind; [by apply sim_load|].
  intros [[|kv its]|[|x its]]; by apply sim_ret.
Qed.

Lemma sim_for_each {A} (sh : A → A) (xs : list A) (body body' : A → M unit) :
  (∀ x, simulates n0 ext id (body x) (body' (sh x))) →
  simulates n0 ext id (for_each xs body) (for_each (sh <$> xs) body').
Proof.
  intros Hbody. induction xs as [|x xs IH]; simpl; [by apply sim_ret|].
  eapply sim_bind; [apply Hbody|]. intros _. apply IH.
Qed.

Lemma sim_decode_field (line : string) (parsed parsed' : hval) (item : string * hval) :
  parsed' = shift_val n0 (length ext) parsed →
  simulates n0 ext id (Heap.decode_field line parsed item)
    (Heap.decode_field line parsed' (item.1, shift_val n0 (length ext) item.2)).
Proof.
  intros ->. destruct item as [field_name spec]. unfold Heap.decode_field.
  destruct spec as [| | |[[start end_] descr]| |]; try apply sim_raise. simpl.
  eapply sim_bind; [by apply sim_set_item|]. intros _.
  destruct (is_numeric_field field_name); [|by apply sim_ret].
  destruct (converted field_name _) as [[|z]|]; try (by apply sim_ret).
  by apply sim_set_item.
Qed.

Lemma sim_parse_record (registry registry' : loc) (line : string) :
  registry' = shift_loc n0 (length ext) registry →
  simulates n0 ext (prod_map (shift_val n0 (length ext)) (shift_val n0 (length ext)))
    (Heap.parse_record registry line) (Heap.parse_record registry' line).
Proof.
  intros ->. unfold Heap.parse_record. destruct line as [|c rest]; [by apply sim_ret|].
  eapply sim_bind; [by apply sim_get|]. intros definition.
  assert (default HNone (shift_val n0 (length ext) <$> definition)
          = shift_val n0 (length ext) (default HNone definition)) as ->
    by by destruct definition.
  eapply sim_bind; [by apply sim_truthy|]. intros known. simpl.
  destruct known; simpl.
  - eapply sim_bind; [by apply sim_alloc|]. intros p.
    eapply sim_bind; [by apply sim_items|]. intros fields.
    eapply sim_bind.
    { apply (sim_for_each (λ kv, (kv.1, shift_val n0 (length ext) kv.2))).
      intros item. by apply sim_decode_field. }
    intros _. by apply sim_ret.
  - destruct (_ && _).
    + eapply sim_bind; [by apply sim_alloc|]. intros p. by apply sim_ret.
    + eapply sim_bind; [by apply sim_alloc|]. intros p. by apply sim_ret.
Qed.

Ltac sim_prim :=
  first
    [ apply sim_raise
    | by apply sim_truthy
    | by apply sim_get_item
    | by apply sim_set_item
    | by apply sim_append
    | by apply sim_get
    | by apply sim_items
    | by apply sim_last_item
    | by apply sim_alloc
    | by apply sim_ret ].

Ltac sim :=
  repeat first
    [ sim_prim
    | eapply sim_bind; [sim_prim | intros; simpl]
    | match goal with
      | |- simulates _ _ _ (if ?b then _ else _) _ => destruct b
      end ].

Lemma sim_append_error (ach_data ach_data' : hval) (d : diagnostic) :
  ach_data' = shift_val n0 (length ext) ach_data →
  simulates n0 ext id (Heap.append_error ach_data d) (Heap.append_error ach_data' d).
Proof. intros ->. unfold Heap.append_error. sim. Qed.

Lemma sim_append_error_about (ach_data ach_data' : hval) (d : record → diagnostic)
    (parsed_record parsed_record' : hval) :
  ach_data' = shift_val n0 (length ext) ach_data →
  parsed_record' = shift_val n0 (length ext) parsed_record →
  simulates n0 ext id (append_error_about ach_data d parsed_record)
    (append_error_about ach_data' d parsed_record').
Proof.
  intros -> ->. unfold append_error_about.
  eapply sim_bind; [by apply sim_get_item|]. intros errors.
  eapply sim_bind; [by apply sim_items|]. intros its. simpl.
  rewrite as_record_shift. by apply sim_append.
Qed.

Lemma sim_append_other (ach_data ach_data' : hval) (t : string)
    (parsed_record parsed_record' : hval) :
  ach_data' = shift_val n0 (length ext) ach_data →
  parsed_record' = shift_val n0 (length ext) parsed_record →
  simulates n0 ext id (Heap.append_other ach_data t parsed_record)
    (Heap.append_other ach_data' t parsed_record').
Proof. intros -> ->. unfold Heap.append_other. sim. Qed.

Lemma sim_check_length (ach_data ach_data' : hval) (n : nat) (line : string) :
  ach_data' = shift_val n0 (length ext) ach_data →
  simulates n0 ext id (Heap.check_length ach_data n line)
    (Heap.check_length ach_data' n line).
Proof.
  intros ->. unfold Heap.check_length. destruct (_ && _); [|by apply sim_ret].
  destruct (negb _); [by apply sim_append_error | by apply sim_ret].
Qed.

Lemma sim_endswith (trace trace' seq seq' : hval) :
  trace' = shift_val n0 (length ext) trace → seq' = shift_val n0 (length ext) seq →
  simulates n0 ext id (endswith trace seq) (endswith trace' seq').
Proof. intros -> ->. destruct trace, seq; simpl; sim. Qed.

Lemma sim_all_nines (v v' : hval) :
  v' = shift_val n0 (length ext) v → simulates n0 ext id (all_nines v) (all_nines v').
Proof. intros ->. destruct v; simpl; sim. Qed.

Lemma default_shift (d : hval) (v : option hval) :
  shift_val n0 (length ext) d = d →
  default d (shift_val n0 (length ext) <$> v) = shift_val n0 (length ext) (default d v).
Proof. intros Hd. by destruct v. Qed.

Lemma sim_on_addenda (ach_data ach_data' : hval) (n : nat)
    (parsed_record parsed_record' current_batch current_batch' : hval)
    (current_entry current_entry' : hval) :
  ach_data' = shift_val n0 (length ext) ach_data →
  parsed_record' = shift_val n0 (length ext) parsed_record →
  current_batch' = shift_val n0 (length ext) current_batch →
  current_entry' = shift_val n0 (length ext) current_entry →
  simulates n0 ext id
    (Heap.on_addenda ach_data n parsed_record current_batch current_entry)
    (Heap.on_addenda ach_data' n parsed_record' current_batch' current_entry').
Proof.
  intros -> -> -> ->. unfold Heap.on_addenda.
  eapply sim_bind; [by apply sim_get|]. intros seq.
  rewrite default_shift by done.
  eapply sim_bind; [by apply sim_truthy|]. intros given. simpl.
  eapply (sim_bind id).
  { destruct given; [|by apply sim_ret].
    eapply sim_bind; [by apply sim_get|]. intros trace.
    rewrite default_shift by done. by apply sim_endswith. }
  intros matched. simpl. destruct matched; [sim|].
  eapply sim_bind; [by apply sim_truthy|]. intros open. simpl.
  eapply (sim_bind id).
  { destruct open; [sim | by apply sim_ret]. }
  intros has_entries. simpl. destruct has_entries; [sim|].
  by apply sim_append_error_about.
Qed.

Lemma sim_on_file_control (ach_data ach_data' parsed_record parsed_record' : hval) :
  ach_data' = shift_val n0 (length ext) ach_data →
  parsed_record' = shift_val n0 (length ext) parsed_record →
  simulates n0 ext id (Heap.on_file_control ach_data parsed_record)
    (Heap.on_file_control ach_data' parsed_record').
Proof.
  intros -> ->. unfold Heap.on_file_control.
  eapply sim_bind; [by apply sim_get|]. intros raw.
  eapply (sim_bind id).
  { destruct raw; simpl; [by apply sim_all_nines | by apply sim_ret]. }
  intros filler. simpl. destruct filler; [by apply sim_append_other|]. sim.
Qed.

Lemma is_type_shift (record_type : hval) (t : string) :
  Heap.is_type (shift_val n0 (length ext) record_type) t = Heap.is_type record_type t.
Proof. by destruct record_type. Qed.

Lemma sim_dispatch (ach_data ach_data' : hval) (n : nat)
    (record_type record_type' parsed_record parsed_record' : hval)
    (current_batch current_batch' current_entry current_entry' : hval) :
  ach_data' = shift_val n0 (length ext) ach_data →
  record_type' = shift_val n0 (length ext) record_type →
  parsed_record' = shift_val n0 (length ext) parsed_record →
  current_batch' = shift_val n0 (length ext) current_batch →
  current_entry' = shift_val n0 (length ext) current_entry →
  simulates n0 ext (prod_map (shift_val n0 (length ext)) (shift_val n0 (length ext)))
    (Heap.dispatch ach_data n record_type parsed_record current_batch current_entry)
    (Heap.dispatch ach_data' n record_type' parsed_record' current_batch' current_entry').
Proof.
  intros -> -> -> -> ->. unfold Heap.dispatch. rewrite !is_type_shift.
  destruct (Heap.is_type record_type "1"); [sim|].
  destruct (Heap.is_type record_type "5").
  { eapply sim_bind; [by apply sim_truthy|]. intros open. simpl.
    eapply (sim_bind id).
    { destruct open; [by apply sim_append_error | by apply sim_ret]. }
    intros _. sim. }
  destruct (Heap.is_type record_type "6").
  { eapply sim_bind; [by apply sim_truthy|]. intros open. destruct open; simpl.
    - sim.
    - eapply sim_bind; [by apply sim_append_error|]. intros. sim. }
  destruct (Heap.is_type record_type "7").
  { eapply sim_bind; [by apply sim_truthy|]. intros entry. destruct entry; simpl.
    - eapply sim_bind; [by apply sim_on_addenda|]. intros. sim.
    - eapply sim_bind; [by apply sim_append_error|]. intros. sim. }
  destruct (Heap.is_type record_type "8").
  { eapply sim_bind; [by apply sim_truthy|]. intros open. destruct open; simpl.
    - sim.
    - eapply sim_bind; [by apply sim_append_error|]. intros. sim. }
  destruct (Heap.is_type record_type "9").
  { eapply sim_bind; [by apply sim_on_file_control|]. intros. sim. }
  destruct (Heap.is_type record_type "filler").
  { eapply sim_bind; [by apply sim_append_other|]. intros. sim. }
  destruct (Heap.is_type record_type "unknown"); [|sim].
  eapply sim_bind; [by apply sim_append_other|]. intros.
  eapply sim_bind; [by apply sim_append_error_about|]. intros. sim.
Qed.

Lemma sim_loop_body (registry registry' : loc) (ach_data ach_data' : hval) (n : nat)
    (line : string) (current_batch current_batch' current_entry current_entry' : hval) :
  registry' = shift_loc n0 (length ext) registry →
  ach_data' = shift_val n0 (length ext) ach_data →
  current_batch' = shift_val n0 (length ext) current_batch →
  current_entry' = shift_val n0 (length ext) current_entry →
  simulates n0 ext (prod_map (shift_val n0 (length ext)) (shift_val n0 (length ext)))
    (Heap.loop_body registry ach_data n line current_batch current_entry)
    (Heap.loop_body registry' ach_data' n line current_batch' current_entry').
Proof.
  intros -> -> -> ->. unfold Heap.loop_body. destruct (_ =? 0); [sim|].
  eapply sim_bind; [by apply sim_check_length|]. intros _.
  eapply sim_bind; [by apply sim_parse_record|]. intros [rt p]. simpl.
  eapply sim_bind; [by apply sim_truthy|]. intros parsed.
  destruct parsed; simpl.
  - by apply sim_dispatch.
  - eapply sim_bind; [by apply sim_append_error|]. intros. sim.
Qed.

Lemma sim_loop (registry registry' : loc) (ach_data ach_data' : hval)
    (lines : list pyobj) (i : nat)
    (current_batch current_batch' current_entry current_entry' : hval) :
  registry' = shift_loc n0 (length ext) registry →
  ach_data' = shift_val n0 (length ext) ach_data →
  current_batch' = shift_val n0 (length ext) current_batch →
  current_entry' = shift_val n0 (length ext) current_entry →
  simulates n0 ext id
    (Heap.loop registry ach_data i lines current_batch current_entry)
    (Heap.loop registry' ach_data' i lines current_batch' current_entry').
Proof.
  intros -> ->. revert i current_batch current_batch' current_entry current_entry'.
  induction lines as [|line rest IH]; intros i cb cb' ce ce' -> ->; simpl;
    [by apply sim_ret|].
  destruct line; try apply sim_raise.
  eapply sim_bind; [by apply sim_loop_body|].
  intros [cb1 ce1]. simpl. by apply IH.
Qed.

(** A call on the larger heap does what it does on the smaller one, at
    addresses moved up. *)
Lemma sim_parse_ach_file_content (registry registry' : loc) (content : pyobj) :
  registry' = shift_loc n0 (length ext) registry →
  simulates n0 ext (shift_val n0 (length ext))
    (Heap.parse_ach_file_content registry content)
    (Heap.parse_ach_file_content registry' content).
Proof.
  intros ->. unfold Heap.parse_ach_file_content.
  eapply sim_bind; [by apply sim_alloc|]. intros batches.
  eapply sim_bind; [by apply sim_alloc|]. intros errors.
  eapply sim_bind; [by apply sim_alloc|]. intros others.
  eapply sim_bind; [by apply sim_alloc|]. intros ach_data.
  destruct (lines_of content) as [lines|].
  - eapply sim_bind; [by apply sim_loop|]. intros. by apply sim_ret.
  - eapply sim_bind; [by apply sim_append_error|]. intros. by apply sim_ret.
Qed.

(** What a value shows does not depend on where its objects are. *)
Lemma reify_reloc (fuel : nat) (h : heap) (v : hval) :
  n0 ≤ length h →
  reify fuel (reloc n0 ext h) (shift_val n0 (length ext) v) = reify fuel h v.
Proof.
  intros Hlen. revert v. induction fuel as [|fuel IH]; intros v; [by destruct v|].
  destruct v; try done. simpl. rewrite reloc_lookup by done.
  destruct (h !! l) as [[its|its]|]; simpl; [| |done].
  - f_equal. unfold shift_items. rewrite <- list_fmap_compose.
    apply list_fmap_ext. intros i [k x] _. simpl. by rewrite IH.
  - f_equal. rewrite <- list_fmap_compose.
    apply list_fmap_ext. intros i x _. simpl. by rewrite IH.
Qed.

End Reloc.

(** An object of a heap in which no address lies beyond the heap is not
    changed by moving the addresses beyond it. *)
Lemma shift_closed (h : heap) (k : nat) (o : hobj) :
  closed_obj h o → shift_obj (length h) k o = o.
Proof.
  assert (∀ v, closed_val h v → shift_val (length h) k v = v) as Hv.
  { intros [] Hc; try done. simpl in *. unfold shift_loc. by rewrite decide_True. }
  destruct o as [its|its]; simpl; intros Hc; f_equal.
  - unfold shift_items. induction Hc as [|[key v] its Hkv _ IH]; [done|].
    rewrite fmap_cons, IH. simpl. by rewrite Hv.
  - induction Hc as [|v its Hc0 _ IH]; [done|]. by rewrite fmap_cons, IH, Hv.
Qed.

Lemma reloc_closed (h ext : heap) :
  closed h → reloc (length h) ext h = h ++ ext.
Proof.
  intros Hc. unfold reloc. rewrite firstn_all, drop_all, fmap_nil, app_nil_r.
  f_equal. unfold closed in Hc.
  assert (∀ os, Forall (closed_obj h) os → shift_obj (length h) (length ext) <$> os = os)
    as Hos; [|by apply Hos].
  induction 1 as [|o os Ho _ IH]; [done|]. by rewrite fmap_cons, IH, shift_closed.
Qed.

(** *** A call on text returns *)

Lemma bind_value {A B} (m : M A) (f : A → M B) (h h1 : heap) (a : A) :
  m h = (h1, Value a) → bind m f h = f a h1.
Proof. intros Hm. unfold bind. by rewrite Hm. Qed.

Lemma get_dict (h : heap) (l : loc) (its : dict hval) (k : string) :
  h !! l = Some (HDict its) → get (HRef l) k h = (h, Value (dict_get its k)).
Proof. intros Hl. unfold get, deref, bind, load, ret. by rewrite Hl. Qed.

Lemma get_item_dict (h : heap) (l : loc) (its : dict hval) (k : string) (v : hval) :
  h !! l = Some (HDict its) → dict_get its k = Some v →
  get_item (HRef l) k h = (h, Value v).
Proof. intros Hl Hk. unfold get_item, deref, bind, load, ret. by rewrite Hl, Hk. Qed.

Lemma set_item_dict (h : heap) (l : loc) (its : dict hval) (k : string) (v : hval) :
  h !! l = Some (HDict its) →
  set_item (HRef l) k v h = (<[l := HDict (dict_set its k v)]> h, Value ()).
Proof. intros Hl. unfold set_item, deref, bind, load, ret, store. by rewrite Hl. Qed.

Lemma append_list (h : heap) (l : loc) (xs : list hval) (v : hval) :
  h !! l = Some (HList xs) →
  append (HRef l) v h = (<[l := HList (xs ++ [v])]> h, Value ()).
Proof. intros Hl. unfold append, deref, bind, load, ret, store. by rewrite Hl. Qed.

Lemma items_dict (h : heap) (l : loc) (its : dict hval) :
  h !! l = Some (HDict its) → items (HRef l) h = (h, Value its).
Proof. intros Hl. unfold items, deref, bind, load, ret. by rewrite Hl. Qed.

Lemma truthy_ref (h : heap) (l : loc) (o : hobj) :
  h !! l = Some o →
  truthy (HRef l) h
  = (h, Value match o with HDict [] | HList [] => false | _ => true end).
Proof. intros Hl. unfold truthy, bind, load, ret. by rewrite Hl. Qed.

Lemma text_at_set (its : dict hval) (k k' : string) (v : hval) :
  text_at its k' → (k = k' → ∃ s, v = HStr s) → text_at (dict_set its k v) k'.
Proof.
  intros Ht Hv. unfold text_at. destruct (decide (k = k')) as [->|Hne].
  - rewrite dict_get_set_eq. by destruct (Hv eq_refl) as [s ->].
  - by rewrite dict_get_set_ne.
Qed.

Lemma keeps_refl (Γ : list kind) : keeps Γ Γ.
Proof. by intros l k. Qed.

Lemma keeps_trans (Γ1 Γ2 Γ3 : list kind) : keeps Γ1 Γ2 → keeps Γ2 Γ3 → keeps Γ1 Γ3.
Proof. intros H1 H2 l k Hl Hk. apply H2; [|done]. by apply H1. Qed.

Lemma keeps_app (Γ : list kind) (ks : list kind) : keeps Γ (Γ ++ ks).
Proof. intros l k Hl _. by apply lookup_app_l_Some. Qed.

Lemma keeps_retype (Γ : list kind) (l : loc) (k : kind) :
  Γ !! l = Some KRec → keeps Γ (<[l := k]> Γ).
Proof.
  intros Hl l' k' Hl' Hk'. destruct (decide (l = l')) as [->|Hne].
  - congruence.
  - by rewrite list_lookup_insert_ne.
Qed.

Lemma refers_keeps (Γ Γ' : list kind) (v : hval) (k : kind) :
  keeps Γ Γ' → k ≠ KRec → refers Γ v k → refers Γ' v k.
Proof. intros Hk Hne (l & -> & Hl). exists l. split; [done|]. by apply Hk. Qed.

Lemma none_or_keeps (Γ Γ' : list kind) (v : hval) (k : kind) :
  keeps Γ Γ' → k ≠ KRec → none_or Γ k v → none_or Γ' k v.
Proof. intros Hk Hne [->|Hr]; [by left|]. right. by eapply refers_keeps. Qed.

Section Kinded.
Variables (h0 : heap) (registry : loc).
Hypothesis registry_defined : registry_at h0 registry.

Lemma shape_keeps (Γ Γ' : list kind) (l : loc) (k : kind) (o : hobj) :
  keeps Γ Γ' → shape h0 Γ l k o → shape h0 Γ' l k o.
Proof.
  intros Hk. destruct k; simpl; try done.
  - intros (its & -> & (v1 & H1 & R1) & (v2 & H2 & R2) & (v3 & H3 & R3)).
    exists its. split; [done|].
    repeat split; eexists; (split; [eassumption|]); by eapply refers_keeps.
  - intros (xs & -> & Hxs). exists xs. split; [done|].
    eapply Forall_impl; [exact Hxs|]. intros v Hv. by eapply refers_keeps.
  - intros (its & -> & (v & Hv & Rv) & Ht). exists its. split; [done|].
    split; [|done]. exists v. split; [done|]. by eapply refers_keeps.
  - intros (its & -> & (v & Hv & Rv)). exists its. split; [done|].
    exists v. split; [done|]. by eapply refers_keeps.
Qed.

(** A new object, of a kind of one's choice that fits it. *)
Lemma kinded_alloc (Γ : list kind) (h : heap) (k : kind) (o : hobj) :
  kinded h0 Γ h → shape h0 (Γ ++ [k]) (length h) k o →
  kinded h0 (Γ ++ [k]) (h ++ [o]).
Proof.
  intros [Hlen Hall] Ho. split; [by rewrite !length_app, Hlen|].
  intros l k' o' Hk' Ho'.
  apply lookup_app_Some in Ho' as [Ho'|[Hge Ho']].
  - apply lookup_lt_Some in Ho' as Hlt.
    rewrite lookup_app_l in Hk' by lia.
    eapply shape_keeps; [apply keeps_app|]. by eapply Hall.
  - apply list_lookup_singleton_Some in Ho' as [Hl <-].
    assert (l = length h) as -> by lia.
    rewrite lookup_app_r, Hlen, Nat.sub_diag in Hk' by lia.
    simpl in Hk'. by injection Hk' as <-.
Qed.

(** An object written in place, of the kind it had. *)
Lemma kinded_store (Γ : list kind) (h : heap) (l : loc) (k : kind) (o : hobj) :
  kinded h0 Γ h → Γ !! l = Some k → shape h0 Γ l k o →
  kinded h0 Γ (<[l := o]> h).
Proof.
  intros [Hlen Hall] Hk Ho. split; [by rewrite length_insert|].
  intros l' k' o' Hk' Ho'.
  apply list_lookup_insert_Some in Ho' as [(<- & <- & _)|(Hne & Ho')].
  - congruence.
  - by eapply Hall.
Qed.

(** A dictionary [parse_record] has returned, written in place and taken
    for a batch or an entry from then on. *)
Lemma kinded_retype (Γ : list kind) (h : heap) (l : loc) (k : kind) (o : hobj) :
  kinded h0 Γ h → Γ !! l = Some KRec → shape h0 (<[l := k]> Γ) l k o →
  kinded h0 (<[l := k]> Γ) (<[l := o]> h).
Proof.
  intros [Hlen Hall] Hk Ho. split; [by rewrite !length_insert|].
  intros l' k' o' Hk' Ho'.
  apply list_lookup_insert_Some in Ho' as [(<- & <- & Hlt)|(Hne & Ho')].
  - rewrite list_lookup_insert_eq in Hk' by lia. by injection Hk' as <-.
  - rewrite list_lookup_insert_ne in Hk' by done.
    eapply shape_keeps; [by apply keeps_retype|]. by eapply Hall.
Qed.

Lemma kinded_lookup (Γ : list kind) (h : heap) (l : loc) (k : kind) :
  kinded h0 Γ h → Γ !! l = Some k → ∃ o, h !! l = Some o ∧ shape h0 Γ l k o.
Proof.
  intros [Hlen Hall] Hk. apply lookup_lt_Some in Hk as Hlt. rewrite Hlen in Hlt.
  destruct (lookup_lt_is_Some_2 h l Hlt) as [o Ho]. exists o. split; [done|].
  by eapply Hall.
Qed.


Ltac run H :=
  let h' := fresh "h" in
  let E := fresh "E" in
  destruct H as (h' & E & ?); rewrite (bind_value _ _ _ _ _ E); clear E.

(** The three lists of [ach_data]. *)
Lemma ach_data_list (Γ : list kind) (h : heap) (ach : loc) (key : string) :
  kinded h0 Γ h → Γ !! ach = Some KAch →
  key = "batches" ∨ key = "errors" ∨ key = "other_records" →
  ∃ l xs, get_item (HRef ach) key h = (h, Value (HRef l))
          ∧ Γ !! l = Some KList ∧ h !! l = Some (HList xs).
Proof.
  intros Hk Hach Hkey.
  destruct (kinded_lookup _ _ _ _ Hk Hach) as (o & Ho & Hs). simpl in Hs.
  destruct Hs as (its & -> & (v1 & H1 & R1) & (v2 & H2 & R2) & (v3 & H3 & R3)).
  assert (∃ v, dict_get its key = Some v ∧ refers Γ v KList) as (v & Hv & l & -> & Hl).
  { destruct Hkey as [->|[->| ->]]; eauto. }
  destruct (kinded_lookup _ _ _ _ Hk Hl) as (o & Ho' & xs & ->).
  exists l, xs. split; [|done]. by eapply get_item_dict.
Qed.

Lemma append_error_returns (Γ : list kind) (h : heap) (ach : loc) (d : diagnostic) :
  kinded h0 Γ h → Γ !! ach = Some KAch →
  ∃ h', append_error (HRef ach) d h = (h', Value ()) ∧ kinded h0 Γ h'.
Proof.
  intros Hk Hach.
  destruct (ach_data_list Γ h ach "errors" Hk Hach) as (l & xs & Hget & Hl & Hxs); [auto|].
  unfold append_error. rewrite (bind_value _ _ _ _ _ Hget).
  rewrite (append_list _ _ _ _ Hxs). eexists. split; [done|].
  eapply kinded_store; [done..|]. simpl. eauto.
Qed.

Lemma rec_items (Γ : list kind) (h : heap) (p : loc) :
  kinded h0 Γ h → Γ !! p = Some KRec →
  ∃ its, h !! p = Some (HDict its)
         ∧ text_at its "trace_number"
         ∧ text_at its "entry_detail_sequence_number"
         ∧ text_at its "raw_line".
Proof.
  intros Hk Hp. destruct (kinded_lookup _ _ _ _ Hk Hp) as (o & Ho & its & -> & Hs).
  by exists its.
Qed.

Lemma append_error_about_returns (Γ : list kind) (h : heap) (ach p : loc)
    (d : record → diagnostic) :
  kinded h0 Γ h → Γ !! ach = Some KAch → Γ !! p = Some KRec →
  ∃ h', append_error_about (HRef ach) d (HRef p) h = (h', Value ()) ∧ kinded h0 Γ h'.
Proof.
  intros Hk Hach Hp.
  destruct (ach_data_list Γ h ach "errors" Hk Hach) as (l & xs & Hget & Hl & Hxs); [auto|].
  destruct (rec_items _ _ _ Hk Hp) as (its & Hits & _).
  unfold append_error_about. rewrite (bind_value _ _ _ _ _ Hget).
  rewrite (bind_value _ _ _ _ _ (items_dict _ _ _ Hits)).
  rewrite (append_list _ _ _ _ Hxs). eexists. split; [done|].
  eapply kinded_store; [done..|]. simpl. eauto.
Qed.

Lemma alloc_value (h : heap) (o : hobj) : alloc o h = (h ++ [o], Value (length h)).
Proof. done. Qed.

Lemma append_other_returns (Γ : list kind) (h : heap) (ach p : loc) (t : string) :
  kinded h0 Γ h → Γ !! ach = Some KAch →
  ∃ h', append_other (HRef ach) t (HRef p) h = (h', Value ())
        ∧ kinded h0 (Γ ++ [KFree]) h'.
Proof.
  intros Hk Hach.
  destruct (ach_data_list Γ h ach "other_records" Hk Hach)
    as (l & xs & Hget & Hl & Hxs); [auto|].
  unfold append_other. rewrite (bind_value _ _ _ _ _ Hget).
  rewrite (bind_value _ _ _ _ _ (alloc_value _ _)).
  assert (kinded h0 (Γ ++ [KFree])
            (h ++ [HDict [("type", HStr t); ("data", HRef p)]])) as Hk'.
  { apply kinded_alloc; [done|]. simpl. eauto. }
  apply lookup_lt_Some in Hxs as Hlt.
  erewrite append_list by (by rewrite lookup_app_l).
  eexists. split; [done|].
  eapply kinded_store; [done| |].
  - by apply lookup_app_l_Some.
  - simpl. eauto.
Qed.

Lemma check_length_returns (Γ : list kind) (h : heap) (ach : loc) (n : nat) (line : string) :
  kinded h0 Γ h → Γ !! ach = Some KAch →
  ∃ h', check_length (HRef ach) n line h = (h', Value ()) ∧ kinded h0 Γ h'.
Proof.
  intros Hk Hach. unfold check_length.
  destruct (_ && _); [|by exists h].
  destruct (negb _); [|by exists h].
  by apply append_error_returns.
Qed.

Lemma olds_keeps (Γ Γ' : list kind) : keeps Γ Γ' → olds h0 Γ → olds h0 Γ'.
Proof. intros Hk Ho l Hl. by apply Hk; [apply Ho|]. Qed.

Lemma old_lookup (Γ : list kind) (h : heap) (l : loc) (o : hobj) :
  kinded h0 Γ h → olds h0 Γ → h0 !! l = Some o → h !! l = Some o.
Proof.
  intros Hk Ho Hl. apply lookup_lt_Some in Hl as Hlt.
  destruct (kinded_lookup _ _ _ _ Hk (Ho l Hlt)) as (o' & Ho' & Hs).
  simpl in Hs. congruence.
Qed.

(** A key of a dictionary [parse_record] is filling. *)
Lemma rec_set_item (Γ : list kind) (h : heap) (p : loc) (k : string) (v : hval) :
  kinded h0 Γ h → Γ !! p = Some KRec →
  (∃ s, v = HStr s)
  ∨ (k ≠ "trace_number" ∧ k ≠ "entry_detail_sequence_number" ∧ k ≠ "raw_line") →
  ∃ h', set_item (HRef p) k v h = (h', Value ()) ∧ kinded h0 Γ h'.
Proof.
  intros Hk Hp Hv. destruct (rec_items _ _ _ Hk Hp) as (its & Hits & H1 & H2 & H3).
  rewrite (set_item_dict _ _ _ _ _ Hits). eexists. split; [done|].
  eapply kinded_store; [done..|]. simpl. exists (dict_set its k v). split; [done|].
  repeat split; (apply text_at_set; [done|]); intros ->;
    by destruct Hv as [?|(? & ? & ?)].
Qed.

Lemma numeric_field_not_read (k : string) :
  is_numeric_field k = true →
  k ≠ "trace_number" ∧ k ≠ "entry_detail_sequence_number" ∧ k ≠ "raw_line".
Proof. intros Hk. repeat split; intros ->; by vm_compute in Hk. Qed.

Lemma decode_field_returns (Γ : list kind) (h : heap) (p : loc) (line field_name : string)
    (spec : field_spec) :
  kinded h0 Γ h → Γ !! p = Some KRec →
  ∃ h', decode_field line (HRef p) (field_name, HTuple spec) h = (h', Value ())
        ∧ kinded h0 Γ h'.
Proof.
  intros Hk Hp. destruct spec as [[start end_] description]. unfold decode_field.
  run (rec_set_item Γ h p field_name
         (HStr (Text.strip (Text.slice line start (Nat.min end_ (String.length line)))))
         Hk Hp (or_introl (ex_intro _ _ eq_refl))).
  destruct (is_numeric_field field_name) eqn:Hnum; [|by eexists].
  destruct (converted _ _) as [[s|z]|]; try by eexists.
  apply rec_set_item; [done..|]. right. by apply numeric_field_not_read.
Qed.

Lemma decode_fields_return (Γ : list kind) (h : heap) (p : loc) (line : string)
    (fields : dict hval) :
  Forall (λ kv, ∃ spec, kv.2 = HTuple spec) fields →
  kinded h0 Γ h → Γ !! p = Some KRec →
  ∃ h', for_each fields (Heap.decode_field line (HRef p)) h = (h', Value ())
        ∧ kinded h0 Γ h'.
Proof.
  intros Hf. revert h. induction Hf as [|[k v] fields [spec Hv] _ IH]; intros h Hk Hp.
  - by exists h.
  - simpl in Hv. subst v. cbn [for_each].
    run (decode_field_returns Γ h p line k spec Hk Hp). by apply IH.
Qed.

(** [parse_record] on a line that is not empty returns a record type and
    a new dictionary. *)
Lemma parse_record_returns (Γ : list kind) (h : heap) (c : ascii) (rest : string) :
  kinded h0 Γ h → olds h0 Γ →
  ∃ h' rt, Heap.parse_record registry (String c rest) h
           = (h', Value (rt, HRef (length Γ)))
           ∧ kinded h0 (Γ ++ [KRec]) h'.
Proof.
  intros Hk Ho. destruct registry_defined as (its & Hreg & Hschemas).
  pose proof (old_lookup _ _ _ _ Hk Ho Hreg) as Hreg'.
  assert (length h = length Γ) as Hlen by (by destruct Hk).
  assert (∀ line, kinded h0 (Γ ++ [KRec]) (h ++ [HDict [("raw_line", HStr line)]]))
    as Hraw.
  { intros line. apply kinded_alloc; [done|]. simpl. eexists. split; [done|].
    by vm_compute. }
  assert (∀ t : string,
            ∃ h' rt,
              (let! p := alloc (HDict [("raw_line", HStr (Text.strip (String c rest)))]) in
               ret (HStr t, HRef p)) h
              = (h', Value (rt, HRef (length Γ)))
              ∧ kinded h0 (Γ ++ [KRec]) h') as Hunknown.
  { intros t. rewrite (bind_value _ _ _ _ _ (alloc_value _ _)). rewrite Hlen.
    eexists _, _. split; [done|]. apply Hraw. }
  unfold Heap.parse_record.
  rewrite (bind_value _ _ _ _ _ (get_dict _ _ _ _ Hreg')).
  destruct (dict_get its (String c EmptyString)) as [v|] eqn:Hv; simpl default.
  - apply dict_get_elem_of in Hv.
    rewrite Forall_forall in Hschemas. apply Hschemas in Hv. simpl in Hv.
    destruct Hv as (l & fields & -> & Hl & Hfields).
    pose proof (old_lookup _ _ _ _ Hk Ho Hl) as Hl'.
    rewrite (bind_value _ _ _ _ _ (truthy_ref _ _ _ Hl')).
    destruct fields as [|f fields]; cbn [negb].
    + destruct (_ && _); apply Hunknown.
    + rewrite (bind_value _ _ _ _ _ (alloc_value _ _)).
      assert (kinded h0 (Γ ++ [KRec]) (h ++ [HDict []])) as Hk'.
      { apply kinded_alloc; [done|]. simpl. eexists. split; [done|]. by vm_compute. }
      rewrite (bind_value _ _ _ _ _
                 (items_dict _ _ _ (lookup_app_l_Some _ [HDict []] _ _ Hl'))).
      destruct (decode_fields_return (Γ ++ [KRec]) _ (length h) (String c rest)
                  (f :: fields) Hfields Hk') as (h' & E & Hk'').
      { by rewrite Hlen, lookup_app_r, Nat.sub_diag. }
      rewrite (bind_value _ _ _ _ _ E). rewrite Hlen. by eexists _, _.
  - assert (truthy HNone h = (h, Value false)) as Ht by done.
    rewrite (bind_value _ _ _ _ _ Ht). cbn [negb].
    destruct (_ && _); apply Hunknown.
Qed.

Lemma last_item_list (h : heap) (l : loc) (xs : list hval) (v : hval) :
  h !! l = Some (HList xs) → last xs = Some v →
  last_item (HRef l) h = (h, Value v).
Proof. intros Hl Hv. unfold last_item, deref, bind, load, ret. by rewrite Hl, Hv. Qed.

Lemma truthy_none_or (Γ : list kind) (h : heap) (k : kind) (v : hval) :
  kinded h0 Γ h → none_or Γ k v →
  ∃ b, truthy v h = (h, Value b) ∧ (b = true → ∃ l, v = HRef l ∧ Γ !! l = Some k).
Proof.
  intros Hk [->|(l & -> & Hl)].
  - by exists false.
  - destruct (kinded_lookup _ _ _ _ Hk Hl) as (o & Ho & _).
    eexists. split; [by apply truthy_ref|]. eauto.
Qed.

(** [ach_data[key] = v], for a key other than the three lists. *)
Lemma ach_data_set_item (Γ : list kind) (h : heap) (ach : loc) (key : string) (v : hval) :
  kinded h0 Γ h → Γ !! ach = Some KAch →
  key ≠ "batches" → key ≠ "errors" → key ≠ "other_records" →
  ∃ h', set_item (HRef ach) key v h = (h', Value ()) ∧ kinded h0 Γ h'.
Proof.
  intros Hk Hach N1 N2 N3.
  destruct (kinded_lookup _ _ _ _ Hk Hach) as (o & Ho & Hs). simpl in Hs.
  destruct Hs as (its & -> & H1 & H2 & H3).
  rewrite (set_item_dict _ _ _ _ _ Ho). eexists. split; [done|].
  eapply kinded_store; [done..|]. simpl. eexists. split; [done|].
  by rewrite !dict_get_set_ne.
Qed.

(** [entry['addenda'].append(x)] *)
Lemma entry_addenda_append (Γ : list kind) (h : heap) (e : loc) (x : hval) :
  kinded h0 Γ h → Γ !! e = Some KEntry →
  ∃ h', (let! addenda := get_item (HRef e) "addenda" in append addenda x) h
        = (h', Value ())
        ∧ kinded h0 Γ h'.
Proof.
  intros Hk He.
  destruct (kinded_lookup _ _ _ _ Hk He) as (o & Ho & Hs). simpl in Hs.
  destruct Hs as (its & -> & (v & Hv & la & -> & Hla) & _).
  destruct (kinded_lookup _ _ _ _ Hk Hla) as (o & Hx & xs & ->).
  rewrite (bind_value _ _ _ _ _ (get_item_dict _ _ _ _ _ Ho Hv)).
  rewrite (append_list _ _ _ _ Hx). eexists. split; [done|].
  eapply kinded_store; [done..|]. simpl. eauto.
Qed.

Lemma on_addenda_returns (Γ : list kind) (h : heap) (ach p e : loc) (n : nat)
    (cb : hval) :
  kinded h0 Γ h → Γ !! ach = Some KAch → Γ !! p = Some KRec →
  none_or Γ KBatch cb → Γ !! e = Some KEntry →
  ∃ h', on_addenda (HRef ach) n (HRef p) cb (HRef e) h = (h', Value ())
        ∧ kinded h0 Γ h'.
Proof.
  intros Hk Hach Hp Hcb He.
  destruct (rec_items _ _ _ Hk Hp) as (its & Hits & _ & Hseq & _).
  destruct (kinded_lookup _ _ _ _ Hk He) as (o & Ho & Hs). simpl in Hs.
  destruct Hs as (eits & -> & _ & Htrace).
  unfold on_addenda.
  rewrite (bind_value _ _ _ _ _ (get_dict _ _ _ _ Hits)).
  assert (∃ given : bool,
            truthy (default HNone (dict_get its "entry_detail_sequence_number")) h
            = (h, Value given)
            ∧ (given = true →
               ∃ s, default HNone (dict_get its "entry_detail_sequence_number") = HStr s))
    as (given & Hgiven & Hs).
  { unfold text_at in Hseq.
    destruct (dict_get its "entry_detail_sequence_number") as [[s| | | | |]|];
      try done; simpl; eauto. by exists false. }
  rewrite (bind_value _ _ _ _ _ Hgiven).
  assert (∃ matched : bool,
            (if given
             then let! trace := get (HRef e) "trace_number" in
                  endswith (default (HStr EmptyString) trace)
                    (default HNone (dict_get its "entry_detail_sequence_number"))
             else ret false) h
            = (h, Value matched)) as (matched & Hmatched).
  { destruct given; [|by eexists].
    destruct (Hs eq_refl) as (s & ->).
    rewrite (bind_value _ _ _ _ _ (get_dict _ _ _ _ Ho)).
    unfold text_at in Htrace.
    destruct (dict_get eits "trace_number") as [[t| | | | |]|]; try done; by eexists. }
  rewrite (bind_value _ _ _ _ _ Hmatched).
  destruct matched; [by apply entry_addenda_append|].
  destruct (truthy_none_or _ _ _ _ Hk Hcb) as (open & Hopen & Hb).
  rewrite (bind_value _ _ _ _ _ Hopen).
  destruct open; cycle 1.
  { assert (ret false h = (h, Value false)) as Hr by done.
    rewrite (bind_value _ _ _ _ _ Hr). by apply append_error_about_returns. }
  destruct (Hb eq_refl) as (b & -> & Hbk).
  destruct (kinded_lookup _ _ _ _ Hk Hbk) as (o & Hbo & Hs'). simpl in Hs'.
  destruct Hs' as (bits & -> & (v & Hv & es & -> & Hes)).
  destruct (kinded_lookup _ _ _ _ Hk Hes) as (o & Heo & xs & -> & Hxs).
  pose proof (get_item_dict _ _ _ _ _ Hbo Hv) as Hentries.
  assert ((let! entries := get_item (HRef b) "entries" in truthy entries) h
          = (h, Value match xs with [] => false | _ => true end)) as Hhas.
  { rewrite (bind_value _ _ _ _ _ Hentries). by rewrite (truthy_ref _ _ _ Heo). }
  rewrite (bind_value _ _ _ _ _ Hhas).
  assert (match xs with [] => false | _ => true end
          = match last xs with Some _ => true | None => false end) as ->.
  { destruct xs as [|x xs']; [done|].
    by destruct (proj2 (last_is_Some (x :: xs')) ltac:(done)) as [y ->]. }
  destruct (last xs) as [y|] eqn:Hy; [|by apply append_error_about_returns].
  rewrite (bind_value _ _ _ _ _ Hentries).
  rewrite (bind_value _ _ _ _ _ (last_item_list _ _ _ _ Heo Hy)).
  apply last_Some_elem_of in Hy. rewrite Forall_forall in Hxs.
  destruct (Hxs _ Hy) as (e' & -> & He').
  by apply entry_addenda_append.
Qed.

Lemma on_file_control_returns (Γ : list kind) (h : heap) (ach p : loc) :
  kinded h0 Γ h → Γ !! ach = Some KAch → Γ !! p = Some KRec →
  ∃ Γ' h', on_file_control (HRef ach) (HRef p) h = (h', Value ())
           ∧ kinded h0 Γ' h' ∧ (Γ' = Γ ∨ Γ' = Γ ++ [KFree]).
Proof.
  intros Hk Hach Hp.
  destruct (rec_items _ _ _ Hk Hp) as (its & Hits & _ & _ & Hraw).
  unfold on_file_control.
  rewrite (bind_value _ _ _ _ _ (get_dict _ _ _ _ Hits)).
  assert (∃ filler : bool,
            match dict_get its "raw_line" with
            | Some v => Heap.all_nines v
            | None => ret false
            end h = (h, Value filler)) as (filler & Hfiller).
  { unfold text_at in Hraw.
    destruct (dict_get its "raw_line") as [[s| | | | |]|]; try done; by eexists. }
  rewrite (bind_value _ _ _ _ _ Hfiller).
  destruct filler.
  - destruct (append_other_returns Γ h ach p "filler" Hk Hach) as (h' & E & Hk').
    exists (Γ ++ [KFree]), h'. auto.
  - rewrite (bind_value _ _ _ _ _ (get_dict _ _ _ _ Hits)).
    destruct (ach_data_set_item Γ h ach "file_control" (HRef p) Hk Hach)
      as (h' & E & Hk'); [done..|].
    exists Γ, h'. auto.
Qed.

Lemma between_lines_keeps (Γ Γ' : list kind) (h h' : heap) (ach : loc) (cb ce : hval) :
  between_lines h0 Γ h ach cb ce → keeps Γ Γ' → kinded h0 Γ' h' →
  between_lines h0 Γ' h' ach cb ce.
Proof.
  intros (_ & Ho & Hach & Hcb & Hce) Hkeeps Hk'. split; [done|].
  split; [by eapply olds_keeps|]. split; [by apply Hkeeps|].
  split; by eapply none_or_keeps.
Qed.

Lemma heap_dispatch_returns (Γ : list kind) (h : heap) (ach p : loc) (n : nat)
    (rt cb ce : hval) :
  between_lines h0 Γ h ach cb ce → Γ !! p = Some KRec →
  ∃ Γ' h' cb' ce',
    Heap.dispatch (HRef ach) n rt (HRef p) cb ce h = (h', Value (cb', ce'))
    ∧ between_lines h0 Γ' h' ach cb' ce'.
Proof.
  intros Hb Hp. pose proof Hb as (Hk & Ho & Hach & Hcb & Hce).
  assert (length Γ = length h) as Hlen by (by destruct Hk).
  apply lookup_lt_Some in Hp as Hplt.
  assert (∀ h', kinded h0 Γ h' →
            ∃ Γ' h'' cb' ce',
              ret (cb, ce) h' = (h'', Value (cb', ce')) ∧ between_lines h0 Γ' h'' ach cb' ce')
    as Hsame.
  { intros h' Hk'. exists Γ, h', cb, ce. split; [done|].
    by eapply between_lines_keeps; [|apply keeps_refl|]. }
  unfold Heap.dispatch.
  destruct (is_type rt "1").
  { run (ach_data_set_item Γ h ach "file_header" (HRef p) Hk Hach
           ltac:(done) ltac:(done) ltac:(done)). by apply Hsame. }
  destruct (is_type rt "5").
  { destruct (truthy_none_or _ _ _ _ Hk Hcb) as (open & Hopen & _).
    rewrite (bind_value _ _ _ _ _ Hopen).
    assert (∃ h1, (if open then append_error (HRef ach) (UnexpectedBatchHeader n)
                   else ret ()) h = (h1, Value ()) ∧ kinded h0 Γ h1) as Herr.
    { destruct open; [by apply append_error_returns|by exists h]. }
    run Herr. rename H into Hk1.
    assert (length Γ = length h1) as Hlen1 by (by destruct Hk1).
    rewrite (bind_value _ _ _ _ _ (alloc_value _ _)).
    assert (kinded h0 (Γ ++ [KEntries]) (h1 ++ [HList []])) as Hk2.
    { apply kinded_alloc; [done|]. simpl. eexists. split; [done|]. constructor. }
    destruct (rec_items _ _ _ Hk2 (lookup_app_l_Some _ _ _ _ Hp)) as (its & Hits & _).
    rewrite (bind_value _ _ _ _ _ (set_item_dict _ _ _ _ _ Hits)).
    set (Γ3 := <[p := KBatch]> (Γ ++ [KEntries])).
    assert (keeps Γ Γ3) as Hkeeps.
    { eapply keeps_trans; [apply (keeps_app _ [KEntries])|].
      apply keeps_retype. by apply lookup_app_l_Some. }
    assert (Γ3 !! p = Some KBatch) as Hp3.
    { unfold Γ3. apply list_lookup_insert_eq. rewrite length_app. lia. }
    assert (kinded h0 Γ3
              (<[p := HDict (dict_set its "entries" (HRef (length h1)))]>
                 (h1 ++ [HList []]))) as Hk3.
    { apply kinded_retype; [done|by apply lookup_app_l_Some|].
      simpl. eexists. split; [done|]. eexists. split; [apply dict_get_set_eq|].
      eexists. split; [done|]. unfold Γ3.
      rewrite list_lookup_insert_ne by lia.
      by rewrite <- Hlen1, lookup_app_r, Nat.sub_diag. }
    destruct (ach_data_list Γ3 _ ach "batches" Hk3 (Hkeeps _ _ Hach ltac:(done)))
      as (lb & xs & Hget & Hlb & Hxs); [auto|].
    rewrite (bind_value _ _ _ _ _ Hget).
    rewrite (bind_value _ _ _ _ _ (append_list _ _ _ _ Hxs)).
    eexists Γ3, _, _, _. split; [done|].
    split; [|split; [by eapply olds_keeps|split; [by apply Hkeeps|split]]].
    - eapply kinded_store; [done..|]. simpl. eauto.
    - right. by exists p.
    - by eapply none_or_keeps. }
  destruct (is_type rt "6").
  { destruct (truthy_none_or _ _ _ _ Hk Hcb) as (open & Hopen & Hbatch).
    rewrite (bind_value _ _ _ _ _ Hopen).
    destruct open; cbn [negb]; cycle 1.
    { run (append_error_returns Γ h ach (EntryOutsideBatch n) Hk Hach).
      by apply Hsame. }
    destruct (Hbatch eq_refl) as (b & -> & Hbk).
    rewrite (bind_value _ _ _ _ _ (alloc_value _ _)).
    assert (kinded h0 (Γ ++ [KList]) (h ++ [HList []])) as Hk2.
    { apply kinded_alloc; [done|]. simpl. eauto. }
    destruct (rec_items _ _ _ Hk2 (lookup_app_l_Some _ _ _ _ Hp))
      as (its & Hits & Htrace & _).
    rewrite (bind_value _ _ _ _ _ (set_item_dict _ _ _ _ _ Hits)).
    set (Γ3 := <[p := KEntry]> (Γ ++ [KList])).
    assert (keeps Γ Γ3) as Hkeeps.
    { eapply keeps_trans; [apply (keeps_app _ [KList])|].
      apply keeps_retype. by apply lookup_app_l_Some. }
    assert (Γ3 !! p = Some KEntry) as Hp3.
    { unfold Γ3. apply list_lookup_insert_eq. rewrite length_app. lia. }
    assert (kinded h0 Γ3
              (<[p := HDict (dict_set its "addenda" (HRef (length h)))]>
                 (h ++ [HList []]))) as Hk3.
    { apply kinded_retype; [done|by apply lookup_app_l_Some|].
      simpl. eexists. split; [done|]. split.
      - eexists. split; [apply dict_get_set_eq|].
        eexists. split; [done|]. unfold Γ3.
        rewrite list_lookup_insert_ne by lia.
        by rewrite <- Hlen, lookup_app_r, Nat.sub_diag.
      - by apply text_at_set. }
    destruct (kinded_lookup _ _ _ _ Hk3 (Hkeeps _ _ Hbk ltac:(done)))
      as (o & Hbo & Hs). simpl in Hs.
    destruct Hs as (bits & -> & (v & Hv & es & -> & Hes)).
    destruct (kinded_lookup _ _ _ _ Hk3 Hes) as (o & Heo & xs & -> & Hxs).
    rewrite (bind_value _ _ _ _ _ (get_item_dict _ _ _ _ _ Hbo Hv)).
    rewrite (bind_value _ _ _ _ _ (append_list _ _ _ _ Heo)).
    eexists Γ3, _, _, _. split; [done|].
    split; [|split; [by eapply olds_keeps|split; [by apply Hkeeps|split]]].
    - eapply kinded_store; [done..|]. simpl. eexists. split; [done|].
      apply Forall_app. split; [done|]. constructor; [|done]. by exists p.
    - right. exists b. split; [done|]. by apply Hkeeps.
    - right. by exists p. }
  destruct (is_type rt "7").
  { destruct (truthy_none_or _ _ _ _ Hk Hce) as (entry & Hentry & He).
    rewrite (bind_value _ _ _ _ _ Hentry).
    destruct entry; cbn [negb]; cycle 1.
    { run (append_error_returns Γ h ach (AddendaWithoutEntry n) Hk Hach).
      by apply Hsame. }
    destruct (He eq_refl) as (e & -> & Hek).
    run (on_addenda_returns Γ h ach p e n cb Hk Hach Hp Hcb Hek).
    destruct (Hsame _ H) as (Γ' & h'' & cb' & ce' & E & Hb').
    by exists Γ', h'', cb', ce'. }
  destruct (is_type rt "8").
  { destruct (truthy_none_or _ _ _ _ Hk Hcb) as (open & Hopen & Hbatch).
    rewrite (bind_value _ _ _ _ _ Hopen).
    destruct open; cbn [negb]; cycle 1.
    { run (append_error_returns Γ h ach (BatchControlOutsideBatch n) Hk Hach).
      by apply Hsame. }
    destruct (Hbatch eq_refl) as (b & -> & Hbk).
    destruct (kinded_lookup _ _ _ _ Hk Hbk) as (o & Hbo & Hs). simpl in Hs.
    destruct Hs as (bits & -> & (v & Hv & Hr)).
    rewrite (bind_value _ _ _ _ _ (set_item_dict _ _ _ _ _ Hbo)).
    exists Γ. eexists _, _, _. split; [done|].
    split; [|split; [done|split; [done|split; by left]]].
    eapply kinded_store; [done..|]. simpl. eexists. split; [done|].
    exists v. by rewrite dict_get_set_ne. }
  destruct (is_type rt "9").
  { destruct (on_file_control_returns Γ h ach p Hk Hach Hp) as (Γ' & h' & E & Hk' & HΓ').
    rewrite (bind_value _ _ _ _ _ E).
    exists Γ', h', cb, ce. split; [done|].
    eapply between_lines_keeps; [done| |done].
    destruct HΓ' as [->| ->]; [apply keeps_refl|apply keeps_app]. }
  destruct (is_type rt "filler").
  { run (append_other_returns Γ h ach p "filler" Hk Hach).
    eexists _, _, cb, ce. split; [done|].
    eapply between_lines_keeps; [done|apply (keeps_app _ [KFree])|done]. }
  destruct (is_type rt "unknown").
  { run (append_other_returns Γ h ach p "unknown" Hk Hach). rename H into Hk1.
    run (append_error_about_returns (Γ ++ [KFree]) h1 ach p (UnknownRecordType n) Hk1
           (lookup_app_l_Some _ _ _ _ Hach) (lookup_app_l_Some _ _ _ _ Hp)).
    eexists _, _, cb, ce. split; [done|].
    eapply between_lines_keeps; [done|apply (keeps_app _ [KFree])|done]. }
  by apply Hsame.
Qed.

Lemma heap_loop_body_returns (Γ : list kind) (h : heap) (ach : loc) (n : nat) (line : string)
    (cb ce : hval) :
  between_lines h0 Γ h ach cb ce →
  ∃ Γ' h' cb' ce',
    Heap.loop_body registry (HRef ach) n line cb ce h = (h', Value (cb', ce'))
    ∧ between_lines h0 Γ' h' ach cb' ce'.
Proof.
  intros Hb. pose proof Hb as (Hk & Ho & Hach & Hcb & Hce).
  unfold Heap.loop_body.
  destruct (String.length (Text.strip line) =? 0) eqn:Hblank.
  { by exists Γ, h, cb, ce. }
  run (check_length_returns Γ h ach n line Hk Hach). rename H into Hk1.
  destruct line as [|c rest]; [done|].
  destruct (parse_record_returns Γ h1 c rest Hk1 Ho) as (h2 & rt & E & Hk2).
  rewrite (bind_value _ _ _ _ _ E).
  assert ((Γ ++ [KRec]) !! length Γ = Some KRec) as Hp.
  { by rewrite lookup_app_r, Nat.sub_diag. }
  assert (between_lines h0 (Γ ++ [KRec]) h2 ach cb ce) as Hb2.
  { eapply between_lines_keeps; [done|apply keeps_app|done]. }
  destruct (kinded_lookup _ _ _ _ Hk2 Hp) as (o & Hpo & _).
  rewrite (bind_value _ _ _ _ _ (truthy_ref _ _ _ Hpo)).
  destruct (negb _).
  - run (append_error_returns (Γ ++ [KRec]) h2 ach
           (CouldNotParse n (Text.strip (String c rest))) Hk2
           (lookup_app_l_Some _ _ _ _ Hach)).
    eexists _, _, cb, ce. split; [done|].
    eapply between_lines_keeps; [done|apply keeps_refl|done].
  - by apply (heap_dispatch_returns (Γ ++ [KRec]) h2 ach (length Γ)).
Qed.

Lemma heap_loop_returns (lines : list pyobj) (Γ : list kind) (h : heap) (ach : loc) (i : nat)
    (cb ce : hval) :
  forallb is_str lines = true →
  between_lines h0 Γ h ach cb ce →
  ∃ h', Heap.loop registry (HRef ach) i lines cb ce h = (h', Value ()).
Proof.
  revert Γ h i cb ce. induction lines as [|[line| | |] lines IH];
    intros Γ h i cb ce Hlines Hb; try done.
  - by exists h.
  - cbn [Heap.loop].
    destruct (heap_loop_body_returns Γ h ach (i + 1) line cb ce Hb)
      as (Γ' & h' & cb' & ce' & E & Hb').
    rewrite (bind_value _ _ _ _ _ E). by apply (IH Γ').
Qed.

End Kinded.

(** A call on a text, on a list of text, or on a value that is neither a
    text nor a list, returns. *)
Lemma call_returns (registry : loc) (content : pyobj) (h0 : heap) :
  registry_at h0 registry →
  is_list content = false ∨ is_list_of_str content = true →
  ∃ h v, Heap.parse_ach_file_content registry content h0 = (h, Value v).
Proof.
  intros Hreg Hcontent. unfold Heap.parse_ach_file_content.
  rewrite !(bind_value _ _ _ _ _ (alloc_value _ _)).
  set (Γ0 := replicate (length h0) KOld).
  set (Γ := Γ0 ++ [KList; KList; KList; KAch]).
  set (ach := S (S (S (length h0)))).
  match goal with
  | |- ∃ _ _, _ ?h = _ => set (h1 := h)
  end.
  assert (length Γ0 = length h0) as Hlen0 by apply length_replicate.
  assert (∀ l k, Γ0 !! l = Some k → k = KOld ∧ l < length h0) as Hold.
  { intros l k Hl. apply lookup_replicate in Hl. done. }
  assert (kinded h0 Γ h1) as Hk.
  { split.
    - unfold Γ, h1. rewrite !length_app, Hlen0. simpl. lia.
    - intros l k o Hl Ho. unfold Γ in Hl. unfold h1 in Ho.
      rewrite <- !(assoc_L (++)) in Ho. simpl in Ho.
      apply lookup_app_Some in Hl as [Hl|[Hge Hl]].
      + destruct (Hold _ _ Hl) as [-> Hlt]. by rewrite lookup_app_l in Ho.
      + rewrite lookup_app_r in Ho by lia. rewrite Hlen0 in Hl.
        destruct (l - length h0) as [|[|[|[|]]]] eqn:El; simpl in *;
          try done; simplify_eq; simpl.
        * eauto.
        * eauto.
        * eauto.
        * eexists. split; [done|].
          repeat split; eexists; (split; [reflexivity|]); eexists; (split; [done|]);
            rewrite ?length_app; cbn [length]; unfold Γ;
            (rewrite lookup_app_r by lia); rewrite Hlen0.
          -- match goal with |- _ !! ?n = _ => by replace n with 0 by lia end.
          -- match goal with |- _ !! ?n = _ => by replace n with 1 by lia end.
          -- match goal with |- _ !! ?n = _ => by replace n with 2 by lia end. }
  assert (between_lines h0 Γ h1 ach HNone HNone) as Hb.
  { split; [done|]. split; [|split; [|split; by left]].
    - intros l Hl. unfold Γ. rewrite lookup_app_l by lia.
      by apply lookup_replicate.
    - unfold Γ, ach. rewrite lookup_app_r, Hlen0 by lia.
      by replace (S (S (S (length h0))) - length h0) with 3 by lia. }
  assert (length (((h0 ++ [HList []]) ++ [HList []]) ++ [HList []]) = ach) as ->.
  { rewrite !length_app. simpl. unfold ach. lia. }
  destruct (lines_of content) as [lines|] eqn:Hlines.
  - assert (forallb is_str lines = true) as Hstr.
    { destruct content as [s|items| |]; simpl in Hlines; simplify_eq.
      - clear. induction (if has_newline s then _ else _); by simpl.
      - by destruct Hcontent. }
    destruct (heap_loop_returns h0 registry Hreg lines Γ h1 ach 0 HNone HNone Hstr Hb)
      as (h' & E).
    rewrite (bind_value _ _ _ _ _ E). by eexists _, _.
  - destruct Hb as (_ & _ & Hach & _).
    destruct (append_error_returns h0 Γ h1 ach InvalidContentType Hk Hach) as (h' & E & _).
    rewrite (bind_value _ _ _ _ _ E). by eexists _, _.
Qed.

(** *** Two calls *)

(** The objects a call finds on the heap are there, unchanged, when it
    ends. *)
Lemma call_frame (registry : loc) (content : pyobj) (h : heap) (l : loc) :
  l < length h → (Heap.parse_ach_file_content registry content h).1 !! l = h !! l.
Proof.
  intros Hl.
  destruct (frames_parse_ach_file_content (length h) registry content h) as (Ht & _).
  { split; [done|]. intros l' o Hl' Hlook. apply lookup_lt_Some in Hlook. lia. }
  rewrite firstn_all in Ht.
  rewrite <- (lookup_take_lt _ (length h)) by done. by rewrite Ht.
Qed.

(** The registry a call finds is the registry the next call finds. *)
Lemma registry_at_frame (registry : loc) (h h' : heap) :
  (∀ l, l < length h → h' !! l = h !! l) →
  registry_at h registry → registry_at h' registry.
Proof.
  intros Hframe (its & Hreg & Hschemas).
  assert (∀ l o, h !! l = Some o → h' !! l = Some o) as Hsame.
  { intros l o Hl. rewrite Hframe; [done|]. by eapply lookup_lt_Some. }
  exists its. split; [by apply Hsame|].
  eapply Forall_impl; [exact Hschemas|].
  intros [k v] (l & fields & -> & Hl & Hfields). exists l, fields. auto.
Qed.

(** C9. In every process whose heap holds no address beyond it and where
    [RECORD_DEFINITIONS] is a dictionary of schemas, as the module defines
    it: a call leaves every object it finds on the heap as it is, the
    registry and its schemas among them, and so does a second call on the
    same content, made on the heap the first one leaves; the second call
    ends as the first did, with a value that shows the same to any depth,
    or with the same exception; and on a text, on a list of text and on a
    value that is neither a text nor a list, both calls return. *)
Theorem calls_leave_no_state (registry : loc) (content : pyobj) (h0 : heap) :
  closed h0 → registry_at h0 registry →
  let r1 := Heap.parse_ach_file_content registry content h0 in
  let r2 := Heap.parse_ach_file_content registry content r1.1 in
  (∀ l, l < length h0 → r1.1 !! l = h0 !! l)
  ∧ (∀ l, l < length r1.1 → r2.1 !! l = r1.1 !! l)
  ∧ (∀ fuel, observe fuel r2 = observe fuel r1)
  ∧ (is_list content = false ∨ is_list_of_str content = true →
     ∃ v1 v2, r1.2 = Value v1 ∧ r2.2 = Value v2).
Proof.
  intros Hc Hreg r1 r2.
  assert (registry < length h0) as Hlt.
  { destruct Hreg as (its & Hits & _). by eapply lookup_lt_Some. }
  assert (∀ l, l < length h0 → r1.1 !! l = h0 !! l) as Hframe.
  { intros l Hl. by apply call_frame. }
  split; [done|]. split; [|split].
  - intros l Hl. by apply call_frame.
  - intros fuel. subst r2.
    destruct (call_extends registry content h0) as [new Hnew]. fold r1 in Hnew.
    assert (registry = shift_loc (length h0) (length new) registry) as Hr
      by by rewrite shift_loc_lt.
    destruct (sim_parse_ach_file_content (length h0) new registry registry content
                Hr h0 (le_n _)) as [Hsim Hlen].
    fold r1 in Hsim, Hlen. rewrite reloc_closed, <- Hnew in Hsim by done.
    rewrite Hsim. unfold observe. simpl.
    destruct (r1.2) as [v|e]; simpl; [|done]. by rewrite reify_reloc.
  - intros Hcontent.
    destruct (call_returns registry content h0 Hreg Hcontent) as (h1 & v1 & E1).
    destruct (call_returns registry content r1.1
                (registry_at_frame _ _ _ Hframe Hreg) Hcontent) as (h2 & v2 & E2).
    exists v1, v2. subst r2 r1. by rewrite E2, E1.
Qed.

Lemma calls_leave_no_state_witness :
  let h0 := (define_registry RECORD_DEFINITIONS []).1 in
  let content := PyList (PyStr <$> sample_reopened ++ sample_file) in
  let r1 := Heap.parse_ach_file_content 6 content h0 in
  let r2 := Heap.parse_ach_file_content 6 content r1.1 in
  (∀ l, l < length h0 → r1.1 !! l = h0 !! l)
  ∧ (∀ l, l < length r1.1 → r2.1 !! l = r1.1 !! l)
  ∧ (∀ fuel, observe fuel r2 = observe fuel r1)
  ∧ (is_list content = false ∨ is_list_of_str content = true →
     ∃ v1 v2, r1.2 = Value v1 ∧ r2.2 = Value v2).
Proof.
  apply (calls_leave_no_state 6 (PyList (PyStr <$> sample_reopened ++ sample_file))
           (define_registry RECORD_DEFINITIONS []).1).
  - vm_compute. repeat constructor.
  - eexists. split; [vm_compute; reflexivity|].
    repeat constructor; eexists _, _; (split; [reflexivity|]);
      (split; [reflexivity|]); repeat constructor; by eexists.
Defined.

(** *** The two readings on the sample files *)

Example readings_agree_on_sample_file :
  observe 7 (first_call (PyList (PyStr <$> sample_file)))
  = value_seen (PyList (PyStr <$> sample_file)).
Proof. vm_compute. reflexivity. Qed.

Example readings_agree_on_sample_mixed :
  observe 7 (first_call (PyList (PyStr <$> sample_mixed)))
  = value_seen (PyList (PyStr <$> sample_mixed)).
Proof. vm_compute. reflexivity. Qed.

Example readings_agree_on_block :
  observe 7 (first_call (PyStr (String.concat EmptyString sample_file)))
  = value_seen (PyStr (String.concat EmptyString sample_file)).
Proof. vm_compute. reflexivity. Qed.

Example readings_agree_on_non_text :
  observe 7 (first_call (PyList [PyStr sample_file_header; PyNone]))
  = value_seen (PyList [PyStr sample_file_header; PyNone]).
Proof. vm_compute. reflexivity. Qed.

Example readings_agree_on_none :
  observe 7 (first_call PyNone) = value_seen PyNone.
Proof. vm_compute. reflexivity. Qed.
